(** * AutoSharder plugin of discord-hybrid-sharding

  A shallow embedding of [src/Plugins/AutoSharder.ts]: the per-cluster
  reporter [AutoResharderClusterClient] and the manager-side
  [AutoResharderManager], followed by the properties of the control loop.

  JavaScript values are modelled only as far as the source inspects them:
  [typeof], the comparison operators, object identity of arrays and the
  arithmetic of the shard-count computation. Finite numbers are exact
  rationals; IEEE rounding, the two infinities and negative zero are outside
  the model. *)

From Stdlib Require Import List ZArith QArith Qround String Bool Lia Permutation.
Import ListNotations.

Local Open Scope Z_scope.

(** ** JavaScript values *)

Module Js.

(** A JS number: a finite value or NaN (the source tests [isNaN]). Finite
    values are rationals and the arithmetic below is exact: it is the
    arithmetic of IEEE doubles on whole numbers below 2^53, which is where the
    statements on sums and quotients are made; comparisons are exact on all
    finite values. Infinities and the sign of zero are not represented. *)
Inductive number : Type :=
| Fin (q : Q)
| NaN.

Inductive value : Type :=
| VUndefined
| VNull
| VBoolean (b : bool)
| VNumber (n : number)
| VString (s : string)
| VObject
| VFunction.

Inductive type_tag : Type :=
| TyUndefined | TyObject | TyBoolean | TyNumber | TyString | TyFunction.

Definition typeof (v : value) : type_tag :=
  match v with
  | VUndefined => TyUndefined
  | VNull => TyObject
  | VBoolean _ => TyBoolean
  | VNumber _ => TyNumber
  | VString _ => TyString
  | VObject => TyObject
  | VFunction => TyFunction
  end.

Definition is_number (v : value) : bool :=
  match typeof v with TyNumber => true | _ => false end.

Definition is_string (v : value) : bool :=
  match typeof v with TyString => true | _ => false end.

Definition isNaN (n : number) : bool :=
  match n with NaN => true | Fin _ => false end.

Definition of_Z (z : Z) : number := Fin (inject_Z z).

(** [a < b], [a <= b], [a > b], [a >= b]: every comparison with NaN is false. *)
Definition lt (a b : number) : bool :=
  match a, b with
  | Fin x, Fin y => negb (Qle_bool y x)
  | _, _ => false
  end.

Definition le (a b : number) : bool :=
  match a, b with
  | Fin x, Fin y => Qle_bool x y
  | _, _ => false
  end.

Definition gt (a b : number) : bool := lt b a.
Definition ge (a b : number) : bool := le b a.

Definition add (a b : number) : number :=
  match a, b with
  | Fin x, Fin y => Fin (x + y)
  | _, _ => NaN
  end.

Definition sub (a b : number) : number :=
  match a, b with
  | Fin x, Fin y => Fin (x - y)
  | _, _ => NaN
  end.

Definition mul (a b : number) : number :=
  match a, b with
  | Fin x, Fin y => Fin (x * y)
  | _, _ => NaN
  end.

(** Division. A zero divisor would give an infinity (or NaN for 0/0) in JS;
    infinities are not represented, the model answers NaN there. *)
Definition div (a b : number) : number :=
  match a, b with
  | Fin x, Fin y => if Qeq_bool y 0 then NaN else Fin (x / y)
  | _, _ => NaN
  end.

(** [Math.ceil] *)
Definition ceil (a : number) : number :=
  match a with
  | Fin x => Fin (inject_Z (Qceiling x))
  | NaN => NaN
  end.

(** Truthiness of a number, as used by [a || b]. *)
Definition truthy (a : number) : bool :=
  match a with
  | Fin x => negb (Qeq_bool x 0)
  | NaN => false
  end.

Definition or_else (a b : number) : number := if truthy a then a else b.

(** The numeric reading of an option value. Only numbers are read as
    numbers: the string-to-number coercions of JS are not modelled, they do
    not arise once [validate] has accepted the options. *)
Definition as_number (v : value) : number :=
  match v with
  | VNumber n => n
  | _ => NaN
  end.

(** [v === 'lit'] for a string literal. *)
Definition is_literal (v : value) (lit : string) : bool :=
  match v with
  | VString s => String.eqb s lit
  | _ => false
  end.

Inductive error : Type :=
| SyntaxError (msg : string)
| RangeError (msg : string)
| TypeError (msg : string)
| Error (msg : string).

(** How a call ends, or how an awaited promise settles. *)
Inductive completion (A : Type) : Type :=
| Normal (a : A)
| Throw (e : error).

Arguments Normal {A} a.
Arguments Throw {A} e.

(** [Array(n)]: a non-negative integer below 2^32, else a RangeError. *)
Definition array_length (n : number) : completion nat :=
  match n with
  | Fin q =>
      if Qeq_bool q (inject_Z (Qfloor q)) && Qle_bool 0 q && Qle_bool q (inject_Z (2 ^ 32 - 1))
      then Normal (Z.to_nat (Qfloor q))
      else Throw (RangeError "Invalid array length")
  | NaN => Throw (RangeError "Invalid array length")
  end.

(** [Array.from(Array(n).keys())] as a sequence 0, 1, ..., n-1. *)
Definition keys (n : nat) : list Z := map Z.of_nat (seq 0 n).

End Js.

(** The message tags of the library. Modelled from the spec: the [messageType]
  enum is declared outside this file; only the tag of the load report is
  named here, every other tag is kept by its number. *)
Inductive messageType : Type :=
| CLIENT_AUTORESHARDER_SENDDATA
| OtherMessageType (n : Z).

Definition messageType_eqb (a b : messageType) : bool :=
match a, b with
| CLIENT_AUTORESHARDER_SENDDATA, CLIENT_AUTORESHARDER_SENDDATA => true
| OtherMessageType x, OtherMessageType y => Z.eqb x y
| _, _ => false
end.

(** ** The reporter: [AutoResharderClusterClient] *)

Module AutoResharderClusterClient.

(** What a [sendDataFunction] hands back, before any check: the fields are
    arbitrary values. *)
Record shard_entry : Type := {
  shardId : Js.value;
  guildCount : Js.value
}.

Inductive send_data : Type :=
| NotAnObject
| SendData (clusterId : Js.value) (shardData : option (list shard_entry)).
(* [shardData = None]: not an array *)

Record sendDataMessage : Type := {
  _type : messageType;
  data : send_data
}.

(** The cluster client handle, as far as the plugin touches it. *)
Record ClusterClient : Type := {
  id : Js.value;
  info : option (option (list Z));
    (* [None]: [typeof info] is not 'object'; [Some None]: an object whose
       SHARD_LIST is no array; for [null] see [construct] *)
  send : option (sendDataMessage -> Js.completion Js.value);
  guilds : list Z                    (* shardId of every cached guild *)
}.

Record Options : Type := {
  sendDataIntervalMS : Js.value;
  sendDataFunction : option (ClusterClient -> Js.completion send_data);
  debug : bool
}.

Record PartialOptions : Type := {
  p_sendDataIntervalMS : option Js.value;
  p_sendDataFunction : option (option (ClusterClient -> Js.completion send_data));
  p_debug : option bool
}.

Definition no_override : PartialOptions :=
  {| p_sendDataIntervalMS := None; p_sendDataFunction := None; p_debug := None |}.

(** [{ ...o, ...(p || {}) }] *)
Definition merge (o : Options) (p : option PartialOptions) : Options :=
  match p with
  | None => o
  | Some p =>
      {| sendDataIntervalMS :=
           match p_sendDataIntervalMS p with Some v => v | None => sendDataIntervalMS o end;
         sendDataFunction :=
           match p_sendDataFunction p with Some f => f | None => sendDataFunction o end;
         debug := match p_debug p with Some b => b | None => debug o end |}
  end.

(** The default [sendDataFunction]: one entry per shard of the cluster,
    counting the cached guilds of that shard. *)
Definition default_sendDataFunction (cluster : ClusterClient) : Js.completion send_data :=
  match info cluster with
  | Some (Some shard_list) =>
      Js.Normal
        (SendData (id cluster)
           (Some (map (fun s =>
                         {| shardId := Js.VNumber (Js.of_Z s);
                            guildCount :=
                              Js.VNumber
                                (Js.of_Z (Z.of_nat (List.length (filter (Z.eqb s) (guilds cluster))))) |})
                      shard_list)))
  | _ => Js.Throw (Js.TypeError "Cannot read properties of undefined")
  end.

Definition default_options : Options :=
  {| sendDataIntervalMS := Js.VNumber (Js.Fin 60000);
     sendDataFunction := Some default_sendDataFunction;
     debug := false |}.

Definition timer := nat.

(** The timers of the host: the armed intervals with their period. *)
Record Timers : Type := {
  armed : list (timer * Js.value);
  next_timer : timer
}.

Definition setInterval (ms : Js.value) (T : Timers) : timer * Timers :=
  (next_timer T,
   {| armed := armed T ++ [(next_timer T, ms)]; next_timer := S (next_timer T) |}).

Definition clearInterval (i : timer) (T : Timers) : Timers :=
  {| armed := filter (fun e => negb (Nat.eqb (fst e) i)) (armed T);
     next_timer := next_timer T |}.

Definition is_armed (i : timer) (T : Timers) : bool :=
  existsb (fun e => Nat.eqb (fst e) i) (armed T).

(** The fields of the class. *)
Record t : Type := {
  clusterClient : option ClusterClient;
    (* [None]: a value whose [typeof] is not 'object'. [null] is not a value
       of the field: the constructor throws on it, see [construct] *)
  options : Options;
  interval : option timer;
  started : bool
}.

Inductive effect : Type :=
| Debug_Sending (clusterId : Js.value)
| Sent (m : sendDataMessage).

Record World : Type := {
  self : t;
  timers : Timers;
  trace : list effect
}.

Definition err_clusterClient : Js.error :=
  Js.SyntaxError "clusterClient must be provided with a valid clusterId, send function and info.SHARD_LISt".
Definition err_interval : Js.error :=
  Js.SyntaxError "CLIENT_AutoResharderOptions.sendDataIntervalMS must be a number >= 1000".
Definition err_function : Js.error :=
  Js.SyntaxError "CLIENT_AutoResharderOptions.sendDataFunction must be a function to return the sendData: { clusterId: number, shardData: { shardId: number; guildCount; number }[] }".
Definition err_not_running : Js.error := Js.Error "Not running!".
Definition err_already_started : Js.error := Js.Error "Already started".
Definition err_invalid_sendData : Js.error :=
  Js.SyntaxError "Invalid sendData, must be like this: { clusterId: number, shardData: { shardId: number; guildCount; number }[] }".

Definition valid_clusterClient (c : option ClusterClient) : bool :=
  match c with
  | None => false
  | Some c =>
      Js.is_number (id c)
      && match info c with Some (Some _) => true | _ => false end
      && match send c with Some _ => true | None => false end
  end.

Definition validate (r : t) : Js.completion unit :=
  if negb (valid_clusterClient (clusterClient r)) then Js.Throw err_clusterClient
  else if negb (Js.is_number (sendDataIntervalMS (options r)))
          || Js.lt (Js.as_number (sendDataIntervalMS (options r))) (Js.Fin 1000)
  then Js.Throw err_interval
  else match sendDataFunction (options r) with
       | None => Js.Throw err_function
       | Some _ => Js.Normal tt
       end.

Definition set_self (w : World) (r : t) : World :=
  {| self := r; timers := timers w; trace := trace w |}.

Definition set_interval_field (r : t) (i : option timer) : t :=
  {| clusterClient := clusterClient r; options := options r;
     interval := i; started := started r |}.

Definition set_options (r : t) (o : Options) : t :=
  {| clusterClient := clusterClient r; options := o;
     interval := interval r; started := started r |}.

(** The clearing block shared by [stop] and [reStart]:
    [if (this.interval) { clearInterval(this.interval); this.interval = null }] *)
Definition clear_and_forget (w : World) : World :=
  match interval (self w) with
  | Some i =>
      {| self := set_interval_field (self w) None;
         timers := clearInterval i (timers w);
         trace := trace w |}
  | None => w
  end.

Definition stop (w : World) : World * Js.completion bool :=
  let w := clear_and_forget w in
  if Bool.eqb (started (self w)) false then (w, Js.Throw err_not_running)
  else (w, Js.Normal true).

(** The check of the value a [sendDataFunction] returned; [true] means the
    SyntaxError is thrown. *)
Definition bad_entry (v : shard_entry) : bool :=
  negb (Js.is_number (guildCount v))
  || Js.lt (Js.as_number (guildCount v)) (Js.Fin 0)
  || negb (Js.is_number (shardId v))
  || Js.lt (Js.as_number (shardId v)) (Js.Fin 0).

Definition bad_sendData (d : send_data) : bool :=
  match d with
  | NotAnObject => true
  | SendData cid sd =>
      negb (Js.is_number cid)
      || Js.lt (Js.as_number cid) (Js.Fin 0)
      || match sd with
         | None => true
         | Some entries => existsb bad_entry entries
         end
  end.

Definition log (w : World) (e : effect) : World :=
  {| self := self w; timers := timers w; trace := trace w ++ [e] |}.

Definition sendData (w : World) : World * Js.completion Js.value :=
  match validate (self w) with
  | Js.Throw e => (w, Js.Throw e)
  | Js.Normal _ =>
      match clusterClient (self w), sendDataFunction (options (self w)) with
      | Some cc, Some f =>
          match f cc with
          | Js.Throw e => (w, Js.Throw e)
          | Js.Normal sd =>
              if bad_sendData sd then (w, Js.Throw err_invalid_sendData)
              else
                let w :=
                  if debug (options (self w))
                  then log w (Debug_Sending
                                match sd with SendData cid _ => cid | NotAnObject => Js.VUndefined end)
                  else w in
                match send cc with
                | Some send_fn =>
                    let m := {| _type := CLIENT_AUTORESHARDER_SENDDATA; data := sd |} in
                    (log w (Sent m), send_fn m)
                | None => (w, Js.Throw (Js.TypeError "send is not a function"))
                end
          end
      | _, _ => (w, Js.Throw (Js.TypeError "not a function"))
      end
  end.

(** [initialize(executeSendData)]: the old timer is cancelled, the optional
    immediate send is awaited, then the interval is armed. A failing send
    leaves the promise rejected and no interval armed. *)
Definition initialize (w : World) (executeSendData : bool) : World * Js.completion bool :=
  let w :=
    match interval (self w) with
    | Some i => {| self := self w; timers := clearInterval i (timers w); trace := trace w |}
    | None => w
    end in
  let '(w, sent) := if executeSendData then sendData w else (w, Js.Normal Js.VUndefined) in
  match sent with
  | Js.Throw e => (w, Js.Throw e)
  | Js.Normal _ =>
      let '(i, T) := setInterval (sendDataIntervalMS (options (self w))) (timers w) in
      ({| self := set_interval_field (self w) (Some i); timers := T; trace := trace w |},
       Js.Normal true)
  end.

(** [start(newOptions, executeSendData)]. The throw of the first line is
    synchronous, a failure inside [initialize] is a rejected promise; both
    are a [Throw] here. *)
Definition start (w : World) (newOptions : option PartialOptions) (executeSendData : bool)
  : World * Js.completion bool :=
  if Bool.eqb (started (self w)) true then (w, Js.Throw err_already_started)
  else
    let w := set_self w (set_options (self w) (merge (options (self w)) newOptions)) in
    initialize w executeSendData.

Definition reStart (w : World) (newOptions : option PartialOptions) (executeSendData : bool)
  : World * Js.completion bool :=
  let w := clear_and_forget w in
  let w := set_self w (set_options (self w) (merge (options (self w)) newOptions)) in
  initialize w executeSendData.

(** The constructor: merge, [validate], [initialize()]. *)
Definition new (cc : option ClusterClient) (opts : option PartialOptions) (T : Timers)
  : Js.completion World :=
  let r := {| clusterClient := cc; options := merge default_options opts;
              interval := None; started := false |} in
  match validate r with
  | Js.Throw e => Js.Throw e
  | Js.Normal _ => Js.Normal (fst (initialize {| self := r; timers := T; trace := [] |} false))
  end.



(** One firing of timer [i]: the callback [() => this.sendData()] runs when
    the timer is still armed. *)
Definition tick (i : timer) (w : World) : World * option (Js.completion Js.value) :=
  if is_armed i (timers w)
  then let '(w, c) := sendData w in (w, Some c)
  else (w, None).

(** The calls an owner can make, and the timer firings. *)
Inductive call : Type :=
| CallStop
| CallStart (newOptions : option PartialOptions) (executeSendData : bool)
| CallReStart (newOptions : option PartialOptions) (executeSendData : bool)
| Tick (i : timer).

Definition step (w : World) (c : call) : World :=
  match c with
  | CallStop => fst (stop w)
  | CallStart o b => fst (start w o b)
  | CallReStart o b => fst (reStart w o b)
  | Tick i => fst (tick i w)
  end.

Definition run (w : World) (cs : list call) : World := fold_left step cs w.

(** *** The calls as the event loop runs them

    The definitions above run the body of an [async] method to its end in one
    step: that is how a call behaves when nothing else happens before its
    promise settles. Below the bodies are cut at their [await]s, so that
    calls may overlap. An [async] method never throws to its caller: what its
    body throws rejects the promise it handed back. *)

(** Who waits for the promise of a [sendData] call. *)
Inductive waiter : Type :=
| Nobody        (* the timer callback [() => this.sendData()]: the promise is dropped *)
| Initialize.   (* [await this.sendData()] of line 192 *)

(** A suspended body. *)
Inductive task : Type :=
| LoadPending (load : Js.completion send_data) (k : waiter)
    (* [sendData] at the [await] of line 203, with the way the answer of the
       load function settles *)
| SendPending (sent : Js.completion Js.value) (k : waiter)
    (* [sendData] at the [await] of line 225 *)
| InitializeWaiting (sent : Js.completion Js.value).
    (* [initialize] at line 192, the promise of [sendData] having settled *)

(** A promise that settled. *)
Inductive notice : Type :=
| SendData_settled (c : Js.completion Js.value) (k : waiter)
| Initialize_settled (c : Js.completion bool).

Definition turn_result : Type := (World * list task * list notice)%type.

(** The promise of [sendData] settles; a waiting [initialize] goes on in a
    later turn. *)
Definition sendData_settles (w : World) (c : Js.completion Js.value) (k : waiter)
  : turn_result :=
  (w,
   match k with Nobody => [] | Initialize => [InitializeWaiting c] end,
   [SendData_settled c k]).

(** Lines 201-203: the part of [sendData] that runs within the call. A load
    function that throws is taken like one whose promise rejects. *)
Definition sendData_begin (w : World) (k : waiter) : turn_result :=
  match validate (self w) with
  | Js.Throw e => sendData_settles w (Js.Throw e) k
  | Js.Normal _ =>
      match clusterClient (self w), sendDataFunction (options (self w)) with
      | Some cc, Some f => (w, [LoadPending (f cc) k], [])
      | _, _ => sendData_settles w (Js.Throw (Js.TypeError "not a function")) k
      end
  end.

(** Lines 205-228: [sendData] once the answer of the load function settled. *)
Definition sendData_checked (w : World) (load : Js.completion send_data) (k : waiter)
  : turn_result :=
  match load with
  | Js.Throw e => sendData_settles w (Js.Throw e) k
  | Js.Normal sd =>
      if bad_sendData sd then sendData_settles w (Js.Throw err_invalid_sendData) k
      else
        let w :=
          if debug (options (self w))
          then log w (Debug_Sending
                        match sd with SendData cid _ => cid | NotAnObject => Js.VUndefined end)
          else w in
        match clusterClient (self w) with
        | Some cc =>
            match send cc with
            | Some send_fn =>
                let m := {| _type := CLIENT_AUTORESHARDER_SENDDATA; data := sd |} in
                (log w (Sent m), [SendPending (send_fn m) k], [])
            | None => sendData_settles w (Js.Throw (Js.TypeError "send is not a function")) k
            end
        | None => sendData_settles w (Js.Throw (Js.TypeError "not a function")) k
        end
  end.

(** Lines 195-197: [initialize] after its [await], or from its start when
    there is nothing to await. *)
Definition initialize_continues (w : World) (sent : Js.completion Js.value) : turn_result :=
  match sent with
  | Js.Throw e => (w, [], [Initialize_settled (Js.Throw e)])
  | Js.Normal _ =>
      let '(i, T) := setInterval (sendDataIntervalMS (options (self w))) (timers w) in
      ({| self := set_interval_field (self w) (Some i); timers := T; trace := trace w |},
       [], [Initialize_settled (Js.Normal true)])
  end.

(** Lines 189-193: [initialize] up to its [await]. *)
Definition initialize_begin (w : World) (executeSendData : bool) : turn_result :=
  let w :=
    match interval (self w) with
    | Some i => {| self := self w; timers := clearInterval i (timers w); trace := trace w |}
    | None => w
    end in
  if executeSendData then sendData_begin w Initialize
  else initialize_continues w (Js.Normal Js.VUndefined).

(** A call, as far as it runs before it gives control back. *)
Definition call_begin (w : World) (c : call) : turn_result :=
  match c with
  | CallStop => (fst (stop w), [], [])
  | CallStart o b =>
      if Bool.eqb (started (self w)) true then (w, [], [])
      else initialize_begin (set_self w (set_options (self w) (merge (options (self w)) o))) b
  | CallReStart o b =>
      let w := clear_and_forget w in
      initialize_begin (set_self w (set_options (self w) (merge (options (self w)) o))) b
  | Tick i => if is_armed i (timers w) then sendData_begin w Nobody else (w, [], [])
  end.

Definition resume_task (w : World) (t : task) : turn_result :=
  match t with
  | LoadPending load k => sendData_checked w load k
  | SendPending c k => sendData_settles w c k
  | InitializeWaiting c => initialize_continues w c
  end.

Fixpoint without {A : Type} (k : nat) (l : list A) : list A :=
  match l, k with
  | [], _ => []
  | _ :: l', O => l'
  | x :: l', S k' => x :: without k' l'
  end.

(** The reporter between two turns of the event loop. *)
Record Loop : Type := {
  world : World;
  pending : list task;
  settled : list notice
}.

Definition idle (w : World) : Loop := {| world := w; pending := []; settled := [] |}.

Inductive happening : Type :=
| Call (c : call)      (* the owner calls a method, or a timer fires *)
| Settle (k : nat).    (* the promise the k-th suspended body waits for settles *)

Definition after_turn (l : Loop) (rest : list task) (r : turn_result) : Loop :=
  let '(w, ts, ns) := r in
  {| world := w; pending := rest ++ ts; settled := settled l ++ ns |}.

Definition turn (l : Loop) (h : happening) : Loop :=
  match h with
  | Call c => after_turn l (pending l) (call_begin (world l) c)
  | Settle k =>
      match nth_error (pending l) k with
      | None => l
      | Some t => after_turn l (without k (pending l)) (resume_task (world l) t)
      end
  end.

Definition turns (l : Loop) (hs : list happening) : Loop := fold_left turn hs l.

(** One call with nothing coming in between: the call, then its suspended
    bodies one after the other. *)
Definition alone (w : World) (c : call) : Loop :=
  turns (idle w) [Call c; Settle O; Settle O; Settle O].


End AutoResharderClusterClient.

(** Short names for the two classes, used in the statements below. *)
Module Reporter := AutoResharderClusterClient.

(** ** The coordinator: [AutoResharderManager] *)

Module AutoResharderManager.

(** [AutoResharderSendData], as the manager reads it. *)
Record shard_data : Type := {
  shardId : Z;
  guildCount : Js.number
}.

Record AutoResharderSendData : Type := {
  clusterId : Z;
  shardData : list shard_data
}.

Record sendDataMessage : Type := {
  _type : messageType;
  data : AutoResharderSendData
}.

(** What arrives on a cluster's ['message'] event. *)
Inductive message : Type :=
| NotAnObject                    (* typeof message !== 'object' *)
| Plain (m : sendDataMessage)    (* the message itself *)
| Raw (m : sendDataMessage).     (* a wrapper holding the message under [raw] *)

Inductive restartMode : Type := gracefulSwitch | rolling.

Record RestartOptions : Type := {
  mode : option restartMode;
  delay : option Js.number;
  timeout : option Js.number
}.

Record Options : Type := {
  ShardsPerCluster : Js.value;
  MinGuildsPerShard : Js.value;
  MaxGuildsPerShard : Js.value;
  restartOptions : RestartOptions;
  debug : bool
}.

Record PartialOptions : Type := {
  p_ShardsPerCluster : option Js.value;
  p_MinGuildsPerShard : option Js.value;
  p_MaxGuildsPerShard : option Js.value;
  p_restartOptions : option RestartOptions;
  p_debug : option bool
}.

Definition no_override : PartialOptions :=
  {| p_ShardsPerCluster := None; p_MinGuildsPerShard := None; p_MaxGuildsPerShard := None;
     p_restartOptions := None; p_debug := None |}.

Definition default_options : Options :=
  {| ShardsPerCluster := Js.VString "useManagerOption";
     MinGuildsPerShard := Js.VNumber (Js.Fin 800);
     MaxGuildsPerShard := Js.VNumber (Js.Fin 1750);
     restartOptions :=
       {| mode := Some gracefulSwitch;
          delay := Some (Js.Fin 7000);
          timeout := Some (Js.Fin (-1)) |};
     debug := true |}.

Definition pick {A : Type} (override : option A) (base : A) : A :=
  match override with Some v => v | None => base end.

Definition first_some {A : Type} (override base : option A) : option A :=
  match override with Some v => Some v | None => base end.

(** [{ ...base, ...(override || {}) }] on the restart options. *)
Definition merge_restart (base : RestartOptions) (override : option RestartOptions)
  : RestartOptions :=
  match override with
  | None => base
  | Some o =>
      {| mode := first_some (mode o) (mode base);
         delay := first_some (delay o) (delay base);
         timeout := first_some (timeout o) (timeout base) |}
  end.

(** The merge of the constructor. *)
Definition merge (base : Options) (o : option PartialOptions) : Options :=
  match o with
  | None =>
      {| ShardsPerCluster := ShardsPerCluster base;
         MinGuildsPerShard := MinGuildsPerShard base;
         MaxGuildsPerShard := MaxGuildsPerShard base;
         restartOptions := merge_restart (restartOptions base) None;
         debug := debug base |}
  | Some o =>
      {| ShardsPerCluster := pick (p_ShardsPerCluster o) (ShardsPerCluster base);
         MinGuildsPerShard := pick (p_MinGuildsPerShard o) (MinGuildsPerShard base);
         MaxGuildsPerShard := pick (p_MaxGuildsPerShard o) (MaxGuildsPerShard base);
         restartOptions := merge_restart (restartOptions base) (p_restartOptions o);
         debug := pick (p_debug o) (debug base) |}
  end.

(** Arrays are objects: two arrays are compared by identity. The heap keeps
    the arrays of shard ids by address. *)
Definition loc := nat.
Definition Heap := list (list Z).

Definition alloc (h : Heap) (a : list Z) : loc * Heap := (List.length h, h ++ [a]).
Definition deref (h : Heap) (l : loc) : list Z := nth l h [].

(** The [ClusterManager], as far as the plugin touches it. *)
Record ClusterManager : Type := {
  clusterList : list Z;
  totalShards : Z;
  shardList : loc;
  shardsPerClusters : option Z;
  totalClusters : Z;
  recluster : bool;       (* whether the ReCluster plugin is attached *)
  token : string
}.

(** The argument of [manager.recluster.start]. *)
Record ReclusterStart : Type := {
  rs_restart : RestartOptions;
  rs_shardsPerClusters : Js.number;
  rs_totalShards : Js.number;
  rs_totalClusters : Js.number;
  rs_shardList : loc
}.

(** The fields of the class. *)
Record t : Type := {
  name : string;
  onProgress : bool;
  manager : ClusterManager;
  clusterDatas : list AutoResharderSendData;
  options : Options;
  clustersListening : list Z;
  isReClustering : bool
}.

Inductive effect : Type :=
| Debug_ReachedSendData (cluster : Z) (d : AutoResharderSendData)
| Debug_NotAllReached
| Debug_AlreadyResharding
| Debug_Reclustering (from : Z) (to : Js.number) (reached : Z)
    (top : option Js.number) (shards : list shard_data)
| Debug_Finished (result : Js.value)
| Call_fetchRecommendedShards (tok : string)
| Call_recluster_start (o : ReclusterStart).

(** The coordinator with its surroundings: the heap of arrays, what was logged
    and called so far, and the executor invocations that have not settled. *)
Record World : Type := {
  self : t;
  heap : Heap;
  trace : list effect;
  inflight : list ReclusterStart
}.

(** The capability outside this file that a cycle awaits before it calls the
    executor. *)
Record Env : Type := {
  fetchRecommendedShards : string -> Js.completion Js.number
}.

Definition err_ShardsPerCluster : Js.error :=
  Js.SyntaxError "MANAGER_AutoResharderOptions.ShardsPerCluster must be 'useManagerOption' or a number >= 1".
Definition err_MinGuildsPerShard : Js.error :=
  Js.SyntaxError "MANAGER_AutoResharderOptions.MinGuildsPerShard must be 'auto' or a number >= 500".
Definition err_MaxGuildsPerShard : Js.error :=
  Js.SyntaxError "MANAGER_AutoResharderOptions.MinGuildsPerShard must be higher (if not auto) than MANAGER_AutoResharderOptions.MaxGuildsPerShard and lower than 2500".
Definition err_no_recluster : Js.error :=
  Js.RangeError "ClusterManager must be extended with the ReCluster Plugin!".
Definition err_auto_max : Js.error :=
  Js.RangeError "If MANAGER_AutoResharderOptions.MinGuildsPerShard is set to 'auto' than MANAGER_AutoResharderOptions.MaxGuildsPerShard must be a number > 2000".
Definition err_custom_shardList : Js.error :=
  Js.RangeError "It seems you are using discord-cross-hosting or custom shardList Spezification, with that you can't run this plugin (yet)".

Definition validate (r : t) : Js.completion unit :=
  let o := options r in
  let spc := ShardsPerCluster o in
  let mn := MinGuildsPerShard o in
  let mx := MaxGuildsPerShard o in
  if Js.is_string spc && negb (Js.is_literal spc "useManagerOption")
  then Js.Throw err_ShardsPerCluster
  else if negb (Js.is_number spc) || Js.lt (Js.as_number spc) (Js.Fin 1)
  then Js.Throw err_ShardsPerCluster
  else
    if Js.is_string mn && negb (Js.is_literal mn "auto")
    then Js.Throw err_MinGuildsPerShard
    else if negb (Js.is_number mn) || Js.lt (Js.as_number mn) (Js.Fin 500)
    then Js.Throw err_MinGuildsPerShard
    else
      if negb (Js.is_number mx)
         || (Js.is_number mn && Js.le (Js.as_number mx) (Js.as_number mn))
         || Js.gt (Js.as_number mx) (Js.Fin 2500)
      then Js.Throw err_MaxGuildsPerShard
      else
        if negb (recluster (manager r)) then Js.Throw err_no_recluster
        else
          if Js.is_string mn && Js.is_literal mn "auto"
             && Js.le (Js.as_number mx) (Js.Fin 2000)
          then Js.Throw err_auto_max
          else Js.Normal tt.

(** The constructor: merge over the defaults, [validate], then [initialize],
    which only subscribes to ['clusterCreate']. *)
Definition new (clusterManager : ClusterManager) (opts : option PartialOptions)
  : Js.completion t :=
  let r :=
    {| name := "autoresharder";
       onProgress := false;
       manager := clusterManager;
       clusterDatas := [];
       options := merge default_options opts;
       clustersListening := [];
       isReClustering := false |} in
  match validate r with
  | Js.Throw e => Js.Throw e
  | Js.Normal _ => Js.Normal r
  end.

Definition build (r : t) (m : ClusterManager) : t :=
  {| name := name r; onProgress := onProgress r; manager := m;
     clusterDatas := clusterDatas r; options := options r;
     clustersListening := clustersListening r; isReClustering := isReClustering r |}.

Definition set_clusterDatas (r : t) (ds : list AutoResharderSendData) : t :=
  {| name := name r; onProgress := onProgress r; manager := manager r;
     clusterDatas := ds; options := options r;
     clustersListening := clustersListening r; isReClustering := isReClustering r |}.

Definition set_isReClustering (r : t) (b : bool) : t :=
  {| name := name r; onProgress := onProgress r; manager := manager r;
     clusterDatas := clusterDatas r; options := options r;
     clustersListening := clustersListening r; isReClustering := b |}.

Definition set_clustersListening (r : t) (l : list Z) : t :=
  {| name := name r; onProgress := onProgress r; manager := manager r;
     clusterDatas := clusterDatas r; options := options r;
     clustersListening := l; isReClustering := isReClustering r |}.

Definition with_self (w : World) (r : t) : World :=
  {| self := r; heap := heap w; trace := trace w; inflight := inflight w |}.

Definition with_heap (w : World) (h : Heap) : World :=
  {| self := self w; heap := h; trace := trace w; inflight := inflight w |}.

Definition log (w : World) (e : effect) : World :=
  {| self := self w; heap := heap w; trace := trace w ++ [e]; inflight := inflight w |}.

Definition log_if (b : bool) (w : World) (e : effect) : World :=
  if b then log w e else w.

(** [Array.prototype.findIndex]; [None] stands for the answer -1. *)
Fixpoint findIndex {A : Type} (p : A -> bool) (l : list A) : option nat :=
  match l with
  | [] => None
  | x :: l' =>
      if p x then Some O
      else match findIndex p l' with
           | Some i => Some (S i)
           | None => None
           end
  end.

(** [l[i] = x] for an index inside the array. *)
Fixpoint assign {A : Type} (i : nat) (x : A) (l : list A) : list A :=
  match l, i with
  | [], _ => []
  | _ :: l', O => x :: l'
  | y :: l', S i' => y :: assign i' x l'
  end.

(** The table update of the message listener. *)
Definition store_report (d : AutoResharderSendData) (ds : list AutoResharderSendData)
  : list AutoResharderSendData :=
  match findIndex (fun v => Z.eqb (clusterId v) (clusterId d)) ds with
  | None => ds ++ [d]
  | Some index => assign index d ds
  end.

(** The summand and the accumulator of the [reduce] callback. *)
Definition sum_step (a : Js.number) (b : shard_data) : Js.number :=
  Js.add (if negb (Js.isNaN (guildCount b)) then guildCount b else Js.Fin 0)
         (Js.or_else a (Js.Fin 0)).

Definition total_guilds (ds : list AutoResharderSendData) : Js.number :=
  fold_left sum_step (flat_map shardData ds) (Js.Fin 0).

(** [this.clusterDatas.flatMap(...).reduce(...) / MinGuildsPerShard], rounded up. *)
Definition estimated_shards (ds : list AutoResharderSendData) (minGuilds : Js.value)
  : Js.number :=
  Js.ceil (Js.div (total_guilds ds) (Js.as_number minGuilds)).

(** [newShardsCount > totalShards ? newShardsCount : Math.ceil(totalShards * 1.2)] *)
Definition realShardCount (newShardsCount : Js.number) (total : Z) : Js.number :=
  if Js.gt newShardsCount (Js.of_Z total) then newShardsCount
  else Js.ceil (Js.mul (Js.of_Z total) (Js.Fin 1.2)).

(** The predicate of the threshold scan. *)
Definition reached (maxGuilds : Js.value) (v : AutoResharderSendData) : bool :=
  existsb (fun x => Js.ge (guildCount x) (Js.as_number maxGuilds)) (shardData v).

(** [sort((a, b) => b.guildCount - a.guildCount)]: stable, descending; a
    comparator answer that is not positive keeps the order. *)
Fixpoint insert_desc (x : shard_data) (l : list shard_data) : list shard_data :=
  match l with
  | [] => [x]
  | y :: l' =>
      if Js.gt (Js.sub (guildCount y) (guildCount x)) (Js.Fin 0)
      then y :: insert_desc x l'
      else x :: y :: l'
  end.

Definition sort_desc (l : list shard_data) : list shard_data :=
  fold_right insert_desc [] l.

(** The sort is in place: the report found by the scan is the one stored in
    the table, and its [shardData] is reordered there, once for each of the
    two [sort] calls of the debug line. *)
Fixpoint update_first {A : Type} (p : A -> bool) (f : A -> A) (l : list A) : list A :=
  match l with
  | [] => []
  | x :: l' => if p x then f x :: l' else x :: update_first p f l'
  end.

Definition sort_report (v : AutoResharderSendData) : AutoResharderSendData :=
  {| clusterId := clusterId v; shardData := sort_desc (sort_desc (shardData v)) |}.

Definition finalShardsPerCluster (w : World) : Js.number :=
  let r := self w in
  if Js.is_literal (ShardsPerCluster (options r)) "useManagerOption"
  then
    Js.or_else
      (match shardsPerClusters (manager r) with Some n => Js.of_Z n | None => Js.NaN end)
      (Js.ceil (Js.div (Js.of_Z (Z.of_nat (List.length (deref (heap w) (shardList (manager r))))))
                       (Js.of_Z (totalClusters (manager r)))))
  else Js.as_number (ShardsPerCluster (options r)).

(** How far a call of [checkReCluster] got when it gave control back. *)
Inductive cycle : Type :=
| Returned                              (* the promise resolved *)
| Rejected (e : Js.error)               (* the promise rejected *)
| AwaitingRecluster (o : ReclusterStart).
  (* suspended at [await this.manager.recluster.start(...)] *)

(** Line 310: a fresh array [0 .. totalShards-1] is built and compared with
    [this.manager.shardList] by [!=]. Both operands are objects, so the
    comparison is on identity. The answer is [true] when they differ. *)
Definition shardList_differs (w : World) : World * Js.completion bool :=
  match Js.array_length (Js.of_Z (totalShards (manager (self w)))) with
  | Js.Throw e => (w, Js.Throw e)
  | Js.Normal n =>
      let '(fresh, h) := alloc (heap w) (Js.keys n) in
      (with_heap w h, Js.Normal (negb (Nat.eqb fresh (shardList (manager (self w))))))
  end.

(** Lines 317-370: the threshold scan and, when a shard reached the maximum,
    the computation of the new topology up to the call of the executor. The
    [await] of [fetchRecommendedShards] is taken in one step, with the answer
    of [E]; the cycle is suspended at the call of the executor only. *)
Definition rescale (E : Env) (w : World) : World * cycle :=
  let opts := options (self w) in
  match find (reached (MaxGuildsPerShard opts)) (clusterDatas (self w)) with
  | None => (w, Returned)
  | Some reachedCluster =>
      if negb (recluster (manager (self w))) then (w, Rejected err_no_recluster)
      else
        let w := with_self w (set_isReClustering (self w) true) in
        let '(w, newShardsCount) :=
          if Js.is_literal (MinGuildsPerShard opts) "auto"
          then (log w (Call_fetchRecommendedShards (token (manager (self w)))),
                fetchRecommendedShards E (token (manager (self w))))
          else (w, Js.Normal (estimated_shards (clusterDatas (self w)) (MinGuildsPerShard opts))) in
        match newShardsCount with
        | Js.Throw e => (w, Rejected e)
        | Js.Normal newShardsCount =>
            let total := totalShards (manager (self w)) in
            let real := realShardCount newShardsCount total in
            let w :=
              if debug opts
              then
                let once := sort_desc (shardData reachedCluster) in
                let w :=
                  with_self w
                    (set_clusterDatas (self w)
                       (update_first (reached (MaxGuildsPerShard opts)) sort_report
                          (clusterDatas (self w)))) in
                log w (Debug_Reclustering total real (clusterId reachedCluster)
                         (match once with
                          | x :: _ => Some (guildCount x)
                          | [] => None
                          end)
                         (sort_desc once))
              else w in
            let final := finalShardsPerCluster w in
            match Js.array_length real with
            | Js.Throw e => (w, Rejected e)
            | Js.Normal n =>
                let '(fresh, h) := alloc (heap w) (Js.keys n) in
                let o :=
                  {| rs_restart := restartOptions opts;
                     rs_shardsPerClusters := final;
                     rs_totalShards := real;
                     rs_totalClusters := Js.ceil (Js.div real final);
                     rs_shardList := fresh |} in
                ({| self := self w; heap := h;
                    trace := trace w ++ [Call_recluster_start o];
                    inflight := inflight w ++ [o] |},
                 AwaitingRecluster o)
            end
        end
  end.

(** [checkReCluster], up to its first suspension. *)
Definition checkReCluster (E : Env) (w : World) : World * cycle :=
  let r := self w in
  if Nat.leb (List.length (clusterDatas r)) (List.length (clusterList (manager r)))
  then (log_if (debug (options r)) w Debug_NotAllReached, Returned)
  else
    let w :=
      if isReClustering r
      then log_if (debug (options r)) w Debug_AlreadyResharding
      else w in
    match shardList_differs w with
    | (w, Js.Throw e) => (w, Rejected e)
    | (w, Js.Normal true) => (w, Rejected err_custom_shardList)
    | (w, Js.Normal false) => rescale E w
    end.

Fixpoint remove_nth {A : Type} (i : nat) (l : list A) : list A :=
  match l, i with
  | [], _ => []
  | _ :: l', O => l'
  | x :: l', S i' => x :: remove_nth i' l'
  end.

(** Lines 372-377: what a suspended cycle does when the executor's promise
    settles. A rejection is rethrown by the [await]; the rest is skipped. *)
Definition resume (w : World) (i : nat) (settled : Js.completion Js.value) : World * cycle :=
  match nth_error (inflight w) i with
  | None => (w, Returned)
  | Some _ =>
      let w := {| self := self w; heap := heap w; trace := trace w;
                  inflight := remove_nth i (inflight w) |} in
      match settled with
      | Js.Throw e => (w, Rejected e)
      | Js.Normal result =>
          let w := with_self w (set_isReClustering (self w) false) in
          (log_if (debug (options (self w))) w (Debug_Finished result), Returned)
      end
  end.

(** The listener of a cluster's ['message'] event. The call of
    [checkReCluster] is not awaited: its rejection does not reach the
    listener. *)
Definition on_message (E : Env) (w : World) (cluster : Z) (m : message)
  : World * option cycle :=
  match m with
  | NotAnObject => (w, None)
  | Plain msg | Raw msg =>
      if negb (messageType_eqb (_type msg) CLIENT_AUTORESHARDER_SENDDATA) then (w, None)
      else
        let w := with_self w (set_clusterDatas (self w)
                                (store_report (data msg) (clusterDatas (self w)))) in
        let w := log_if (debug (options (self w))) w (Debug_ReachedSendData cluster (data msg)) in
        let '(w, c) := checkReCluster E w in
        (w, Some c)
  end.

(** The listener of ['clusterCreate']. *)
Definition on_clusterCreate (w : World) (cluster : Z) : World :=
  if existsb (Z.eqb cluster) (clustersListening (self w)) then w
  else with_self w (set_clustersListening (self w) (clustersListening (self w) ++ [cluster])).

Inductive event : Type :=
| ClusterCreate (cluster : Z)
| ClusterMessage (cluster : Z) (m : message)
| ReclusterSettled (i : nat) (settled : Js.completion Js.value).

(** One turn of the event loop. A message is heard only on a cluster that got
    its listener. *)
Definition step (E : Env) (w : World) (e : event) : World :=
  match e with
  | ClusterCreate c => on_clusterCreate w c
  | ClusterMessage c m =>
      if existsb (Z.eqb c) (clustersListening (self w))
      then fst (on_message E w c m)
      else w
  | ReclusterSettled i s => fst (resume w i s)
  end.

Definition run (E : Env) (w : World) (es : list event) : World := fold_left (step E) es w.

(** The heap holds the manager's shard list: [this.manager.shardList] is an
    array that exists. *)
Definition well_formed (w : World) : Prop :=
  (shardList (manager (self w)) < List.length (heap w))%nat.

End AutoResharderManager.

Module Manager := AutoResharderManager.

(** ** Concrete instances used by the evaluations below *)

Definition accept_send (m : Reporter.sendDataMessage) : Js.completion Js.value :=
  Js.Normal Js.VUndefined.

(** Cluster 0 with shards 0 and 1, two guilds on shard 0 and one on shard 1. *)
Definition cluster0 : Reporter.ClusterClient :=
  {| Reporter.id := Js.VNumber (Js.Fin 0);
     Reporter.info := Some (Some [0; 1]);
     Reporter.send := Some accept_send;
     Reporter.guilds := [0; 0; 1] |}.

Definition no_timers : Reporter.Timers :=
  {| Reporter.armed := []; Reporter.next_timer := O |}.

(** The reporter right after [new AutoResharderClusterClient(cluster0)]. *)
Definition reporter0 : Reporter.World :=
  {| Reporter.self :=
       {| Reporter.clusterClient := Some cluster0;
          Reporter.options := Reporter.default_options;
          Reporter.interval := Some O;
          Reporter.started := false |};
     Reporter.timers :=
       {| Reporter.armed := [(O, Js.VNumber (Js.Fin 60000))]; Reporter.next_timer := 1%nat |};
     Reporter.trace := [] |}.

Definition interval_5ms : Reporter.PartialOptions :=
  {| Reporter.p_sendDataIntervalMS := Some (Js.VNumber (Js.Fin 5));
     Reporter.p_sendDataFunction := None;
     Reporter.p_debug := None |}.

(** ** The vocabulary of the report-shape property *)

Definition non_numeric (v : Js.value) : Prop := Js.typeof v <> Js.TyNumber.

Definition negative (v : Js.value) : Prop :=
  exists q, v = Js.VNumber (Js.Fin q) /\ (q < 0)%Q.

Definition non_negative_number (v : Js.value) : Prop :=
  exists q, v = Js.VNumber (Js.Fin q) /\ (0 <= q)%Q.

(** A report that must not leave the worker, and one that must. *)
Definition malformed (cid : Js.value) (shards : option (list Reporter.shard_entry)) : Prop :=
  non_numeric cid
  \/ negative cid
  \/ exists entries,
       shards = Some entries
       /\ Exists (fun e => negative (Reporter.shardId e) \/ non_numeric (Reporter.guildCount e))
            entries.

Definition well_shaped (cid : Js.value) (entries : list Reporter.shard_entry) : Prop :=
  non_negative_number cid
  /\ Forall (fun e => non_negative_number (Reporter.shardId e)
                      /\ non_negative_number (Reporter.guildCount e)) entries.

(** What the default [sendDataFunction] reports for [cluster0]. *)
Definition cluster0_entries : list Reporter.shard_entry :=
  [ {| Reporter.shardId := Js.VNumber (Js.of_Z 0); Reporter.guildCount := Js.VNumber (Js.of_Z 2) |};
    {| Reporter.shardId := Js.VNumber (Js.of_Z 1); Reporter.guildCount := Js.VNumber (Js.of_Z 1) |} ].

(** ** Coordinator instances *)

Definition fetch_8 : Manager.Env :=
  {| Manager.fetchRecommendedShards := fun _ => Js.Normal (Js.of_Z 8) |}.

(** [{ ShardsPerCluster: 2, MinGuildsPerShard: 1000, MaxGuildsPerShard: 2000 }] *)
Definition numeric_options : Manager.PartialOptions :=
  {| Manager.p_ShardsPerCluster := Some (Js.VNumber (Js.Fin 2));
     Manager.p_MinGuildsPerShard := Some (Js.VNumber (Js.Fin 1000));
     Manager.p_MaxGuildsPerShard := Some (Js.VNumber (Js.Fin 2000));
     Manager.p_restartOptions := None;
     Manager.p_debug := None |}.

(** [{ ShardsPerCluster: 2, MinGuildsPerShard: 'auto', MaxGuildsPerShard: 2100 }] *)
Definition auto_options : Manager.PartialOptions :=
  {| Manager.p_ShardsPerCluster := Some (Js.VNumber (Js.Fin 2));
     Manager.p_MinGuildsPerShard := Some (Js.VString "auto");
     Manager.p_MaxGuildsPerShard := Some (Js.VNumber (Js.Fin 2100));
     Manager.p_restartOptions := None;
     Manager.p_debug := None |}.

(** [{ ShardsPerCluster: 'useManagerOption', MinGuildsPerShard: 1000,
       MaxGuildsPerShard: 2000 }] *)
Definition inherit_options : Manager.PartialOptions :=
  {| Manager.p_ShardsPerCluster := Some (Js.VString "useManagerOption");
     Manager.p_MinGuildsPerShard := Some (Js.VNumber (Js.Fin 1000));
     Manager.p_MaxGuildsPerShard := Some (Js.VNumber (Js.Fin 2000));
     Manager.p_restartOptions := None;
     Manager.p_debug := None |}.

(** A manager that knows one cluster and runs the default shard list [0, 1],
    kept at address 0. *)
Definition small_fleet : Manager.ClusterManager :=
  {| Manager.clusterList := [0];
     Manager.totalShards := 2;
     Manager.shardList := O;
     Manager.shardsPerClusters := Some 2;
     Manager.totalClusters := 1;
     Manager.recluster := true;
     Manager.token := "token" |}.

Definition small_heap : Manager.Heap := [[0; 1]].

(** A manager that knows three clusters with two shards each. *)
Definition fleet3 : Manager.ClusterManager :=
  {| Manager.clusterList := [0; 1; 2];
     Manager.totalShards := 6;
     Manager.shardList := O;
     Manager.shardsPerClusters := Some 2;
     Manager.totalClusters := 3;
     Manager.recluster := true;
     Manager.token := "token" |}.

Definition heap3 : Manager.Heap := [[0; 1; 2; 3; 4; 5]].

(** A manager with four shards, for the two examples of the shard count. *)
Definition fleet4 : Manager.ClusterManager :=
  {| Manager.clusterList := [0; 1];
     Manager.totalShards := 4;
     Manager.shardList := O;
     Manager.shardsPerClusters := Some 2;
     Manager.totalClusters := 2;
     Manager.recluster := true;
     Manager.token := "token" |}.

Definition heap4 : Manager.Heap := [[0; 1; 2; 3]].

Definition report (c : Z) (loads : list (Z * Z)) : Manager.AutoResharderSendData :=
  {| Manager.clusterId := c;
     Manager.shardData :=
       map (fun p => {| Manager.shardId := fst p; Manager.guildCount := Js.of_Z (snd p) |})
           loads |}.

Definition report_message (d : Manager.AutoResharderSendData) : Manager.message :=
  Manager.Plain {| Manager._type := CLIENT_AUTORESHARDER_SENDDATA; Manager.data := d |}.

(** The coordinator as the constructor leaves it for [numeric_options]. *)
Definition constructed (m : Manager.ClusterManager) : Manager.t :=
  {| Manager.name := "autoresharder";
     Manager.onProgress := false;
     Manager.manager := m;
     Manager.clusterDatas := [];
     Manager.options := Manager.merge Manager.default_options (Some numeric_options);
     Manager.clustersListening := [];
     Manager.isReClustering := false |}.

Definition boot (m : Manager.ClusterManager) (h : Manager.Heap) : Manager.World :=
  {| Manager.self := constructed m; Manager.heap := h;
     Manager.trace := []; Manager.inflight := [] |}.

(** The small fleet after the reports of cluster 0 and of a second cluster
    were stored (one shard of cluster 0 is above the maximum). *)
Definition two_reports : Manager.World :=
  {| Manager.self :=
       Manager.set_clusterDatas (constructed small_fleet)
         [report 0 [(0, 2100); (1, 10)]; report 1 [(2, 20)]];
     Manager.heap := small_heap;
     Manager.trace := [];
     Manager.inflight := [] |}.

(** The same world as the scan-and-rescale part leaves it at the call of the
    executor: the flag is set and one call is in flight. No run of the
    coordinator gets there; the state is built by hand. *)
Definition executing : Manager.World := fst (Manager.rescale fetch_8 two_reports).

Definition executor_failure : Js.error := Js.Error "spawn failed".

(** The three-cluster fleet after clusters 0 and 1 reported; cluster 0 has a
    shard above the maximum. *)
Definition two_of_three : Manager.World :=
  Manager.run fetch_8 (boot fleet3 heap3)
    [ Manager.ClusterCreate 0; Manager.ClusterCreate 1; Manager.ClusterCreate 2;
      Manager.ClusterMessage 0 (report_message (report 0 [(0, 2100); (1, 10)]));
      Manager.ClusterMessage 1 (report_message (report 1 [(2, 20); (3, 30)])) ].

Definition third_report : Manager.message :=
  report_message (report 2 [(4, 40); (5, 50)]).

(** ** The vocabulary of the shard-count property *)

Definition Qsum (qs : list Q) : Q := fold_right Qplus 0%Q qs.


(** Four shards, summed load 3000, one shard at the maximum of 2000. *)
Definition load_3000 : Manager.World :=
  {| Manager.self :=
       Manager.set_clusterDatas (constructed fleet4)
         [report 0 [(0, 2000); (1, 400)]; report 1 [(2, 300); (3, 300)];
          report 2 []];
     Manager.heap := heap4;
     Manager.trace := [];
     Manager.inflight := [] |}.

(** Four shards, summed load 12000. *)
Definition load_12000 : Manager.World :=
  {| Manager.self :=
       Manager.set_clusterDatas (constructed fleet4)
         [report 0 [(0, 2400); (1, 2400)]; report 1 [(2, 2400); (3, 2400)];
          report 2 [(4, 2400)]];
     Manager.heap := heap4;
     Manager.trace := [];
     Manager.inflight := [] |}.

(** The coordinator of [fleet4] hears the reports of [load_3000] one after
    the other: first the clusters 0 and 1, then cluster 2. *)
Definition reports_3000 : list Manager.event :=
  [ Manager.ClusterCreate 0; Manager.ClusterCreate 1; Manager.ClusterCreate 2;
    Manager.ClusterMessage 0 (report_message (report 0 [(0, 2000); (1, 400)]));
    Manager.ClusterMessage 1 (report_message (report 1 [(2, 300); (3, 300)])) ].

Definition last_report_3000 : Manager.message := report_message (report 2 []).

(** ** The vocabulary of the report-table property *)

(** The entry of the table for a worker. *)
Definition entry (id : Z) (table : list Manager.AutoResharderSendData)
  : option Manager.AutoResharderSendData :=
  find (fun v => Z.eqb (Manager.clusterId v) id) table.

(** The report a message carries when it is of the expected kind. *)
Definition carried (m : Manager.message) : option Manager.AutoResharderSendData :=
  match m with
  | Manager.NotAnObject => None
  | Manager.Plain msg | Manager.Raw msg =>
      match Manager._type msg with
      | CLIENT_AUTORESHARDER_SENDDATA => Some (Manager.data msg)
      | OtherMessageType _ => None
      end
  end.

(** The messages that reach a listener, given the clusters that already have
    one. *)
Fixpoint heard (listening : list Z) (es : list Manager.event) : list Manager.message :=
  match es with
  | [] => []
  | Manager.ClusterCreate c :: es' =>
      heard (if existsb (Z.eqb c) listening then listening else listening ++ [c]) es'
  | Manager.ClusterMessage c m :: es' =>
      if existsb (Z.eqb c) listening then m :: heard listening es' else heard listening es'
  | Manager.ReclusterSettled _ _ :: es' => heard listening es'
  end.

(** The most recent report of worker [id] among the messages [ms]. *)
Fixpoint latest (id : Z) (ms : list Manager.message)
  : option Manager.AutoResharderSendData :=
  match ms with
  | [] => None
  | m :: ms' =>
      match latest id ms' with
      | Some d => Some d
      | None =>
          match carried m with
          | Some d => if Z.eqb (Manager.clusterId d) id then Some d else None
          | None => None
          end
      end
  end.

Definition ids (table : list Manager.AutoResharderSendData) : list Z :=
  map Manager.clusterId table.

(** The three clusters of [fleet3] and their reports, cluster 0 twice. *)
Definition session : list Manager.event :=
  [ Manager.ClusterCreate 0; Manager.ClusterCreate 1; Manager.ClusterCreate 2;
    Manager.ClusterMessage 0 (report_message (report 0 [(0, 100); (1, 10)]));
    Manager.ClusterMessage 1 (report_message (report 1 [(2, 20); (3, 30)]));
    Manager.ClusterMessage 2
      (Manager.Raw {| Manager._type := OtherMessageType 3;
                      Manager.data := report 2 [(4, 1)] |});
    Manager.ClusterMessage 0 (report_message (report 0 [(0, 2100); (1, 10)]));
    Manager.ClusterMessage 2 third_report ].

(** The table after one more message reached the listener. *)
Definition absorb (table : list Manager.AutoResharderSendData) (m : Manager.message)
  : list Manager.AutoResharderSendData :=
  match carried m with
  | Some d => Manager.store_report d table
  | None => table
  end.

(** Reporters whose load function returns a bad shard id, and a NaN load. *)
Definition negative_shard_reporter : Reporter.World :=
  Reporter.set_self reporter0
    (Reporter.set_options (Reporter.self reporter0)
       {| Reporter.sendDataIntervalMS := Js.VNumber (Js.Fin 60000);
          Reporter.sendDataFunction :=
            Some (fun _ =>
                    Js.Normal
                      (Reporter.SendData (Js.VNumber (Js.Fin 0))
                         (Some [ {| Reporter.shardId := Js.VNumber (Js.Fin (-1));
                                    Reporter.guildCount := Js.VNumber (Js.Fin 5) |} ])));
          Reporter.debug := false |}).

Definition nan_load_reporter : Reporter.World :=
  Reporter.set_self reporter0
    (Reporter.set_options (Reporter.self reporter0)
       {| Reporter.sendDataIntervalMS := Js.VNumber (Js.Fin 60000);
          Reporter.sendDataFunction :=
            Some (fun _ =>
                    Js.Normal
                      (Reporter.SendData (Js.VNumber (Js.Fin 0))
                         (Some [ {| Reporter.shardId := Js.VNumber (Js.Fin 0);
                                    Reporter.guildCount := Js.VNumber Js.NaN |} ])));
          Reporter.debug := false |}).

(** ** The vocabulary of the further reporter properties *)

(** The reporter owns the timers of [w]: nothing is armed, or exactly the
    interval kept in the field [interval], running at the configured period. *)
Definition timers_owned (w : Reporter.World) : Prop :=
  Reporter.armed (Reporter.timers w) = []
  \/ exists i,
       Reporter.armed (Reporter.timers w)
       = [(i, Reporter.sendDataIntervalMS (Reporter.options (Reporter.self w)))]
       /\ Reporter.interval (Reporter.self w) = Some i.

(** What may stand in the log of a reporter: a sent message carries the tag
    of the load report and data that passed the shape check. *)
Definition sound_effect (e : Reporter.effect) : Prop :=
  match e with
  | Reporter.Debug_Sending _ => True
  | Reporter.Sent m =>
      Reporter._type m = CLIENT_AUTORESHARDER_SENDDATA
      /\ Reporter.bad_sendData (Reporter.data m) = false
  end.

(** The guilds of a cluster that live on one of the listed shards. *)
Definition guilds_on (shards guilds : list Z) : list Z :=
  filter (fun g => existsb (Z.eqb g) shards) guilds.

(** The load an entry of a report carries (zero when it is no finite number). *)
Definition entry_load (e : Reporter.shard_entry) : Q :=
  match Reporter.guildCount e with
  | Js.VNumber (Js.Fin q) => q
  | _ => 0%Q
  end.

(** The number of cached guilds of shard [s]. *)
Definition guilds_of_shard (guilds : list Z) (s : Z) : nat :=
  List.length (filter (Z.eqb s) guilds).

(** A reporter whose load function throws. *)
Definition failing_load_options : Reporter.PartialOptions :=
  {| Reporter.p_sendDataIntervalMS := None;
     Reporter.p_sendDataFunction := Some (Some (fun _ => Js.Throw (Js.Error "no cache")));
     Reporter.p_debug := None |}.

Definition some_calls : list Reporter.call :=
  [ Reporter.Tick O; Reporter.CallStart (Some interval_5ms) true;
    Reporter.Tick 1%nat; Reporter.CallReStart None false ].

(** ** The vocabulary of the further coordinator properties *)

(** The effects that reach a capability outside the coordinator. *)
Definition is_call (e : Manager.effect) : bool :=
  match e with
  | Manager.Call_fetchRecommendedShards _ => true
  | Manager.Call_recluster_start _ => true
  | _ => false
  end.

(** Two stored reports that differ at most in the order of their shards. *)
Definition same_up_to_order (a b : Manager.AutoResharderSendData) : Prop :=
  Manager.clusterId a = Manager.clusterId b
  /\ Permutation (Manager.shardData a) (Manager.shardData b).

(** The reports among the messages that reached a listener. *)
Definition reports_of (ms : list Manager.message) : list Manager.AutoResharderSendData :=
  flat_map (fun m => match carried m with Some d => [d] | None => [] end) ms.

(** A load as the sum takes it: NaN counts as zero. *)
Definition load_or_zero (n : Js.number) : Q :=
  match n with
  | Js.Fin q => q
  | Js.NaN => 0%Q
  end.

(** Loads that are whole numbers or NaN: [None] stands for NaN. *)
Definition load_value (o : option Z) : Js.number :=
  match o with
  | Some z => Js.of_Z z
  | None => Js.NaN
  end.

Definition counted (o : option Z) : Z :=
  match o with
  | Some z => z
  | None => 0
  end.

Definition Zsum (zs : list Z) : Z := fold_right Z.add 0 zs.

(** A table with a NaN load next to a load above the maximum. *)
Definition nan_table : list Manager.AutoResharderSendData :=
  [ {| Manager.clusterId := 0;
       Manager.shardData :=
         [ {| Manager.shardId := 0; Manager.guildCount := Js.of_Z 2100 |};
           {| Manager.shardId := 1; Manager.guildCount := Js.NaN |} ] |};
    report 1 [(2, 20)] ].

(** A coordinator with the given options, next to its manager's heap. *)
Definition with_options (o : Manager.Options) (m : Manager.ClusterManager) : Manager.t :=
  {| Manager.name := "autoresharder";
     Manager.onProgress := false;
     Manager.manager := m;
     Manager.clusterDatas := [];
     Manager.options := o;
     Manager.clustersListening := [];
     Manager.isReClustering := false |}.

(** A freshly constructed coordinator next to the heap of its manager. *)
Definition fresh_world (r : Manager.t) (h : Manager.Heap) : Manager.World :=
  {| Manager.self := r; Manager.heap := h; Manager.trace := []; Manager.inflight := [] |}.

(** The events of [session], followed by a report of a cluster that is not in
    the manager's list and a late settlement. *)
Definition long_session : list Manager.event :=
  session
  ++ [ Manager.ClusterCreate 0; Manager.ClusterCreate 7;
       Manager.ClusterMessage 7 (report_message (report 7 [(6, 2400)]));
       Manager.ReclusterSettled 0 (Js.Normal Js.VUndefined) ].

(** What makes the argument [o] of [recluster.start] consistent, for the
    scan-and-rescale part that went from [w] to [w']. The number of clusters
    is stated for whole numbers of shards per cluster, where the quotient of
    line 368 and its rounding are the same in exact and in floating-point
    arithmetic. *)
Definition consistent_request (w w' : Manager.World) (o : Manager.ReclusterStart) : Prop :=
  (exists n,
     Js.array_length (Manager.rs_totalShards o) = Js.Normal n
     /\ Manager.heap w' = Manager.heap w ++ [Js.keys n]
     /\ Manager.deref (Manager.heap w') (Manager.rs_shardList o) = Js.keys n
     /\ forall l, (l < List.length (Manager.heap w))%nat ->
                  Manager.deref (Manager.heap w') l = Manager.deref (Manager.heap w) l)
  /\ (forall t s : Z,
        Manager.rs_totalShards o = Js.of_Z t ->
        Manager.rs_shardsPerClusters o = Js.of_Z s ->
        0 < s ->
        exists c, Manager.rs_totalClusters o = Js.of_Z c
                  /\ t <= c * s /\ (c - 1) * s < t)
  /\ Manager.rs_restart o = Manager.restartOptions (Manager.options (Manager.self w))
  /\ Manager.inflight w' = Manager.inflight w ++ [o]
  /\ Manager.isReClustering (Manager.self w') = true.

(** The request of the cycle on [load_3000]: five shards on three clusters. *)
Definition request_3000 : Manager.ReclusterStart :=
  {| Manager.rs_restart :=
       {| Manager.mode := Some Manager.gracefulSwitch;
          Manager.delay := Some (Js.Fin 7000);
          Manager.timeout := Some (Js.Fin (-1)) |};
     Manager.rs_shardsPerClusters := Js.Fin 2;
     Manager.rs_totalShards := Js.Fin 5;
     Manager.rs_totalClusters := Js.Fin 3;
     Manager.rs_shardList := 1%nat |}.

(** ** The vocabulary of overlapping calls *)

(** [this.options = { ...this.options, ...newOptions }], the first statement
    of [start] and, after the clearing block, of [reStart]. *)
Definition with_merged (w : Reporter.World) (o : option Reporter.PartialOptions)
  : Reporter.World :=
  Reporter.set_self w
    (Reporter.set_options (Reporter.self w)
       (Reporter.merge (Reporter.options (Reporter.self w)) o)).

(** Calls made one after the other, each with nothing coming in between:
    the next call is made when the bodies of the last one have run to their
    end. *)
Definition one_by_one (w : Reporter.World) (cs : list Reporter.call) : Reporter.World :=
  fold_left (fun w c => Reporter.world (Reporter.alone w c)) cs w.

(** Line 190, the first statement of [initialize]: the timer of the field is
    cancelled, the field keeps its handle. *)
Definition cancelled (w : Reporter.World) : Reporter.World :=
  match Reporter.interval (Reporter.self w) with
  | Some i =>
      {| Reporter.self := Reporter.self w;
         Reporter.timers := Reporter.clearInterval i (Reporter.timers w);
         Reporter.trace := Reporter.trace w |}
  | None => w
  end.

(** ** Properties of the reporter *)

Lemma reporter0_constructed :
  Reporter.new (Some cluster0) None no_timers = Js.Normal reporter0.
Proof. reflexivity. Qed.

Lemma sendData_self (w : Reporter.World) :
  Reporter.self (fst (Reporter.sendData w)) = Reporter.self w.
Proof.
  unfold Reporter.sendData.
  destruct (Reporter.validate (Reporter.self w)); [|reflexivity].
  destruct (Reporter.clusterClient (Reporter.self w)) as [cc|]; [|reflexivity].
  destruct (Reporter.sendDataFunction (Reporter.options (Reporter.self w))) as [f|];
    [|reflexivity].
  destruct (f cc) as [sd|]; [|reflexivity].
  destruct (Reporter.bad_sendData sd); [reflexivity|].
  destruct (Reporter.debug (Reporter.options (Reporter.self w)));
    destruct (Reporter.send cc); reflexivity.
Qed.

Lemma initialize_started (w : Reporter.World) (b : bool) :
  Reporter.started (Reporter.self (fst (Reporter.initialize w b)))
  = Reporter.started (Reporter.self w).
Proof.
  unfold Reporter.initialize.
  set (w1 := match Reporter.interval (Reporter.self w) with
             | Some i => _
             | None => w
             end).
  assert (H1 : Reporter.self w1 = Reporter.self w)
    by (subst w1; destruct (Reporter.interval (Reporter.self w)); reflexivity).
  destruct b.
  - pose proof (sendData_self w1) as H2.
    destruct (Reporter.sendData w1) as [w2 [v|e]]; simpl in *; congruence.
  - simpl. congruence.
Qed.

Lemma clear_and_forget_started (w : Reporter.World) :
  Reporter.started (Reporter.self (Reporter.clear_and_forget w))
  = Reporter.started (Reporter.self w).
Proof.
  unfold Reporter.clear_and_forget.
  destruct (Reporter.interval (Reporter.self w)); reflexivity.
Qed.

(** No method ever assigns [started]: it keeps the value [false] it was
    declared with. *)
Lemma step_started (w : Reporter.World) (c : Reporter.call) :
  Reporter.started (Reporter.self (Reporter.step w c))
  = Reporter.started (Reporter.self w).
Proof.
  destruct c as [|o b|o b|i]; simpl.
  - unfold Reporter.stop.
    destruct (Bool.eqb _ false); simpl; apply clear_and_forget_started.
  - unfold Reporter.start.
    destruct (Bool.eqb (Reporter.started (Reporter.self w)) true); [reflexivity|].
    rewrite initialize_started. reflexivity.
  - unfold Reporter.reStart. rewrite initialize_started. simpl.
    apply clear_and_forget_started.
  - unfold Reporter.tick.
    destruct (Reporter.is_armed i (Reporter.timers w)); [|reflexivity].
    pose proof (sendData_self w) as H.
    destruct (Reporter.sendData w) as [w' r]. simpl in *. congruence.
Qed.

Lemma run_started (cs : list Reporter.call) (w : Reporter.World) :
  Reporter.started (Reporter.self (Reporter.run w cs))
  = Reporter.started (Reporter.self w).
Proof.
  unfold Reporter.run. revert w.
  induction cs as [|c cs IH]; intro w; [reflexivity|].
  simpl. rewrite IH. apply step_started.
Qed.

Lemma new_started (cc : option Reporter.ClusterClient)
  (o : option Reporter.PartialOptions) (T : Reporter.Timers) (w : Reporter.World) :
  Reporter.new cc o T = Js.Normal w ->
  Reporter.started (Reporter.self w) = false.
Proof.
  unfold Reporter.new.
  destruct (Reporter.validate _); [|discriminate].
  intro H. injection H as H. subst w. reflexivity.
Qed.

(** Whatever was called since construction, [stop] ends in the throw. *)
Lemma stop_never_returns (cc : option Reporter.ClusterClient)
  (o : option Reporter.PartialOptions) (T : Reporter.Timers)
  (w : Reporter.World) (cs : list Reporter.call) :
  Reporter.new cc o T = Js.Normal w ->
  snd (Reporter.stop (Reporter.run w cs)) = Js.Throw Reporter.err_not_running.
Proof.
  intro H. unfold Reporter.stop.
  rewrite clear_and_forget_started, run_started, (new_started _ _ _ _ H).
  reflexivity.
Qed.

(** Whatever was called since construction, [start] skips its guard and goes
    on to [initialize] with the merged options. *)
Lemma start_never_guarded (cc : option Reporter.ClusterClient)
  (o : option Reporter.PartialOptions) (T : Reporter.Timers)
  (w : Reporter.World) (cs : list Reporter.call)
  (newOptions : option Reporter.PartialOptions) (b : bool) :
  Reporter.new cc o T = Js.Normal w ->
  let w' := Reporter.run w cs in
  Reporter.start w' newOptions b
  = Reporter.initialize
      (Reporter.set_self w'
         (Reporter.set_options (Reporter.self w')
            (Reporter.merge (Reporter.options (Reporter.self w')) newOptions))) b.
Proof.
  intros H w'. unfold Reporter.start.
  subst w'. rewrite run_started, (new_started _ _ _ _ H). reflexivity.
Qed.

(** C6, evaluated on the code: on a freshly constructed reporter, whose
    interval is armed, [stop()] cancels the interval and then throws
    'Not running!' instead of returning [true]. *)
Theorem C6_stop_throws_on_running_reporter :
  Reporter.new (Some cluster0) None no_timers = Js.Normal reporter0
  /\ Reporter.is_armed O (Reporter.timers reporter0) = true
  /\ snd (Reporter.stop reporter0) = Js.Throw Reporter.err_not_running
  /\ Reporter.armed (Reporter.timers (fst (Reporter.stop reporter0))) = []
  /\ Reporter.interval (Reporter.self (fst (Reporter.stop reporter0))) = None.
Proof. repeat split; reflexivity. Qed.

(** C7, evaluated on the code: on a freshly constructed reporter, whose
    interval is armed, [start()] does not throw 'Already started' but re-arms
    and resolves to [true]; and [start({sendDataIntervalMS: 5})] arms a 5 ms
    interval although [validate] rejects that period. *)
Theorem C7_start_on_running_reporter_succeeds :
  snd (Reporter.start reporter0 None false) = Js.Normal true
  /\ Reporter.armed (Reporter.timers (fst (Reporter.start reporter0 None false)))
     = [(1%nat, Js.VNumber (Js.Fin 60000))]
  /\ snd (Reporter.start reporter0 (Some interval_5ms) false) = Js.Normal true
  /\ Reporter.armed (Reporter.timers (fst (Reporter.start reporter0 (Some interval_5ms) false)))
     = [(1%nat, Js.VNumber (Js.Fin 5))]
  /\ Reporter.validate (Reporter.self (fst (Reporter.start reporter0 (Some interval_5ms) false)))
     = Js.Throw Reporter.err_interval.
Proof. repeat split; reflexivity. Qed.

Lemma non_numeric_spec (v : Js.value) : non_numeric v -> Js.is_number v = false.
Proof.
  unfold non_numeric, Js.is_number. destruct v; simpl; intro H; congruence.
Qed.

Lemma negative_spec (v : Js.value) :
  negative v -> Js.lt (Js.as_number v) (Js.Fin 0) = true.
Proof.
  intros [q [-> Hq]]. simpl.
  destruct (Qle_bool 0 q) eqn:E; [|reflexivity].
  apply Qle_bool_iff in E. exfalso. exact (Qlt_not_le _ _ Hq E).
Qed.

Lemma non_negative_number_spec (v : Js.value) :
  non_negative_number v ->
  Js.is_number v = true /\ Js.lt (Js.as_number v) (Js.Fin 0) = false.
Proof.
  intros [q [-> Hq]]. split; [reflexivity|]. simpl.
  apply Qle_bool_iff in Hq. rewrite Hq. reflexivity.
Qed.

Lemma malformed_is_bad (cid : Js.value) (shards : option (list Reporter.shard_entry)) :
  malformed cid shards ->
  Reporter.bad_sendData (Reporter.SendData cid shards) = true.
Proof.
  intros [H|[H|[entries [-> H]]]]; simpl.
  - rewrite (non_numeric_spec _ H). reflexivity.
  - rewrite (negative_spec _ H). apply orb_true_iff. left. apply orb_true_r.
  - apply orb_true_iff. right.
    apply existsb_exists. apply Exists_exists in H.
    destruct H as [e [Hin He]]. exists e. split; [exact Hin|].
    unfold Reporter.bad_entry. destruct He as [He|He].
    + rewrite (negative_spec _ He). apply orb_true_r.
    + rewrite (non_numeric_spec _ He). reflexivity.
Qed.

Lemma well_shaped_is_not_bad (cid : Js.value) (entries : list Reporter.shard_entry) :
  well_shaped cid entries ->
  Reporter.bad_sendData (Reporter.SendData cid (Some entries)) = false.
Proof.
  intros [Hc He]. simpl.
  destruct (non_negative_number_spec _ Hc) as [-> ->]. simpl.
  induction He as [|e l [Hs Hg] _ IH]; [reflexivity|].
  simpl. rewrite IH. unfold Reporter.bad_entry.
  destruct (non_negative_number_spec _ Hs) as [-> ->].
  destruct (non_negative_number_spec _ Hg) as [-> ->].
  reflexivity.
Qed.

(** The tick of a timer that is still armed, up to the first [await]: the
    load function was called and [sendData] is suspended on its answer;
    nothing is sent and no promise has settled. *)
Lemma tick_suspends_on_load (w : Reporter.World) (i : Reporter.timer)
  (cc : Reporter.ClusterClient)
  (f : Reporter.ClusterClient -> Js.completion Reporter.send_data) :
  Reporter.is_armed i (Reporter.timers w) = true ->
  Reporter.validate (Reporter.self w) = Js.Normal tt ->
  Reporter.clusterClient (Reporter.self w) = Some cc ->
  Reporter.sendDataFunction (Reporter.options (Reporter.self w)) = Some f ->
  Reporter.turn (Reporter.idle w) (Reporter.Call (Reporter.Tick i))
  = {| Reporter.world := w;
       Reporter.pending := [Reporter.LoadPending (f cc) Reporter.Nobody];
       Reporter.settled := [] |}.
Proof.
  intros Ha Hv Hcc Hf. unfold Reporter.turn. cbn [Reporter.call_begin Reporter.idle
    Reporter.world Reporter.pending].
  rewrite Ha. unfold Reporter.sendData_begin. rewrite Hv, Hcc, Hf. reflexivity.
Qed.

(** C9, as the code has it: [sendData] is an [async] method and the shape
    check stands behind the [await] of the load function. The tick of an
    armed timer whose configuration passes [validate] therefore ends with
    [sendData] suspended and nothing thrown. In the turn in which the answer
    of the load function arrives, a report with a non-numeric or negative
    worker id, or with an entry whose shard id is negative or whose load is
    not a number, rejects the promise of [sendData] with the 'Invalid
    sendData' SyntaxError - a promise nobody waits for - and nothing is sent;
    a report whose worker id, shard ids and loads are all non-negative numbers
    is handed to [send] under the tag [CLIENT_AUTORESHARDER_SENDDATA]. *)
Theorem C9_report_shape_checked_when_load_settles
  (w : Reporter.World) (i : Reporter.timer) (cc : Reporter.ClusterClient)
  (f : Reporter.ClusterClient -> Js.completion Reporter.send_data)
  (s : Reporter.sendDataMessage -> Js.completion Js.value)
  (cid : Js.value) (shards : option (list Reporter.shard_entry)) :
  Reporter.is_armed i (Reporter.timers w) = true ->
  Reporter.validate (Reporter.self w) = Js.Normal tt ->
  Reporter.clusterClient (Reporter.self w) = Some cc ->
  Reporter.sendDataFunction (Reporter.options (Reporter.self w)) = Some f ->
  Reporter.send cc = Some s ->
  f cc = Js.Normal (Reporter.SendData cid shards) ->
  let fired := Reporter.turn (Reporter.idle w) (Reporter.Call (Reporter.Tick i)) in
  let checked := Reporter.turn fired (Reporter.Settle O) in
  fired
  = {| Reporter.world := w;
       Reporter.pending :=
         [Reporter.LoadPending (Js.Normal (Reporter.SendData cid shards)) Reporter.Nobody];
       Reporter.settled := [] |}
  /\ (malformed cid shards ->
      checked
      = {| Reporter.world := w;
           Reporter.pending := [];
           Reporter.settled :=
             [Reporter.SendData_settled (Js.Throw Reporter.err_invalid_sendData)
                Reporter.Nobody] |})
  /\ (forall entries,
        shards = Some entries ->
        well_shaped cid entries ->
        let m := {| Reporter._type := CLIENT_AUTORESHARDER_SENDDATA;
                    Reporter.data := Reporter.SendData cid (Some entries) |} in
        Reporter.pending checked = [Reporter.SendPending (s m) Reporter.Nobody]
        /\ Reporter.settled checked = []
        /\ Reporter.trace (Reporter.world checked)
           = Reporter.trace w
             ++ (if Reporter.debug (Reporter.options (Reporter.self w))
                 then [Reporter.Debug_Sending cid] else [])
             ++ [Reporter.Sent m]
        /\ Reporter.settled (Reporter.turn checked (Reporter.Settle O))
           = [Reporter.SendData_settled (s m) Reporter.Nobody]).
Proof.
  intros Ha Hv Hcc Hf Hs Hr fired checked. subst checked fired.
  rewrite (tick_suspends_on_load w i cc f Ha Hv Hcc Hf), Hr.
  split; [reflexivity|].
  set (fired := {| Reporter.world := w; Reporter.pending := _; Reporter.settled := [] |}).
  split.
  - intro Hbad. unfold Reporter.turn, fired.
    cbn [Reporter.pending Reporter.world Reporter.settled nth_error Reporter.without
         Reporter.resume_task].
    unfold Reporter.sendData_checked. rewrite (malformed_is_bad _ _ Hbad). reflexivity.
  - intros entries He Hgood m.
    set (w1 := if Reporter.debug (Reporter.options (Reporter.self w))
               then Reporter.log w (Reporter.Debug_Sending cid) else w).
    assert (Hc : Reporter.turn fired (Reporter.Settle O)
                 = {| Reporter.world := Reporter.log w1 (Reporter.Sent m);
                      Reporter.pending := [Reporter.SendPending (s m) Reporter.Nobody];
                      Reporter.settled := [] |}).
    { unfold Reporter.turn, fired.
      cbn [Reporter.pending Reporter.world Reporter.settled nth_error Reporter.without
           Reporter.resume_task].
      unfold Reporter.sendData_checked. rewrite He, (well_shaped_is_not_bad _ _ Hgood).
      fold w1.
      assert (H1 : Reporter.clusterClient (Reporter.self w1) = Some cc)
        by (unfold w1; destruct (Reporter.debug _); exact Hcc).
      rewrite H1, Hs. reflexivity. }
    rewrite Hc. repeat split.
    unfold w1. destruct (Reporter.debug (Reporter.options (Reporter.self w))); cbn.
    + rewrite <- app_assoc. reflexivity.
    + reflexivity.
Qed.

Lemma cluster0_well_shaped : well_shaped (Js.VNumber (Js.Fin 0)) cluster0_entries.
Proof.
  split.
  - exists 0%Q. split; [reflexivity|]. apply Qle_refl.
  - repeat constructor.
    + exists (inject_Z 0). split; [reflexivity|]. discriminate.
    + exists (inject_Z 2). split; [reflexivity|]. discriminate.
    + exists (inject_Z 1). split; [reflexivity|]. discriminate.
    + exists (inject_Z 1). split; [reflexivity|]. discriminate.
Defined.

Lemma C9_witness :
  let m := {| Reporter._type := CLIENT_AUTORESHARDER_SENDDATA;
              Reporter.data := Reporter.SendData (Js.VNumber (Js.Fin 0)) (Some cluster0_entries) |} in
  let fired := Reporter.turn (Reporter.idle reporter0) (Reporter.Call (Reporter.Tick O)) in
  let checked := Reporter.turn fired (Reporter.Settle O) in
  Reporter.pending checked = [Reporter.SendPending (accept_send m) Reporter.Nobody]
  /\ Reporter.settled checked = []
  /\ Reporter.trace (Reporter.world checked) = [] ++ [] ++ [Reporter.Sent m]
  /\ Reporter.settled (Reporter.turn checked (Reporter.Settle O))
     = [Reporter.SendData_settled (accept_send m) Reporter.Nobody].
Proof.
  exact (proj2 (proj2 (C9_report_shape_checked_when_load_settles
                         reporter0 O cluster0 Reporter.default_sendDataFunction accept_send
                         (Js.VNumber (Js.Fin 0)) (Some cluster0_entries)
                         eq_refl eq_refl eq_refl eq_refl eq_refl eq_refl))
               cluster0_entries eq_refl cluster0_well_shaped).
Defined.

(** The failure of the shape check is not synchronous. The load function of
    this reporter answers with shard id -1. The tick returns with nothing
    thrown and nothing settled: [sendData] waits for the answer. The
    SyntaxError comes in a later turn, as the rejection of the promise of
    [sendData], which the timer callback dropped. *)
Lemma C9_failure_is_not_synchronous :
  let fired :=
    Reporter.turn (Reporter.idle negative_shard_reporter) (Reporter.Call (Reporter.Tick O)) in
  let checked := Reporter.turn fired (Reporter.Settle O) in
  Reporter.is_armed O (Reporter.timers negative_shard_reporter) = true
  /\ Reporter.settled fired = []
  /\ Reporter.pending fired
     = [Reporter.LoadPending
          (Js.Normal
             (Reporter.SendData (Js.VNumber (Js.Fin 0))
                (Some [ {| Reporter.shardId := Js.VNumber (Js.Fin (-1));
                           Reporter.guildCount := Js.VNumber (Js.Fin 5) |} ])))
          Reporter.Nobody]
  /\ Reporter.settled checked
     = [Reporter.SendData_settled (Js.Throw Reporter.err_invalid_sendData) Reporter.Nobody]
  /\ Reporter.pending checked = []
  /\ Reporter.trace (Reporter.world checked) = [].
Proof. repeat split; reflexivity. Qed.

(** ** Properties of the coordinator *)

Lemma constructed_by_new (m : Manager.ClusterManager) :
  Manager.recluster m = true ->
  Manager.new m (Some numeric_options) = Js.Normal (constructed m).
Proof.
  intro H. unfold Manager.new, Manager.validate. simpl. rewrite H. reflexivity.
Qed.

(** [validate] lets only numbers through for the two options that have a
    string sentinel. *)
Lemma validate_accepts_only_numbers (r : Manager.t) :
  Manager.validate r = Js.Normal tt ->
  Js.is_number (Manager.ShardsPerCluster (Manager.options r)) = true
  /\ Js.is_number (Manager.MinGuildsPerShard (Manager.options r)) = true.
Proof.
  unfold Manager.validate.
  destruct (Js.is_string _ && negb _); [discriminate|].
  destruct (Js.is_number (Manager.ShardsPerCluster (Manager.options r)));
    [|discriminate].
  simpl.
  destruct (Js.lt _ (Js.Fin 1)); [discriminate|].
  destruct (Js.is_string _ && negb _); [discriminate|].
  destruct (Js.is_number (Manager.MinGuildsPerShard (Manager.options r)));
    [|discriminate].
  intros _. split; reflexivity.
Qed.

(** C2, evaluated on the code: the constructor rejects its own default
    configuration, whose [ShardsPerCluster] is 'useManagerOption', with the
    SyntaxError of that option, for every manager; it also rejects
    [MinGuildsPerShard: 'auto'] with [MaxGuildsPerShard: 2100]. *)
Theorem C2_sentinel_options_rejected (m : Manager.ClusterManager) :
  Manager.new m None = Js.Throw Manager.err_ShardsPerCluster
  /\ Manager.new m (Some inherit_options) = Js.Throw Manager.err_ShardsPerCluster
  /\ Manager.new m (Some auto_options) = Js.Throw Manager.err_MinGuildsPerShard.
Proof. repeat split; reflexivity. Qed.

Lemma array_length_of_Z (z : Z) :
  0 <= z <= 2 ^ 32 - 1 ->
  Js.array_length (Js.of_Z z) = Js.Normal (Z.to_nat z).
Proof.
  intros [H0 H1]. unfold Js.array_length, Js.of_Z.
  rewrite Qfloor_Z.
  assert (E1 : Qeq_bool (inject_Z z) (inject_Z z) = true)
    by (apply Qeq_bool_iff; reflexivity).
  assert (E2 : Qle_bool 0 (inject_Z z) = true)
    by (apply Qle_bool_iff; change 0%Q with (inject_Z 0); rewrite <- Zle_Qle; exact H0).
  assert (E3 : Qle_bool (inject_Z z) (inject_Z (2 ^ 32 - 1)) = true)
    by (apply Qle_bool_iff; rewrite <- Zle_Qle; exact H1).
  rewrite E1, E2, E3. reflexivity.
Qed.

(** The comparison of line 310 answers "different" for every shard list that
    is an array of the heap: the array it is compared with is new. *)
Lemma shardList_differs_always (w : Manager.World) (c : bool) :
  Manager.well_formed w ->
  snd (Manager.shardList_differs w) = Js.Normal c ->
  c = true.
Proof.
  unfold Manager.well_formed, Manager.shardList_differs.
  intros Hwf.
  destruct (Js.array_length _); simpl; [|discriminate].
  intro H. injection H as <-.
  apply negb_true_iff. apply Nat.eqb_neq. lia.
Qed.

Lemma shardList_differs_self (w : Manager.World) :
  Manager.self (fst (Manager.shardList_differs w)) = Manager.self w.
Proof.
  unfold Manager.shardList_differs.
  destruct (Js.array_length _); reflexivity.
Qed.


Lemma checkReCluster_rejects_contiguous (E : Manager.Env) (w : Manager.World) :
  Manager.well_formed w ->
  0 <= Manager.totalShards (Manager.manager (Manager.self w)) <= 2 ^ 32 - 1 ->
  (List.length (Manager.clusterList (Manager.manager (Manager.self w)))
   < List.length (Manager.clusterDatas (Manager.self w)))%nat ->
  snd (Manager.checkReCluster E w) = Manager.Rejected Manager.err_custom_shardList.
Proof.
  intros Hwf HT Hlen. unfold Manager.checkReCluster.
  destruct (Nat.leb_spec (List.length (Manager.clusterDatas (Manager.self w)))
              (List.length (Manager.clusterList (Manager.manager (Manager.self w)))));
    [lia|].
  set (w1 := if Manager.isReClustering (Manager.self w) then _ else w).
  assert (Hs : Manager.self w1 = Manager.self w /\ Manager.heap w1 = Manager.heap w).
  { subst w1. destruct (Manager.isReClustering (Manager.self w)); [|split; reflexivity].
    unfold Manager.log_if. destruct (Manager.debug _); split; reflexivity. }
  destruct Hs as [Hs Hh].
  unfold Manager.shardList_differs. rewrite Hs, (array_length_of_Z _ HT). simpl.
  unfold Manager.well_formed in Hwf. rewrite Hh.
  destruct (Nat.eqb_spec (List.length (Manager.heap w))
              (Manager.shardList (Manager.manager (Manager.self w)))); [lia|].
  reflexivity.
Qed.

(** C1, evaluated on the code: the manager runs the default shard list
    [0, 1] for its two shards, the table holds more reports than there are
    known clusters, and the cycle is rejected with the error of line 312. *)
Theorem C1_contiguous_shardList_rejected :
  Manager.deref (Manager.heap two_reports)
    (Manager.shardList (Manager.manager (Manager.self two_reports)))
  = Js.keys (Z.to_nat (Manager.totalShards (Manager.manager (Manager.self two_reports))))
  /\ snd (Manager.checkReCluster fetch_8 two_reports)
     = Manager.Rejected Manager.err_custom_shardList.
Proof. split; reflexivity. Qed.

(** The first guard: with no more reports than known clusters the cycle
    returns at once. *)
Lemma checkReCluster_waits (E : Manager.Env) (w : Manager.World) :
  (List.length (Manager.clusterDatas (Manager.self w))
   <= List.length (Manager.clusterList (Manager.manager (Manager.self w))))%nat ->
  Manager.checkReCluster E w
  = (Manager.log_if (Manager.debug (Manager.options (Manager.self w))) w
       Manager.Debug_NotAllReached,
     Manager.Returned).
Proof.
  intro H. unfold Manager.checkReCluster.
  apply Nat.leb_le in H. rewrite H. reflexivity.
Qed.

(** C3, evaluated on the code: three clusters are known; after the reports of
    clusters 0 and 1 the report of cluster 2 arrives, the table then holds
    three reports, one of them above the maximum, and the cycle still returns
    with 'Not all cluster data(s) reached yet': nothing is decided and the
    executor is not called. *)
Theorem C3_report_of_last_known_cluster_does_not_trigger :
  let after := Manager.on_message fetch_8 two_of_three 2 third_report in
  List.length (Manager.clusterList (Manager.manager (Manager.self two_of_three))) = 3%nat
  /\ map Manager.clusterId (Manager.clusterDatas (Manager.self (fst after))) = [0; 1; 2]
  /\ existsb (Manager.reached (Manager.MaxGuildsPerShard (Manager.options (Manager.self (fst after)))))
       (Manager.clusterDatas (Manager.self (fst after))) = true
  /\ snd after = Some Manager.Returned
  /\ last (Manager.trace (fst after)) Manager.Debug_AlreadyResharding
     = Manager.Debug_NotAllReached
  /\ Manager.inflight (fst after) = []
  /\ Manager.isReClustering (Manager.self (fst after)) = false.
Proof. repeat split; reflexivity. Qed.

(** The outcome of the scan-and-rescale part is a function of the manager,
    the options, the table and the heap: the flag and the log are not read. *)
Lemma rescale_outcome_ext (E : Manager.Env) (w1 w2 : Manager.World) :
  Manager.heap w1 = Manager.heap w2 ->
  Manager.manager (Manager.self w1) = Manager.manager (Manager.self w2) ->
  Manager.options (Manager.self w1) = Manager.options (Manager.self w2) ->
  Manager.clusterDatas (Manager.self w1) = Manager.clusterDatas (Manager.self w2) ->
  snd (Manager.rescale E w1) = snd (Manager.rescale E w2).
Proof.
  destruct w1 as [[n1 p1 m1 d1 o1 l1 f1] h1 t1 i1].
  destruct w2 as [[n2 p2 m2 d2 o2 l2 f2] h2 t2 i2].
  simpl. intros -> -> -> ->.
  unfold Manager.rescale. simpl.
  destruct (find _ d2) as [rc|]; [|reflexivity].
  destruct (negb (Manager.recluster m2)); [reflexivity|].
  destruct (Js.is_literal (Manager.MinGuildsPerShard o2) "auto"); simpl.
  - destruct (Manager.fetchRecommendedShards E (Manager.token m2)) as [k|e];
      [|reflexivity].
    destruct (Manager.debug o2); simpl;
      destruct (Js.array_length _); reflexivity.
  - destruct (Manager.debug o2); simpl;
      destruct (Js.array_length _); reflexivity.
Qed.

(** X20: the guard of lines 306-308 only writes to the log. A cycle ends the
    same way - returned, rejected with the same error, or suspended with the
    same request - whether the flag [isReClustering] is set or not. *)
Theorem X20_outcome_does_not_depend_on_flag (E : Manager.Env) (w : Manager.World)
  (b : bool) :
  snd (Manager.checkReCluster E
         (Manager.with_self w (Manager.set_isReClustering (Manager.self w) b)))
  = snd (Manager.checkReCluster E w).
Proof.
  unfold Manager.checkReCluster. simpl.
  destruct (Nat.leb _ _); [reflexivity|].
  set (w1 := if b then _ else _).
  set (w2 := if Manager.isReClustering (Manager.self w) then _ else w).
  assert (H : Manager.heap w1 = Manager.heap w2
              /\ Manager.manager (Manager.self w1) = Manager.manager (Manager.self w2)
              /\ Manager.options (Manager.self w1) = Manager.options (Manager.self w2)
              /\ Manager.clusterDatas (Manager.self w1) = Manager.clusterDatas (Manager.self w2)).
  { subst w1 w2. unfold Manager.log_if.
    destruct b, (Manager.isReClustering (Manager.self w)),
      (Manager.debug (Manager.options (Manager.self w))); repeat split; reflexivity. }
  destruct H as [Hh [Hm [Ho Hd]]].
  unfold Manager.shardList_differs. rewrite Hm.
  destruct (Js.array_length _) as [n|e]; [|reflexivity].
  unfold Manager.alloc. rewrite Hh.
  destruct (negb _); [reflexivity|].
  apply rescale_outcome_ext; simpl; congruence.
Qed.

(** A rejected executor call ends the cycle before the flag is reset. *)
Lemma resume_rejected_keeps_flag (w : Manager.World) (i : nat) (e : Js.error) :
  Manager.isReClustering (Manager.self (fst (Manager.resume w i (Js.Throw e))))
  = Manager.isReClustering (Manager.self w).
Proof.
  unfold Manager.resume. destruct (nth_error _ i); reflexivity.
Qed.

Lemma resume_resolved_resets_flag (w : Manager.World) (i : nat) (v : Js.value)
  (o : Manager.ReclusterStart) :
  nth_error (Manager.inflight w) i = Some o ->
  Manager.isReClustering (Manager.self (fst (Manager.resume w i (Js.Normal v)))) = false
  /\ snd (Manager.resume w i (Js.Normal v)) = Manager.Returned.
Proof.
  intro H. unfold Manager.resume. rewrite H. simpl.
  unfold Manager.log_if. destruct (Manager.debug _); split; reflexivity.
Qed.

(** *** The shard count *)






Lemma scaled_total_grows (T : Z) : 1 <= T -> T < Qceiling (inject_Z T * 1.2).
Proof.
  intro H. rewrite Zlt_Qlt.
  eapply Qlt_le_trans; [|apply Qle_ceiling].
  unfold Qlt. simpl. lia.
Qed.

Lemma gt_of_Z (a b : Z) : Js.gt (Js.of_Z a) (Js.of_Z b) = (b <? a).
Proof.
  unfold Js.gt, Js.lt, Js.of_Z.
  destruct (Z.ltb_spec b a) as [H|H].
  - destruct (Qle_bool (inject_Z a) (inject_Z b)) eqn:E; [|reflexivity].
    apply Qle_bool_iff in E. rewrite <- Zle_Qle in E. lia.
  - assert (E : Qle_bool (inject_Z a) (inject_Z b) = true)
      by (apply Qle_bool_iff; rewrite <- Zle_Qle; exact H).
    rewrite E. reflexivity.
Qed.




(** The two examples of the specification, on the part from line 317: four
    shards and a summed load of 3000 give five shards, a summed load of 12000
    gives twelve. *)
Example new_total_examples :
  (exists w' o, Manager.rescale fetch_8 load_3000 = (w', Manager.AwaitingRecluster o)
                /\ Manager.rs_totalShards o = Js.Fin 5)
  /\ (exists w' o, Manager.rescale fetch_8 load_12000 = (w', Manager.AwaitingRecluster o)
                   /\ Manager.rs_totalShards o = Js.Fin 12).
Proof. split; do 2 eexists; split; reflexivity. Qed.

(** C8, evaluated on the code: the coordinator of a manager with four shards
    hears reports with a summed load of 3000, one shard at the maximum of
    2000, with [MinGuildsPerShard] 1000. The expressions of lines 335-345
    would give the estimate 3 and the new total 5, but the cycle that the
    last report starts never gets to them: it is rejected at line 310, no
    request is made and nothing is in flight. *)
Theorem C8_triggered_rescale_computes_no_total :
  let before := Manager.run fetch_8 (boot fleet4 heap4) reports_3000 in
  let after := Manager.on_message fetch_8 before 2 last_report_3000 in
  let table := Manager.clusterDatas (Manager.self (fst after)) in
  let opts := Manager.options (Manager.self (fst after)) in
  table = Manager.clusterDatas (Manager.self load_3000)
  /\ Manager.totalShards (Manager.manager (Manager.self (fst after))) = 4
  /\ Manager.deref (Manager.heap before)
       (Manager.shardList (Manager.manager (Manager.self before)))
     = [0; 1; 2; 3]
  /\ existsb (Manager.reached (Manager.MaxGuildsPerShard opts)) table = true
  /\ Manager.estimated_shards table (Manager.MinGuildsPerShard opts) = Js.of_Z 3
  /\ Manager.realShardCount (Js.of_Z 3) 4 = Js.of_Z 5
  /\ snd after = Some (Manager.Rejected Manager.err_custom_shardList)
  /\ Manager.inflight (fst after) = []
  /\ filter is_call (Manager.trace (fst after)) = [].
Proof. repeat split; reflexivity. Qed.

(** *** The report table *)

Lemma store_report_nil (d : Manager.AutoResharderSendData) :
  Manager.store_report d [] = [d].
Proof. reflexivity. Qed.

Lemma store_report_cons (d x : Manager.AutoResharderSendData)
  (t : list Manager.AutoResharderSendData) :
  Manager.store_report d (x :: t)
  = if Z.eqb (Manager.clusterId x) (Manager.clusterId d) then d :: t
    else x :: Manager.store_report d t.
Proof.
  unfold Manager.store_report. simpl.
  destruct (Z.eqb (Manager.clusterId x) (Manager.clusterId d)); [reflexivity|].
  destruct (Manager.findIndex _ t); reflexivity.
Qed.

Lemma store_report_ids (d : Manager.AutoResharderSendData)
  (t : list Manager.AutoResharderSendData) :
  ids (Manager.store_report d t)
  = if existsb (Z.eqb (Manager.clusterId d)) (ids t) then ids t
    else ids t ++ [Manager.clusterId d].
Proof.
  unfold ids. induction t as [|x t IH]; [reflexivity|].
  rewrite store_report_cons. cbn [map existsb].
  rewrite (Z.eqb_sym (Manager.clusterId d)).
  destruct (Z.eqb_spec (Manager.clusterId x) (Manager.clusterId d)) as [Heq|Hne].
  - cbn [map orb]. rewrite Heq. reflexivity.
  - cbn [map orb]. rewrite IH.
    destruct (existsb _ _); reflexivity.
Qed.

Lemma existsb_eqb_In (z : Z) (l : list Z) : existsb (Z.eqb z) l = true <-> In z l.
Proof.
  rewrite existsb_exists. split.
  - intros [y [Hin Hy]]. apply Z.eqb_eq in Hy. subst. exact Hin.
  - intro H. exists z. split; [exact H|apply Z.eqb_refl].
Qed.

Lemma store_report_NoDup (d : Manager.AutoResharderSendData)
  (t : list Manager.AutoResharderSendData) :
  NoDup (ids t) -> NoDup (ids (Manager.store_report d t)).
Proof.
  intro H. rewrite store_report_ids.
  destruct (existsb _ _) eqn:E; [exact H|].
  apply NoDup_rev in H. rewrite <- (rev_involutive (_ ++ _)).
  apply NoDup_rev. rewrite rev_unit. constructor; [|exact H].
  rewrite <- in_rev. intro Hin. apply existsb_eqb_In in Hin. congruence.
Qed.

Lemma store_report_entry (d : Manager.AutoResharderSendData)
  (t : list Manager.AutoResharderSendData) (id : Z) :
  entry id (Manager.store_report d t)
  = if Z.eqb (Manager.clusterId d) id then Some d else entry id t.
Proof.
  unfold entry. induction t as [|x t IH].
  - simpl. destruct (Z.eqb (Manager.clusterId d) id); reflexivity.
  - rewrite store_report_cons.
    destruct (Z.eqb_spec (Manager.clusterId x) (Manager.clusterId d)) as [Heq|Hne];
      cbn [find].
    + rewrite Heq. destruct (Z.eqb (Manager.clusterId d) id); reflexivity.
    + rewrite IH.
      destruct (Z.eqb_spec (Manager.clusterId x) id) as [Hx|Hx]; [|reflexivity].
      destruct (Z.eqb_spec (Manager.clusterId d) id) as [Hd|Hd]; [congruence|reflexivity].
Qed.

(** A cycle of a well-formed coordinator leaves the fields of the class as
    they are; only the heap and the log grow. *)
Lemma checkReCluster_frame (E : Manager.Env) (w : Manager.World) :
  Manager.well_formed w ->
  Manager.self (fst (Manager.checkReCluster E w)) = Manager.self w
  /\ Manager.inflight (fst (Manager.checkReCluster E w)) = Manager.inflight w
  /\ (List.length (Manager.heap w)
      <= List.length (Manager.heap (fst (Manager.checkReCluster E w))))%nat.
Proof.
  intro Hwf. unfold Manager.checkReCluster.
  destruct (Nat.leb _ _).
  - unfold Manager.log_if.
    destruct (Manager.debug (Manager.options (Manager.self w))); simpl; auto.
  - set (w1 := if Manager.isReClustering (Manager.self w) then _ else w).
    assert (H1 : Manager.self w1 = Manager.self w
                 /\ Manager.inflight w1 = Manager.inflight w
                 /\ Manager.heap w1 = Manager.heap w).
    { subst w1. unfold Manager.log_if.
      destruct (Manager.isReClustering (Manager.self w)),
        (Manager.debug (Manager.options (Manager.self w))); simpl; auto. }
    destruct H1 as [Hs [Hi Hh]].
    assert (Hwf1 : Manager.well_formed w1)
      by (unfold Manager.well_formed; rewrite Hs, Hh; exact Hwf).
    pose proof (shardList_differs_always w1) as Hd.
    unfold Manager.shardList_differs in *.
    destruct (Js.array_length _) as [n|e]; simpl in *.
    + rewrite (Hd _ Hwf1 eq_refl). simpl.
      rewrite Hs, Hi, Hh, length_app. repeat split; lia.
    + rewrite Hs, Hi, Hh. auto.
Qed.

Lemma on_message_frame (E : Manager.Env) (w : Manager.World) (c : Z) (m : Manager.message) :
  Manager.well_formed w ->
  let w' := fst (Manager.on_message E w c m) in
  Manager.well_formed w'
  /\ Manager.clustersListening (Manager.self w') = Manager.clustersListening (Manager.self w)
  /\ Manager.clusterDatas (Manager.self w')
     = match carried m with
       | Some d => Manager.store_report d (Manager.clusterDatas (Manager.self w))
       | None => Manager.clusterDatas (Manager.self w)
       end.
Proof.
  intros Hwf w'. subst w'. unfold Manager.on_message, carried.
  assert (Hgoal : forall msg,
    let r := match Manager._type msg with
             | CLIENT_AUTORESHARDER_SENDDATA => Some (Manager.data msg)
             | OtherMessageType _ => None
             end in
    let w' := fst (if negb (messageType_eqb (Manager._type msg) CLIENT_AUTORESHARDER_SENDDATA)
                   then (w, None)
                   else
                     let w0 := Manager.with_self w
                                 (Manager.set_clusterDatas (Manager.self w)
                                    (Manager.store_report (Manager.data msg)
                                       (Manager.clusterDatas (Manager.self w)))) in
                     let w1 := Manager.log_if (Manager.debug (Manager.options (Manager.self w0)))
                                 w0 (Manager.Debug_ReachedSendData c (Manager.data msg)) in
                     let '(w2, cy) := Manager.checkReCluster E w1 in (w2, Some cy)) in
    Manager.well_formed w'
    /\ Manager.clustersListening (Manager.self w') = Manager.clustersListening (Manager.self w)
    /\ Manager.clusterDatas (Manager.self w')
       = match r with
         | Some d => Manager.store_report d (Manager.clusterDatas (Manager.self w))
         | None => Manager.clusterDatas (Manager.self w)
         end).
  { intro msg. destruct (Manager._type msg); simpl; [|auto].
    set (w1 := Manager.log_if _ _ _).
    assert (H1 : Manager.self w1
                 = Manager.set_clusterDatas (Manager.self w)
                     (Manager.store_report (Manager.data msg)
                        (Manager.clusterDatas (Manager.self w)))
                 /\ Manager.heap w1 = Manager.heap w).
    { subst w1. unfold Manager.log_if. destruct (Manager.debug _); simpl; auto. }
    destruct H1 as [Hs Hh].
    assert (Hwf1 : Manager.well_formed w1)
      by (unfold Manager.well_formed; rewrite Hs, Hh; exact Hwf).
    destruct (checkReCluster_frame E w1 Hwf1) as [Fs [_ Fh]].
    destruct (Manager.checkReCluster E w1) as [w2 cy]. simpl in *.
    unfold Manager.well_formed in *. rewrite Fs, Hs. simpl.
    rewrite Hs, Hh in *. simpl in *. repeat split; try reflexivity. lia. }
  destruct m as [|msg|msg]; [simpl; auto| |]; apply Hgoal.
Qed.

Lemma step_frame (E : Manager.Env) (w : Manager.World) (e : Manager.event) :
  Manager.well_formed w ->
  let listening := Manager.clustersListening (Manager.self w) in
  let w' := Manager.step E w e in
  Manager.well_formed w'
  /\ Manager.clusterDatas (Manager.self w')
     = fold_left absorb (heard listening [e]) (Manager.clusterDatas (Manager.self w))
  /\ forall es, heard listening (e :: es)
                = heard listening [e] ++ heard (Manager.clustersListening (Manager.self w')) es.
Proof.
  intros Hwf listening w'. subst listening w'. destruct e as [c|c m|i s]; simpl.
  - unfold Manager.on_clusterCreate.
    destruct (existsb _ _); simpl; auto.
  - destruct (existsb (Z.eqb c) _) eqn:Hc; simpl; [|auto].
    destruct (on_message_frame E w c m Hwf) as [Hw [Hl Hd]].
    rewrite Hl, Hd. repeat split; try assumption; reflexivity.
  - unfold Manager.resume.
    destruct (nth_error _ i); [|simpl; auto].
    destruct s as [v|err]; simpl; [|auto].
    unfold Manager.log_if. destruct (Manager.debug _); simpl; auto.
Qed.

Lemma run_table (E : Manager.Env) (es : list Manager.event) :
  forall w : Manager.World,
    Manager.well_formed w ->
    Manager.clusterDatas (Manager.self (Manager.run E w es))
    = fold_left absorb (heard (Manager.clustersListening (Manager.self w)) es)
        (Manager.clusterDatas (Manager.self w)).
Proof.
  unfold Manager.run.
  induction es as [|e es IH]; intros w Hwf; [reflexivity|].
  destruct (step_frame E w e Hwf) as [Hwf' [Ht Hh]].
  cbn [fold_left]. rewrite (Hh es), fold_left_app, <- Ht. apply IH. exact Hwf'.
Qed.

Lemma absorb_NoDup (ms : list Manager.message) :
  forall t, NoDup (ids t) -> NoDup (ids (fold_left absorb ms t)).
Proof.
  induction ms as [|m ms IH]; intros t H; [exact H|].
  simpl. apply IH. unfold absorb.
  destruct (carried m); [apply store_report_NoDup|]; exact H.
Qed.

Lemma absorb_entry (id : Z) (ms : list Manager.message) :
  forall t,
    entry id (fold_left absorb ms t)
    = match latest id ms with
      | Some d => Some d
      | None => entry id t
      end.
Proof.
  induction ms as [|m ms IH]; intro t; [reflexivity|].
  simpl. rewrite IH.
  destruct (latest id ms); [reflexivity|].
  unfold absorb. destruct (carried m) as [d|]; [|reflexivity].
  rewrite store_report_entry.
  destruct (Z.eqb (Manager.clusterId d) id); reflexivity.
Qed.

Lemma absorb_keeps_ids (id : Z) (ms : list Manager.message) :
  forall t, In id (ids t) -> In id (ids (fold_left absorb ms t)).
Proof.
  induction ms as [|m ms IH]; intros t H; [exact H|].
  simpl. apply IH. unfold absorb.
  destruct (carried m) as [d|]; [|exact H].
  rewrite store_report_ids.
  destruct (existsb _ _); [exact H|].
  apply in_or_app. left. exact H.
Qed.

(** C10: whatever events the coordinator went through, its table has at most
    one entry per worker id; the entry of a worker is the last report heard
    from it, or the entry it had before when none was heard; and every id
    that had an entry still has one. *)
Theorem C10_report_table (E : Manager.Env) (w : Manager.World) (es : list Manager.event) :
  Manager.well_formed w ->
  NoDup (ids (Manager.clusterDatas (Manager.self w))) ->
  let before := Manager.clusterDatas (Manager.self w) in
  let after := Manager.clusterDatas (Manager.self (Manager.run E w es)) in
  let ms := heard (Manager.clustersListening (Manager.self w)) es in
  NoDup (ids after)
  /\ (forall id, entry id after
                 = match latest id ms with
                   | Some d => Some d
                   | None => entry id before
                   end)
  /\ (forall id, In id (ids before) -> In id (ids after)).
Proof.
  intros Hwf Hnd before after ms. subst before after ms.
  rewrite (run_table E es w Hwf).
  split; [apply absorb_NoDup; exact Hnd|].
  split; intro id; [apply absorb_entry|apply absorb_keeps_ids].
Qed.

Lemma C10_witness :
  let after := Manager.clusterDatas (Manager.self (Manager.run fetch_8 (boot fleet3 heap3) session)) in
  NoDup (ids after)
  /\ (forall id, entry id after
                 = match latest id (heard [] session) with
                   | Some d => Some d
                   | None => entry id []
                   end)
  /\ (forall id, In id (ids []) -> In id (ids after)).
Proof.
  apply (C10_report_table fetch_8 (boot fleet3 heap3) session).
  - unfold Manager.well_formed. simpl. lia.
  - simpl. constructor.
Defined.

(** The table of the witness: cluster 0 holds its second report, the message
    of another kind left no trace. *)
Example session_table :
  Manager.clusterDatas (Manager.self (Manager.run fetch_8 (boot fleet3 heap3) session))
  = [report 0 [(0, 2100); (1, 10)]; report 1 [(2, 20); (3, 30)];
     report 2 [(4, 40); (5, 50)]].
Proof. reflexivity. Qed.

(** *** Remarks on the shape check *)

(** A negative shard id stops the tick before anything is sent. *)
Example negative_shardId_not_sent :
  Reporter.sendData negative_shard_reporter
  = (negative_shard_reporter, Js.Throw Reporter.err_invalid_sendData).
Proof. reflexivity. Qed.

(** A NaN load has type number and is not below zero: the check lets it
    through. *)
Example nan_load_is_sent :
  snd (Reporter.sendData nan_load_reporter) = Js.Normal Js.VUndefined
  /\ List.length (Reporter.trace (fst (Reporter.sendData nan_load_reporter))) = 1%nat.
Proof. split; reflexivity. Qed.

(** ** Further properties of the reporter *)

Lemma sendData_timers (w : Reporter.World) :
  Reporter.timers (fst (Reporter.sendData w)) = Reporter.timers w.
Proof.
  unfold Reporter.sendData.
  destruct (Reporter.validate (Reporter.self w)); [|reflexivity].
  destruct (Reporter.clusterClient (Reporter.self w)) as [cc|]; [|reflexivity].
  destruct (Reporter.sendDataFunction (Reporter.options (Reporter.self w))) as [f|];
    [|reflexivity].
  destruct (f cc) as [sd|]; [|reflexivity].
  destruct (Reporter.bad_sendData sd); [reflexivity|].
  destruct (Reporter.debug (Reporter.options (Reporter.self w)));
    destruct (Reporter.send cc); reflexivity.
Qed.

Lemma clearInterval_owned (w : Reporter.World) (i : Reporter.timer) :
  timers_owned w ->
  Reporter.interval (Reporter.self w) = Some i ->
  Reporter.armed (Reporter.clearInterval i (Reporter.timers w)) = [].
Proof.
  intros [H|[j [H Hj]]] Hi; unfold Reporter.clearInterval; simpl; rewrite H.
  - reflexivity.
  - rewrite Hj in Hi. injection Hi as <-. simpl. rewrite Nat.eqb_refl. reflexivity.
Qed.

Lemma no_interval_nothing_armed (w : Reporter.World) :
  timers_owned w ->
  Reporter.interval (Reporter.self w) = None ->
  Reporter.armed (Reporter.timers w) = [].
Proof.
  intros [H|[j [_ Hj]]] Hi; [exact H|congruence].
Qed.

(** After the clearing block nothing is armed and the field is empty. *)
Lemma clear_and_forget_owned (w : Reporter.World) :
  timers_owned w ->
  Reporter.armed (Reporter.timers (Reporter.clear_and_forget w)) = []
  /\ Reporter.interval (Reporter.self (Reporter.clear_and_forget w)) = None
  /\ Reporter.options (Reporter.self (Reporter.clear_and_forget w))
     = Reporter.options (Reporter.self w)
  /\ Reporter.next_timer (Reporter.timers (Reporter.clear_and_forget w))
     = Reporter.next_timer (Reporter.timers w)
  /\ Reporter.trace (Reporter.clear_and_forget w) = Reporter.trace w.
Proof.
  intro H. unfold Reporter.clear_and_forget.
  destruct (Reporter.interval (Reporter.self w)) as [i|] eqn:Hi.
  - pose proof (clearInterval_owned w i H Hi) as Hc.
    cbn [Reporter.self Reporter.timers Reporter.trace Reporter.set_interval_field
         Reporter.interval Reporter.options].
    rewrite Hc. repeat split.
  - rewrite (no_interval_nothing_armed w H Hi). auto.
Qed.

(** What [initialize] leaves behind, for a reporter that owns its timers:
    either the send failed and nothing is armed, or exactly one new interval
    runs at the period of the options. *)
Lemma initialize_owned (w : Reporter.World) (b : bool) :
  Reporter.armed (Reporter.timers w) = []
  \/ (exists i, Reporter.interval (Reporter.self w) = Some i
                /\ exists p, Reporter.armed (Reporter.timers w) = [(i, p)]) ->
  let r := Reporter.initialize w b in
  Reporter.options (Reporter.self (fst r)) = Reporter.options (Reporter.self w)
  /\ ((exists e, snd r = Js.Throw e /\ b = true
                 /\ Reporter.armed (Reporter.timers (fst r)) = [])
      \/ (snd r = Js.Normal true
          /\ Reporter.armed (Reporter.timers (fst r))
             = [(Reporter.next_timer (Reporter.timers w),
                 Reporter.sendDataIntervalMS (Reporter.options (Reporter.self w)))]
          /\ Reporter.interval (Reporter.self (fst r))
             = Some (Reporter.next_timer (Reporter.timers w)))).
Proof.
  intros H r. subst r. unfold Reporter.initialize.
  set (w1 := match Reporter.interval (Reporter.self w) with
             | Some i => _
             | None => w
             end).
  assert (H1 : Reporter.self w1 = Reporter.self w
               /\ Reporter.armed (Reporter.timers w1) = []
               /\ Reporter.next_timer (Reporter.timers w1)
                  = Reporter.next_timer (Reporter.timers w)).
  { subst w1. destruct (Reporter.interval (Reporter.self w)) as [i|] eqn:Hi; simpl.
    - repeat split. destruct H as [H|[j [Hj [p Hp]]]]; rewrite ?H, ?Hp; simpl;
        [reflexivity|].
      injection Hj as <-. rewrite Nat.eqb_refl. reflexivity.
    - repeat split. destruct H as [H|[j [Hj _]]]; [exact H|discriminate]. }
  destruct H1 as [Hs [Ha Hn]].
  destruct b.
  - pose proof (sendData_self w1) as Ss. pose proof (sendData_timers w1) as St.
    destruct (Reporter.sendData w1) as [w2 [v|e]]; simpl in *.
    + rewrite Ss, St, Hs, Ha, Hn. split; [reflexivity|]. right. auto.
    + rewrite Ss, St, Hs, Ha. split; [reflexivity|]. left. exists e. auto.
  - simpl. rewrite Hs, Ha, Hn. split; [reflexivity|]. right. auto.
Qed.

Lemma timers_owned_shape (w : Reporter.World) :
  timers_owned w ->
  Reporter.armed (Reporter.timers w) = []
  \/ (exists i, Reporter.interval (Reporter.self w) = Some i
                /\ exists p, Reporter.armed (Reporter.timers w) = [(i, p)]).
Proof.
  intros [H|[i [H Hi]]]; [left; exact H|].
  right. exists i. split; [exact Hi|]. eexists. exact H.
Qed.

Lemma initialize_keeps_owned (w : Reporter.World) (b : bool) :
  Reporter.armed (Reporter.timers w) = []
  \/ (exists i, Reporter.interval (Reporter.self w) = Some i
                /\ exists p, Reporter.armed (Reporter.timers w) = [(i, p)]) ->
  timers_owned (fst (Reporter.initialize w b)).
Proof.
  intro H. destruct (initialize_owned w b H) as [Ho [[e [_ [_ Ha]]]|[_ [Ha Hi]]]].
  - left. exact Ha.
  - right. exists (Reporter.next_timer (Reporter.timers w)).
    rewrite Ho. split; assumption.
Qed.

Lemma step_timers_owned (w : Reporter.World) (c : Reporter.call) :
  timers_owned w -> timers_owned (Reporter.step w c).
Proof.
  intro H. destruct c as [|o b|o b|i]; simpl.
  - unfold Reporter.stop.
    destruct (clear_and_forget_owned w H) as [Ha _].
    destruct (Bool.eqb _ false); left; exact Ha.
  - unfold Reporter.start.
    destruct (Bool.eqb (Reporter.started (Reporter.self w)) true); [exact H|].
    apply initialize_keeps_owned. simpl.
    destruct (timers_owned_shape w H) as [Ha|Ha]; [left|right]; exact Ha.
  - unfold Reporter.reStart.
    apply initialize_keeps_owned. simpl.
    destruct (clear_and_forget_owned w H) as [Ha _]. left. exact Ha.
  - unfold Reporter.tick.
    destruct (Reporter.is_armed i (Reporter.timers w)); [|exact H].
    pose proof (sendData_self w) as Ss. pose proof (sendData_timers w) as St.
    destruct (Reporter.sendData w) as [w' r]. simpl in *.
    unfold timers_owned. rewrite Ss, St. exact H.
Qed.

Lemma run_timers_owned (cs : list Reporter.call) :
  forall w, timers_owned w -> timers_owned (Reporter.run w cs).
Proof.
  unfold Reporter.run.
  induction cs as [|c cs IH]; intros w H; [exact H|].
  simpl. apply IH. apply step_timers_owned. exact H.
Qed.

Lemma new_timers_owned (cc : option Reporter.ClusterClient)
  (o : option Reporter.PartialOptions) (T : Reporter.Timers) (w : Reporter.World) :
  Reporter.armed T = [] ->
  Reporter.new cc o T = Js.Normal w ->
  timers_owned w.
Proof.
  intros HT. unfold Reporter.new.
  destruct (Reporter.validate _); [|discriminate].
  intro H. injection H as H. subst w.
  right. exists (Reporter.next_timer T). simpl. rewrite HT. split; reflexivity.
Qed.

Lemma reachable_timers_owned (cc : option Reporter.ClusterClient)
  (o : option Reporter.PartialOptions) (T : Reporter.Timers)
  (w : Reporter.World) (cs : list Reporter.call) :
  Reporter.armed T = [] ->
  Reporter.new cc o T = Js.Normal w ->
  timers_owned (Reporter.run w cs).
Proof.
  intros HT H. apply run_timers_owned. exact (new_timers_owned _ _ _ _ HT H).
Qed.

(** X1: a reporter constructed on a host without armed timers never has more
    than one interval armed, whatever is called afterwards (calls that do not
    overlap): the armed one is the one kept in [interval], and it runs at the
    period of the current options. *)
Theorem X1_at_most_one_interval_armed (cc : option Reporter.ClusterClient)
  (o : option Reporter.PartialOptions) (T : Reporter.Timers)
  (w : Reporter.World) (cs : list Reporter.call) :
  Reporter.armed T = [] ->
  Reporter.new cc o T = Js.Normal w ->
  timers_owned (Reporter.run w cs).
Proof. exact (reachable_timers_owned cc o T w cs). Qed.

Lemma X1_witness : timers_owned (Reporter.run reporter0 some_calls).
Proof.
  exact (X1_at_most_one_interval_armed (Some cluster0) None no_timers reporter0 some_calls
           eq_refl eq_refl).
Defined.

(** X2: for a reporter constructed on a host without armed timers and used
    by calls that do not overlap (each has settled before the next one is
    made): after [stop()] no interval of the reporter is armed and the field
    [interval] is null, so that no later timer firing sends anything. Such
    calls are what [Reporter.run] has, see X21; a [stop()] made while a
    [start] still waits for its send is another matter, see X22. *)
Theorem X2_no_tick_after_stop (cc : option Reporter.ClusterClient)
  (o : option Reporter.PartialOptions) (T : Reporter.Timers)
  (w : Reporter.World) (cs : list Reporter.call) :
  Reporter.armed T = [] ->
  Reporter.new cc o T = Js.Normal w ->
  let stopped := fst (Reporter.stop (Reporter.run w cs)) in
  Reporter.armed (Reporter.timers stopped) = []
  /\ Reporter.interval (Reporter.self stopped) = None
  /\ forall i, Reporter.tick i stopped = (stopped, None).
Proof.
  intros HT H stopped.
  pose proof (reachable_timers_owned cc o T w cs HT H) as Ho.
  destruct (clear_and_forget_owned _ Ho) as [Ha [Hi _]].
  assert (Hs : stopped = Reporter.clear_and_forget (Reporter.run w cs)).
  { subst stopped. unfold Reporter.stop. destruct (Bool.eqb _ false); reflexivity. }
  rewrite Hs. repeat split; try assumption.
  intro i. unfold Reporter.tick, Reporter.is_armed. rewrite Ha. reflexivity.
Qed.

Lemma X2_witness :
  let stopped := fst (Reporter.stop (Reporter.run reporter0 some_calls)) in
  Reporter.armed (Reporter.timers stopped) = []
  /\ Reporter.interval (Reporter.self stopped) = None
  /\ forall i, Reporter.tick i stopped = (stopped, None).
Proof.
  exact (X2_no_tick_after_stop (Some cluster0) None no_timers reporter0 some_calls
           eq_refl eq_refl).
Defined.

Lemma sendData_sound (w : Reporter.World) :
  Forall sound_effect (Reporter.trace w) ->
  Forall sound_effect (Reporter.trace (fst (Reporter.sendData w))).
Proof.
  intro H. unfold Reporter.sendData.
  destruct (Reporter.validate (Reporter.self w)); [|exact H].
  destruct (Reporter.clusterClient (Reporter.self w)) as [cc|]; [|exact H].
  destruct (Reporter.sendDataFunction (Reporter.options (Reporter.self w))) as [f|];
    [|exact H].
  destruct (f cc) as [sd|]; [|exact H].
  destruct (Reporter.bad_sendData sd) eqn:Hbad; [exact H|].
  assert (Hsent : sound_effect
                    (Reporter.Sent {| Reporter._type := CLIENT_AUTORESHARDER_SENDDATA;
                                      Reporter.data := sd |}))
    by (split; [reflexivity|exact Hbad]).
  assert (Hdebug : forall v, sound_effect (Reporter.Debug_Sending v))
    by (intro v; exact I).
  destruct (Reporter.debug (Reporter.options (Reporter.self w)));
    destruct (Reporter.send cc); simpl;
    repeat (apply Forall_app; split); auto.
Qed.

Lemma initialize_trace (w : Reporter.World) (b : bool) :
  Reporter.trace (fst (Reporter.initialize w b))
  = if b then Reporter.trace (fst (Reporter.sendData
                                     (match Reporter.interval (Reporter.self w) with
                                      | Some i =>
                                          {| Reporter.self := Reporter.self w;
                                             Reporter.timers :=
                                               Reporter.clearInterval i (Reporter.timers w);
                                             Reporter.trace := Reporter.trace w |}
                                      | None => w
                                      end)))
    else Reporter.trace w.
Proof.
  unfold Reporter.initialize.
  set (w1 := match Reporter.interval (Reporter.self w) with
             | Some i => _
             | None => w
             end).
  assert (Ht : Reporter.trace w1 = Reporter.trace w)
    by (subst w1; destruct (Reporter.interval (Reporter.self w)); reflexivity).
  destruct b.
  - destruct (Reporter.sendData w1) as [w2 [v|e]]; reflexivity.
  - simpl. exact Ht.
Qed.

Lemma initialize_sound (w : Reporter.World) (b : bool) :
  Forall sound_effect (Reporter.trace w) ->
  Forall sound_effect (Reporter.trace (fst (Reporter.initialize w b))).
Proof.
  intro H. rewrite initialize_trace. destruct b; [|exact H].
  apply sendData_sound.
  destruct (Reporter.interval (Reporter.self w)); exact H.
Qed.

Lemma clear_and_forget_trace (w : Reporter.World) :
  Reporter.trace (Reporter.clear_and_forget w) = Reporter.trace w.
Proof.
  unfold Reporter.clear_and_forget.
  destruct (Reporter.interval (Reporter.self w)); reflexivity.
Qed.

Lemma step_sound (w : Reporter.World) (c : Reporter.call) :
  Forall sound_effect (Reporter.trace w) ->
  Forall sound_effect (Reporter.trace (Reporter.step w c)).
Proof.
  intro H. destruct c as [|o b|o b|i]; simpl.
  - unfold Reporter.stop. destruct (Bool.eqb _ false); simpl;
      rewrite clear_and_forget_trace; exact H.
  - unfold Reporter.start.
    destruct (Bool.eqb (Reporter.started (Reporter.self w)) true); [exact H|].
    apply initialize_sound. exact H.
  - unfold Reporter.reStart. apply initialize_sound. simpl.
    rewrite clear_and_forget_trace. exact H.
  - unfold Reporter.tick.
    destruct (Reporter.is_armed i (Reporter.timers w)); [|exact H].
    pose proof (sendData_sound w H) as Hs.
    destruct (Reporter.sendData w) as [w' r]. exact Hs.
Qed.

(** X3: whatever is called on a reporter, every message it ever handed to
    [send] carries the tag of the load report and data that passed the shape
    check of [sendData]. *)
Theorem X3_only_checked_reports_are_sent (cc : option Reporter.ClusterClient)
  (o : option Reporter.PartialOptions) (T : Reporter.Timers)
  (w : Reporter.World) (cs : list Reporter.call) :
  Reporter.new cc o T = Js.Normal w ->
  Forall sound_effect (Reporter.trace (Reporter.run w cs)).
Proof.
  intro H.
  assert (H0 : Forall sound_effect (Reporter.trace w)).
  { revert H. unfold Reporter.new. destruct (Reporter.validate _); [|discriminate].
    intro H. injection H as H. subst w. constructor. }
  clear H. revert w H0. unfold Reporter.run.
  induction cs as [|c cs IH]; intros w H0; [exact H0|].
  simpl. apply IH. apply step_sound. exact H0.
Qed.

Lemma X3_witness :
  Forall sound_effect (Reporter.trace (Reporter.run reporter0 some_calls)).
Proof.
  exact (X3_only_checked_reports_are_sent (Some cluster0) None no_timers reporter0
           some_calls eq_refl).
Defined.

(** X4: for a reporter constructed on a host without armed timers and then
    used in any way by calls that do not overlap, a [start] that nothing
    interrupts ends in one of two ways: its promise is rejected, which needs
    [executeSendData], and then no interval is armed at all; or it resolves to
    [true] and exactly one interval is armed, at the period of the merged
    options. Without [executeSendData] it always resolves. Two overlapping
    calls of [start] arm an interval each, see X23. *)
Theorem X4_start_arms_one_interval_or_none (cc : option Reporter.ClusterClient)
  (o : option Reporter.PartialOptions) (T : Reporter.Timers)
  (w : Reporter.World) (cs : list Reporter.call)
  (newOptions : option Reporter.PartialOptions) (executeSendData : bool) :
  Reporter.armed T = [] ->
  Reporter.new cc o T = Js.Normal w ->
  let before := Reporter.run w cs in
  let r := Reporter.start before newOptions executeSendData in
  let merged := Reporter.merge (Reporter.options (Reporter.self before)) newOptions in
  (exists e, snd r = Js.Throw e /\ executeSendData = true
             /\ Reporter.armed (Reporter.timers (fst r)) = [])
  \/ (snd r = Js.Normal true
      /\ Reporter.armed (Reporter.timers (fst r))
         = [(Reporter.next_timer (Reporter.timers before),
             Reporter.sendDataIntervalMS merged)]).
Proof.
  intros HT H before r merged. subst r merged.
  pose proof (start_never_guarded cc o T w cs newOptions executeSendData H) as Hs.
  cbv zeta in Hs. fold before in Hs. rewrite Hs. clear Hs.
  pose proof (reachable_timers_owned cc o T w cs HT H) as Ho. fold before in Ho.
  set (w1 := Reporter.set_self before _).
  assert (Hshape : Reporter.armed (Reporter.timers w1) = []
                   \/ (exists i, Reporter.interval (Reporter.self w1) = Some i
                                 /\ exists p, Reporter.armed (Reporter.timers w1) = [(i, p)]))
    by (subst w1; simpl; exact (timers_owned_shape before Ho)).
  destruct (initialize_owned w1 executeSendData Hshape) as [_ [[e [He [Hb Ha]]]|[Hr [Ha _]]]].
  - left. exists e. auto.
  - right. split; [exact Hr|exact Ha].
Qed.

Lemma X4_witness :
  let before := Reporter.run reporter0 some_calls in
  let r := Reporter.start before (Some failing_load_options) true in
  let merged := Reporter.merge (Reporter.options (Reporter.self before))
                  (Some failing_load_options) in
  (exists e, snd r = Js.Throw e /\ true = true
             /\ Reporter.armed (Reporter.timers (fst r)) = [])
  \/ (snd r = Js.Normal true
      /\ Reporter.armed (Reporter.timers (fst r))
         = [(Reporter.next_timer (Reporter.timers before),
             Reporter.sendDataIntervalMS merged)]).
Proof.
  exact (X4_start_arms_one_interval_or_none (Some cluster0) None no_timers reporter0
           some_calls (Some failing_load_options) true eq_refl eq_refl).
Defined.

(** A failing immediate send: the promise of [start] is rejected with the
    error of the load function and the reporter is left without interval. *)
Example start_with_failing_load :
  let r := Reporter.start reporter0 (Some failing_load_options) true in
  snd r = Js.Throw (Js.Error "no cache")
  /\ Reporter.armed (Reporter.timers (fst r)) = [].
Proof. split; reflexivity. Qed.

(** X5: [started] never being set, [reStart] without immediate send does on
    a used reporter exactly what [start] does: both cancel the running
    interval, arm a new one at the merged period and resolve to [true]. *)
Theorem X5_reStart_is_start (cc : option Reporter.ClusterClient)
  (o : option Reporter.PartialOptions) (T : Reporter.Timers)
  (w : Reporter.World) (cs : list Reporter.call)
  (newOptions : option Reporter.PartialOptions) :
  Reporter.armed T = [] ->
  Reporter.new cc o T = Js.Normal w ->
  let before := Reporter.run w cs in
  Reporter.reStart before newOptions false = Reporter.start before newOptions false
  /\ snd (Reporter.reStart before newOptions false) = Js.Normal true.
Proof.
  intros HT H before.
  pose proof (start_never_guarded cc o T w cs newOptions false H) as Hs.
  cbv zeta in Hs. fold before in Hs. rewrite Hs. clear Hs.
  pose proof (reachable_timers_owned cc o T w cs HT H) as Ho. fold before in Ho.
  unfold Reporter.reStart, Reporter.initialize, Reporter.clear_and_forget.
  destruct Ho as [Ha|[i [Ha Hi]]].
  - destruct (Reporter.interval (Reporter.self before)) as [j|] eqn:Hj; simpl.
    + rewrite Hj. simpl. rewrite Ha. simpl. split; reflexivity.
    + rewrite Hj. simpl. split; reflexivity.
  - rewrite Hi. simpl. rewrite Hi. simpl. rewrite Ha. simpl.
    rewrite Nat.eqb_refl. simpl. split; reflexivity.
Qed.

Lemma X5_witness :
  let before := Reporter.run reporter0 some_calls in
  Reporter.reStart before (Some interval_5ms) false
  = Reporter.start before (Some interval_5ms) false
  /\ snd (Reporter.reStart before (Some interval_5ms) false) = Js.Normal true.
Proof.
  exact (X5_reStart_is_start (Some cluster0) None no_timers reporter0 some_calls
           (Some interval_5ms) eq_refl eq_refl).
Defined.

(** *** The default load function and the constructor *)

Lemma count_split (s : Z) (shards guilds : list Z) :
  ~ In s shards ->
  (guilds_of_shard guilds s + List.length (guilds_on shards guilds)
   = List.length (guilds_on (s :: shards) guilds))%nat.
Proof.
  intro Hs. unfold guilds_of_shard, guilds_on.
  induction guilds as [|g guilds IH]; [reflexivity|].
  simpl in *.
  destruct (Z.eqb_spec s g) as [Heq|Hne].
  - subst g. rewrite Z.eqb_refl. simpl.
    assert (Hn : existsb (Z.eqb s) shards = false).
    { destruct (existsb (Z.eqb s) shards) eqn:E; [|reflexivity].
      apply existsb_eqb_In in E. contradiction. }
    rewrite Hn. simpl. lia.
  - assert (Hg : Z.eqb g s = false) by (apply Z.eqb_neq; congruence).
    rewrite Hg. simpl.
    destruct (existsb (Z.eqb g) shards); simpl; lia.
Qed.

Lemma counts_add_up (shards guilds : list Z) :
  NoDup shards ->
  list_sum (map (guilds_of_shard guilds) shards) = List.length (guilds_on shards guilds).
Proof.
  induction 1 as [|s shards Hs _ IH].
  - unfold guilds_on. simpl. induction guilds; [reflexivity|assumption].
  - change (list_sum (map (guilds_of_shard guilds) (s :: shards)))
      with (guilds_of_shard guilds s + list_sum (map (guilds_of_shard guilds) shards))%nat.
    rewrite IH. apply count_split. exact Hs.
Qed.

Lemma Qsum_counts (guilds shards : list Z) :
  (Qsum (map (fun s => inject_Z (Z.of_nat (guilds_of_shard guilds s))) shards)
   == inject_Z (Z.of_nat (list_sum (map (guilds_of_shard guilds) shards))))%Q.
Proof.
  induction shards as [|s shards IH]; [reflexivity|].
  change (list_sum (map (guilds_of_shard guilds) (s :: shards)))
    with (guilds_of_shard guilds s + list_sum (map (guilds_of_shard guilds) shards))%nat.
  cbn [map Qsum fold_right]. unfold Qsum in IH. rewrite IH.
  rewrite Nat2Z.inj_add, inject_Z_plus. reflexivity.
Qed.

(** X6: for a cluster client with a shard list, the default load function
    returns a report under the client's id with one entry per listed shard,
    in order, whose load is the number of cached guilds of that shard. When
    the id is a non-negative number and no listed shard id is negative the
    report passes the shape check; when no shard is listed twice the loads
    add up to the number of cached guilds on the listed shards. *)
Theorem X6_default_report (cluster : Reporter.ClusterClient) (shards : list Z) :
  Reporter.info cluster = Some (Some shards) ->
  exists entries,
    Reporter.default_sendDataFunction cluster
    = Js.Normal (Reporter.SendData (Reporter.id cluster) (Some entries))
    /\ map Reporter.shardId entries = map (fun s => Js.VNumber (Js.of_Z s)) shards
    /\ map entry_load entries
       = map (fun s => inject_Z (Z.of_nat (guilds_of_shard (Reporter.guilds cluster) s)))
           shards
    /\ (non_negative_number (Reporter.id cluster) ->
        Forall (fun s => 0 <= s) shards ->
        Reporter.bad_sendData (Reporter.SendData (Reporter.id cluster) (Some entries))
        = false)
    /\ (NoDup shards ->
        (Qsum (map entry_load entries)
         == inject_Z (Z.of_nat (List.length (guilds_on shards (Reporter.guilds cluster)))))%Q).
Proof.
  intro Hinfo. unfold Reporter.default_sendDataFunction. rewrite Hinfo.
  eexists. split; [reflexivity|].
  split; [rewrite map_map; reflexivity|].
  assert (Hloads : forall l,
            map entry_load
              (map (fun s =>
                      {| Reporter.shardId := Js.VNumber (Js.of_Z s);
                         Reporter.guildCount :=
                           Js.VNumber
                             (Js.of_Z (Z.of_nat
                                         (List.length
                                            (filter (Z.eqb s) (Reporter.guilds cluster))))) |})
                   l)
            = map (fun s => inject_Z (Z.of_nat (guilds_of_shard (Reporter.guilds cluster) s))) l)
    by (intro l; rewrite map_map; reflexivity).
  split; [apply Hloads|].
  split.
  - intros Hid Hnn. apply well_shaped_is_not_bad. split; [exact Hid|].
    apply Forall_forall. intros e He. apply in_map_iff in He.
    destruct He as [s [<- Hs]]. rewrite Forall_forall in Hnn. simpl. split.
    + exists (inject_Z s). split; [reflexivity|].
      change 0%Q with (inject_Z 0). rewrite <- Zle_Qle. exact (Hnn s Hs).
    + eexists. split; [reflexivity|].
      change 0%Q with (inject_Z 0). rewrite <- Zle_Qle. lia.
  - intro Hnd. rewrite Hloads, Qsum_counts, (counts_add_up _ _ Hnd). reflexivity.
Qed.

Lemma X6_witness :
  exists entries,
    Reporter.default_sendDataFunction cluster0
    = Js.Normal (Reporter.SendData (Reporter.id cluster0) (Some entries))
    /\ map Reporter.shardId entries = map (fun s => Js.VNumber (Js.of_Z s)) [0; 1]
    /\ map entry_load entries
       = map (fun s => inject_Z (Z.of_nat (guilds_of_shard (Reporter.guilds cluster0) s)))
           [0; 1]
    /\ (non_negative_number (Reporter.id cluster0) ->
        Forall (fun s => 0 <= s) [0; 1] ->
        Reporter.bad_sendData (Reporter.SendData (Reporter.id cluster0) (Some entries))
        = false)
    /\ (NoDup [0; 1] ->
        (Qsum (map entry_load entries)
         == inject_Z (Z.of_nat (List.length
                                  (guilds_on [0%Z; 1%Z] (Reporter.guilds cluster0)))))%Q).
Proof. exact (X6_default_report cluster0 [0; 1] eq_refl). Defined.


(** ** Further properties of the coordinator *)

Lemma lt_Fin (a b : Q) : Js.lt (Js.Fin a) (Js.Fin b) = true <-> (a < b)%Q.
Proof.
  simpl. split.
  - intro H. apply negb_true_iff in H. apply Qnot_le_lt. intro Hle.
    apply Qle_bool_iff in Hle. congruence.
  - intro H. apply negb_true_iff.
    destruct (Qle_bool b a) eqn:E; [|reflexivity].
    apply Qle_bool_iff in E. exfalso. exact (Qlt_not_le _ _ H E).
Qed.

Lemma lt_Fin_false (a b : Q) : Js.lt (Js.Fin a) (Js.Fin b) = false <-> (b <= a)%Q.
Proof.
  simpl. rewrite negb_false_iff. apply Qle_bool_iff.
Qed.

(** X8: for options that are finite numbers, [validate] accepts exactly the
    configurations with [ShardsPerCluster >= 1], [MinGuildsPerShard >= 500],
    [MinGuildsPerShard < MaxGuildsPerShard <= 2500] and the ReCluster plugin
    attached to the manager. *)
Theorem X8_accepted_numeric_options (r : Manager.t) (s mn mx : Q) :
  Manager.ShardsPerCluster (Manager.options r) = Js.VNumber (Js.Fin s) ->
  Manager.MinGuildsPerShard (Manager.options r) = Js.VNumber (Js.Fin mn) ->
  Manager.MaxGuildsPerShard (Manager.options r) = Js.VNumber (Js.Fin mx) ->
  Manager.validate r = Js.Normal tt
  <-> ((1 <= s)%Q /\ (500 <= mn)%Q /\ (mn < mx)%Q /\ (mx <= 2500)%Q
       /\ Manager.recluster (Manager.manager r) = true).
Proof.
  intros Hs Hmn Hmx. unfold Manager.validate. rewrite Hs, Hmn, Hmx.
  cbn [Js.is_string Js.is_number Js.typeof Js.is_literal Js.as_number andb negb orb].
  unfold Js.gt, Js.le.
  destruct (Js.lt (Js.Fin s) (Js.Fin 1)) eqn:E1.
  { apply lt_Fin in E1. split; [discriminate|].
    intros [H _]. exfalso. exact (Qlt_not_le _ _ E1 H). }
  apply lt_Fin_false in E1.
  destruct (Js.lt (Js.Fin mn) (Js.Fin 500)) eqn:E2.
  { apply lt_Fin in E2. split; [discriminate|].
    intros [_ [H _]]. exfalso. exact (Qlt_not_le _ _ E2 H). }
  apply lt_Fin_false in E2.
  destruct (Qle_bool mx mn) eqn:E3.
  { apply Qle_bool_iff in E3. split; [discriminate|].
    intros [_ [_ [H _]]]. exfalso. exact (Qlt_not_le _ _ H E3). }
  assert (H3 : (mn < mx)%Q).
  { apply Qnot_le_lt. intro Hle. apply Qle_bool_iff in Hle. congruence. }
  cbn [orb].
  destruct (Js.lt (Js.Fin 2500) (Js.Fin mx)) eqn:E4.
  { apply lt_Fin in E4. split; [discriminate|].
    intros [_ [_ [_ [H _]]]]. exfalso. exact (Qlt_not_le _ _ E4 H). }
  apply lt_Fin_false in E4.
  destruct (Manager.recluster (Manager.manager r)); cbn [negb].
  - split; [intros _; auto|reflexivity].
  - split; [discriminate|]. intros [_ [_ [_ [_ H]]]]. discriminate.
Qed.

Lemma X8_witness :
  Manager.validate (constructed small_fleet) = Js.Normal tt
  <-> ((1 <= 2)%Q /\ (500 <= 1000)%Q /\ (1000 < 2000)%Q /\ (2000 <= 2500)%Q
       /\ Manager.recluster (Manager.manager (constructed small_fleet)) = true).
Proof.
  exact (X8_accepted_numeric_options (constructed small_fleet) 2 1000 2000
           eq_refl eq_refl eq_refl).
Defined.

(** X9: [validate] never ends in the RangeError about 'auto' needing
    [MaxGuildsPerShard > 2000]: whenever [MinGuildsPerShard] is a string the
    SyntaxError of that option is thrown before. *)
Theorem X9_auto_check_is_dead (r : Manager.t) :
  Manager.validate r <> Js.Throw Manager.err_auto_max
  /\ (Js.is_string (Manager.MinGuildsPerShard (Manager.options r)) = true ->
      Manager.validate r = Js.Throw Manager.err_ShardsPerCluster
      \/ Manager.validate r = Js.Throw Manager.err_MinGuildsPerShard).
Proof.
  unfold Manager.validate.
  destruct (Js.is_string (Manager.ShardsPerCluster (Manager.options r)) && negb _);
    [split; [discriminate|auto]|].
  destruct (negb (Js.is_number (Manager.ShardsPerCluster (Manager.options r))) || _);
    [split; [discriminate|auto]|].
  destruct (Manager.MinGuildsPerShard (Manager.options r)) as [| |b|n|str| |];
    cbn [Js.is_string Js.is_number Js.typeof Js.is_literal Js.as_number andb negb orb];
    try (split; [discriminate|auto]; fail).
  - destruct (Js.lt n (Js.Fin 500)); [split; [discriminate|discriminate]|].
    destruct (_ || _); [split; discriminate|].
    destruct (negb _); split; discriminate.
  - destruct (negb (String.eqb str "auto")); split; try discriminate; auto.
Qed.


Lemma find_none_existsb {A : Type} (p : A -> bool) (l : list A) :
  find p l = None <-> existsb p l = false.
Proof.
  induction l as [|x l IH]; simpl; [tauto|].
  destruct (p x); simpl; [split; discriminate|exact IH].
Qed.

(** The scan-and-rescale part never touches the manager, the options or the
    listeners, and it keeps the worker ids of the table. *)
Lemma rescale_frame (E : Manager.Env) (w : Manager.World) :
  let w' := fst (Manager.rescale E w) in
  Manager.manager (Manager.self w') = Manager.manager (Manager.self w)
  /\ Manager.options (Manager.self w') = Manager.options (Manager.self w)
  /\ Manager.clustersListening (Manager.self w')
     = Manager.clustersListening (Manager.self w).
Proof.
  unfold Manager.rescale.
  destruct (find _ _) as [rc|]; [|simpl; auto].
  destruct (negb (Manager.recluster _)); [simpl; auto|].
  destruct (Js.is_literal _ "auto"); cbn [fst snd].
  - destruct (Manager.fetchRecommendedShards E _) as [k|e]; [|simpl; auto].
    destruct (Manager.debug _); cbn zeta;
      destruct (Js.array_length _); simpl; auto.
  - destruct (Manager.debug _); cbn zeta;
      destruct (Js.array_length _); simpl; auto.
Qed.

Lemma checkReCluster_listeners (E : Manager.Env) (w : Manager.World) :
  Manager.clustersListening (Manager.self (fst (Manager.checkReCluster E w)))
  = Manager.clustersListening (Manager.self w).
Proof.
  unfold Manager.checkReCluster.
  destruct (Nat.leb _ _).
  - unfold Manager.log_if.
    destruct (Manager.debug (Manager.options (Manager.self w))); reflexivity.
  - set (w1 := if Manager.isReClustering (Manager.self w) then _ else w).
    assert (H1 : Manager.self w1 = Manager.self w).
    { subst w1. unfold Manager.log_if.
      destruct (Manager.isReClustering (Manager.self w)),
        (Manager.debug (Manager.options (Manager.self w))); reflexivity. }
    pose proof (shardList_differs_self w1) as H2.
    destruct (Manager.shardList_differs w1) as [w2 [[|]|e]]; simpl in *;
      try (rewrite H2, H1; reflexivity).
    destruct (rescale_frame E w2) as [_ [_ H3]]. rewrite H3, H2, H1. reflexivity.
Qed.

Lemma step_listeners (E : Manager.Env) (w : Manager.World) (e : Manager.event) :
  Manager.clustersListening (Manager.self (Manager.step E w e))
  = match e with
    | Manager.ClusterCreate c =>
        if existsb (Z.eqb c) (Manager.clustersListening (Manager.self w))
        then Manager.clustersListening (Manager.self w)
        else Manager.clustersListening (Manager.self w) ++ [c]
    | _ => Manager.clustersListening (Manager.self w)
    end.
Proof.
  destruct e as [c|c m|i s]; simpl.
  - unfold Manager.on_clusterCreate. destruct (existsb _ _); reflexivity.
  - destruct (existsb _ _); [|reflexivity].
    unfold Manager.on_message.
    destruct m as [|msg|msg]; [reflexivity| |];
      (destruct (negb _); [reflexivity|]);
      match goal with
      | |- context [Manager.checkReCluster E ?x] =>
          pose proof (checkReCluster_listeners E x) as H;
          destruct (Manager.checkReCluster E x) as [w2 cy]
      end;
      simpl in *; rewrite H; unfold Manager.log_if;
      destruct (Manager.debug _); reflexivity.
  - unfold Manager.resume. destruct (nth_error _ i); [|reflexivity].
    destruct s; [|reflexivity].
    simpl. unfold Manager.log_if. destruct (Manager.debug _); reflexivity.
Qed.

Lemma snoc_NoDup (l : list Z) (c : Z) :
  NoDup l -> existsb (Z.eqb c) l = false -> NoDup (l ++ [c]).
Proof.
  intros H E. apply NoDup_rev in H. rewrite <- (rev_involutive (_ ++ _)).
  apply NoDup_rev. rewrite rev_unit. constructor; [|exact H].
  rewrite <- in_rev. intro Hin. apply existsb_eqb_In in Hin. congruence.
Qed.

(** X10: each cluster gets its message listener at most once. Whatever
    events arrive, the set of clusters that have a listener holds no cluster
    twice, a cluster that has one keeps it, and a ['clusterCreate'] for such a
    cluster changes nothing at all. *)
Theorem X10_one_listener_per_cluster (E : Manager.Env) (w : Manager.World)
  (es : list Manager.event) :
  NoDup (Manager.clustersListening (Manager.self w)) ->
  NoDup (Manager.clustersListening (Manager.self (Manager.run E w es)))
  /\ (forall c, In c (Manager.clustersListening (Manager.self w)) ->
                In c (Manager.clustersListening (Manager.self (Manager.run E w es)))
                /\ Manager.on_clusterCreate w c = w).
Proof.
  intro H. split; [|intros c Hc; split].
  - revert w H. unfold Manager.run.
    induction es as [|e es IH]; intros w H; [exact H|].
    simpl. apply IH. rewrite step_listeners.
    destruct e as [c|c m|i s]; try exact H.
    destruct (existsb _ _) eqn:Ec; [exact H|]. apply snoc_NoDup; assumption.
  - revert w H Hc. unfold Manager.run.
    induction es as [|e es IH]; intros w H Hc; [exact Hc|].
    simpl. apply IH.
    + rewrite step_listeners.
      destruct e as [c'|c' m|i s]; try exact H.
      destruct (existsb _ _) eqn:Ec; [exact H|]. apply snoc_NoDup; assumption.
    + rewrite step_listeners.
      destruct e as [c'|c' m|i s]; try exact Hc.
      destruct (existsb _ _); [exact Hc|]. apply in_or_app. left. exact Hc.
  - unfold Manager.on_clusterCreate.
    apply existsb_eqb_In in Hc. rewrite Hc. reflexivity.
Qed.

Lemma X10_witness :
  NoDup (Manager.clustersListening
           (Manager.self (Manager.run fetch_8 two_of_three long_session)))
  /\ (forall c, In c (Manager.clustersListening (Manager.self two_of_three)) ->
                In c (Manager.clustersListening
                        (Manager.self (Manager.run fetch_8 two_of_three long_session)))
                /\ Manager.on_clusterCreate two_of_three c = two_of_three).
Proof.
  apply (X10_one_listener_per_cluster fetch_8 two_of_three long_session).
  simpl. repeat constructor; simpl; intuition discriminate.
Defined.

Lemma checkReCluster_quiet (E : Manager.Env) (w : Manager.World) :
  Manager.well_formed w ->
  filter is_call (Manager.trace (fst (Manager.checkReCluster E w)))
  = filter is_call (Manager.trace w).
Proof.
  intro Hwf. unfold Manager.checkReCluster.
  destruct (Nat.leb _ _).
  - unfold Manager.log_if.
    destruct (Manager.debug (Manager.options (Manager.self w))); simpl;
      [rewrite filter_app, app_nil_r|]; reflexivity.
  - set (w1 := if Manager.isReClustering (Manager.self w) then _ else w).
    assert (H1 : Manager.self w1 = Manager.self w
                 /\ Manager.heap w1 = Manager.heap w
                 /\ filter is_call (Manager.trace w1) = filter is_call (Manager.trace w)).
    { subst w1. unfold Manager.log_if.
      destruct (Manager.isReClustering (Manager.self w)),
        (Manager.debug (Manager.options (Manager.self w))); simpl;
        rewrite ?filter_app, ?app_nil_r; auto. }
    destruct H1 as [Hs [Hh Ht]].
    assert (Hwf1 : Manager.well_formed w1)
      by (unfold Manager.well_formed; rewrite Hs, Hh; exact Hwf).
    pose proof (shardList_differs_always w1) as Hd.
    unfold Manager.shardList_differs in *.
    destruct (Js.array_length _) as [n|e]; simpl in *.
    + rewrite (Hd _ Hwf1 eq_refl). simpl. exact Ht.
    + exact Ht.
Qed.

Lemma on_message_quiet (E : Manager.Env) (w : Manager.World) (c : Z) (m : Manager.message) :
  Manager.well_formed w ->
  let w' := fst (Manager.on_message E w c m) in
  Manager.isReClustering (Manager.self w') = Manager.isReClustering (Manager.self w)
  /\ Manager.inflight w' = Manager.inflight w
  /\ filter is_call (Manager.trace w') = filter is_call (Manager.trace w).
Proof.
  intros Hwf w'. subst w'. unfold Manager.on_message.
  assert (Hgoal : forall msg,
    let w' := fst (if negb (messageType_eqb (Manager._type msg) CLIENT_AUTORESHARDER_SENDDATA)
                   then (w, None)
                   else
                     let w0 := Manager.with_self w
                                 (Manager.set_clusterDatas (Manager.self w)
                                    (Manager.store_report (Manager.data msg)
                                       (Manager.clusterDatas (Manager.self w)))) in
                     let w1 := Manager.log_if (Manager.debug (Manager.options (Manager.self w0)))
                                 w0 (Manager.Debug_ReachedSendData c (Manager.data msg)) in
                     let '(w2, cy) := Manager.checkReCluster E w1 in (w2, Some cy)) in
    Manager.isReClustering (Manager.self w') = Manager.isReClustering (Manager.self w)
    /\ Manager.inflight w' = Manager.inflight w
    /\ filter is_call (Manager.trace w') = filter is_call (Manager.trace w)).
  { intro msg. destruct (negb _); simpl; [auto|].
    set (w1 := Manager.log_if _ _ _).
    assert (H1 : Manager.self w1
                 = Manager.set_clusterDatas (Manager.self w)
                     (Manager.store_report (Manager.data msg)
                        (Manager.clusterDatas (Manager.self w)))
                 /\ Manager.heap w1 = Manager.heap w
                 /\ Manager.inflight w1 = Manager.inflight w
                 /\ filter is_call (Manager.trace w1) = filter is_call (Manager.trace w)).
    { subst w1. unfold Manager.log_if. destruct (Manager.debug _); simpl;
        rewrite ?filter_app, ?app_nil_r; auto. }
    destruct H1 as [Hs [Hh [Hi Ht]]].
    assert (Hwf1 : Manager.well_formed w1)
      by (unfold Manager.well_formed; rewrite Hs, Hh; exact Hwf).
    destruct (checkReCluster_frame E w1 Hwf1) as [Fs [Fi _]].
    pose proof (checkReCluster_quiet E w1 Hwf1) as Fq.
    destruct (Manager.checkReCluster E w1) as [w2 cy]. simpl in *.
    rewrite Fs, Fi, Fq, Hs, Hi, Ht. auto. }
  destruct m as [|msg|msg]; [simpl; auto| |]; apply Hgoal.
Qed.

(** What a coordinator that never got past line 310 looks like. *)
Lemma step_idle (E : Manager.Env) (w : Manager.World) (e : Manager.event) :
  Manager.well_formed w ->
  Manager.inflight w = [] ->
  let w' := Manager.step E w e in
  Manager.inflight w' = []
  /\ Manager.isReClustering (Manager.self w') = Manager.isReClustering (Manager.self w)
  /\ filter is_call (Manager.trace w') = filter is_call (Manager.trace w).
Proof.
  intros Hwf Hi w'. subst w'. destruct e as [c|c m|i s]; simpl.
  - unfold Manager.on_clusterCreate. destruct (existsb _ _); simpl; auto.
  - destruct (existsb _ _); [|auto].
    destruct (on_message_quiet E w c m Hwf) as [Hf [Hin Ht]].
    rewrite Hf, Hin, Ht. auto.
  - unfold Manager.resume. rewrite Hi. destruct i; simpl; auto.
Qed.





(** A cycle entered on the hand-built state [executing]: the flag is set, one
    call is in flight, and the cycle is rejected at line 310 after the line
    of the second guard. *)
Example flagged_cycle_is_rejected :
  Manager.isReClustering (Manager.self executing) = true
  /\ List.length (Manager.inflight executing) = 1%nat
  /\ snd (Manager.checkReCluster fetch_8 executing)
     = Manager.Rejected Manager.err_custom_shardList
  /\ Manager.inflight (fst (Manager.checkReCluster fetch_8 executing))
     = Manager.inflight executing
  /\ Manager.trace (fst (Manager.checkReCluster fetch_8 executing))
     = Manager.trace executing ++ [Manager.Debug_AlreadyResharding].
Proof. repeat split; reflexivity. Qed.

(** X11: a coordinator whose manager's shard list is an array never calls the
    executor. Whatever cluster creations, messages and settlements arrive, no
    call of [recluster.start] or [fetchRecommendedShards] is made, nothing is
    in flight and [isReClustering] stays [false]: every cycle that passes
    the first guard is rejected at line 310. *)
Theorem X11_executor_is_never_called (E : Manager.Env) (w : Manager.World)
  (es : list Manager.event) :
  Manager.well_formed w ->
  Manager.inflight w = [] ->
  Manager.isReClustering (Manager.self w) = false ->
  let w' := Manager.run E w es in
  Manager.inflight w' = []
  /\ Manager.isReClustering (Manager.self w') = false
  /\ filter is_call (Manager.trace w') = filter is_call (Manager.trace w).
Proof.
  intros Hwf Hi Hf w'. subst w'. revert w Hwf Hi Hf. unfold Manager.run.
  induction es as [|e es IH]; intros w Hwf Hi Hf; [auto|].
  simpl.
  destruct (step_frame E w e Hwf) as [Hwf' _].
  destruct (step_idle E w e Hwf Hi) as [Hi' [Hf' Ht']].
  rewrite <- Ht'. apply IH; [exact Hwf'|exact Hi'|congruence].
Qed.

Lemma X11_witness :
  let w' := Manager.run fetch_8 (boot fleet3 heap3) long_session in
  Manager.inflight w' = []
  /\ Manager.isReClustering (Manager.self w') = false
  /\ filter is_call (Manager.trace w') = filter is_call (Manager.trace (boot fleet3 heap3)).
Proof.
  apply (X11_executor_is_never_called fetch_8 (boot fleet3 heap3) long_session).
  - unfold Manager.well_formed. simpl. lia.
  - reflexivity.
  - reflexivity.
Defined.

(** In the run of the witness four workers reported to a manager that knows
    three clusters, one shard is above the maximum, and the last cycle was
    rejected at line 310. *)
Example long_session_rejected :
  map Manager.clusterId
    (Manager.clusterDatas (Manager.self (Manager.run fetch_8 (boot fleet3 heap3) long_session)))
  = [0; 1; 2; 7]
  /\ snd (Manager.checkReCluster fetch_8 (Manager.run fetch_8 (boot fleet3 heap3) long_session))
     = Manager.Rejected Manager.err_custom_shardList.
Proof. split; reflexivity. Qed.

(** *** The scan and the request *)

(** X12: the three ways of the threshold scan. With no load at or above
    [MaxGuildsPerShard] the cycle returns and nothing changes. With such a
    load but no ReCluster plugin on the manager it is rejected with the
    RangeError of the plugin before the flag is set. With such a load and the
    plugin the flag is set whatever follows, and the cycle does not return at
    once: it is rejected later or suspended at the executor. *)
Theorem X12_scan_outcomes (E : Manager.Env) (w : Manager.World) :
  let triggered :=
    existsb (Manager.reached (Manager.MaxGuildsPerShard (Manager.options (Manager.self w))))
      (Manager.clusterDatas (Manager.self w)) in
  (triggered = false -> Manager.rescale E w = (w, Manager.Returned))
  /\ (triggered = true ->
      Manager.recluster (Manager.manager (Manager.self w)) = false ->
      Manager.rescale E w = (w, Manager.Rejected Manager.err_no_recluster))
  /\ (triggered = true ->
      Manager.recluster (Manager.manager (Manager.self w)) = true ->
      Manager.isReClustering (Manager.self (fst (Manager.rescale E w))) = true
      /\ snd (Manager.rescale E w) <> Manager.Returned).
Proof.
  intro triggered. subst triggered. unfold Manager.rescale.
  destruct (find _ _) as [rc|] eqn:Hfind.
  - assert (Ht : existsb
                   (Manager.reached
                      (Manager.MaxGuildsPerShard (Manager.options (Manager.self w))))
                   (Manager.clusterDatas (Manager.self w)) = true).
    { destruct (existsb _ _) eqn:Ex; [reflexivity|].
      apply find_none_existsb in Ex. congruence. }
    rewrite Ht. split; [discriminate|]. split.
    + intros _ Hr. rewrite Hr. reflexivity.
    + intros _ Hr. rewrite Hr. cbn [negb].
      destruct (Js.is_literal _ "auto"); cbn [fst snd].
      * destruct (Manager.fetchRecommendedShards E _) as [k|e];
          [|split; [reflexivity|discriminate]].
        destruct (Manager.debug _); cbn zeta;
          destruct (Js.array_length _); simpl; split; (reflexivity || discriminate).
      * destruct (Manager.debug _); cbn zeta;
          destruct (Js.array_length _); simpl; split; (reflexivity || discriminate).
  - apply find_none_existsb in Hfind. rewrite Hfind.
    split; [reflexivity|]. split; discriminate.
Qed.

Lemma ceiling_quotient (t s : Q) :
  (0 < s)%Q ->
  (t <= inject_Z (Qceiling (t / s)) * s)%Q
  /\ ((inject_Z (Qceiling (t / s)) - 1) * s < t)%Q.
Proof.
  intro Hs.
  assert (Hne : ~ (s == 0)%Q).
  { intro H0. rewrite H0 in Hs. exact (Qlt_irrefl _ Hs). }
  assert (Heq : (t / s * s == t)%Q) by (field; exact Hne).
  split.
  - apply Qle_trans with (t / s * s)%Q.
    + rewrite Heq. apply Qle_refl.
    + apply Qmult_le_compat_r; [apply Qle_ceiling|apply Qlt_le_weak; exact Hs].
  - apply Qlt_le_trans with (t / s * s)%Q.
    + apply Qmult_lt_compat_r; [exact Hs|].
      pose proof (Qceiling_lt (t / s)) as H.
      unfold Z.sub in H. rewrite inject_Z_plus, inject_Z_opp in H. exact H.
    + rewrite Heq. apply Qle_refl.
Qed.

Lemma Qeq_bool_inject_Z_pos (s : Z) : 0 < s -> Qeq_bool (inject_Z s) 0 = false.
Proof.
  intro H. destruct s as [|p|p]; try lia. reflexivity.
Qed.

Lemma ceiling_quotient_Z (t s : Z) :
  0 < s ->
  t <= Qceiling (inject_Z t / inject_Z s) * s
  /\ (Qceiling (inject_Z t / inject_Z s) - 1) * s < t.
Proof.
  intro Hs.
  assert (Hq : (0 < inject_Z s)%Q)
    by (change 0%Q with (inject_Z 0); rewrite <- Zlt_Qlt; exact Hs).
  destruct (ceiling_quotient (inject_Z t) (inject_Z s) Hq) as [H1 H2].
  revert H1 H2. generalize (Qceiling (inject_Z t / inject_Z s)). intros c H1 H2.
  rewrite <- inject_Z_mult, <- Zle_Qle in H1.
  change 1%Q with (inject_Z 1) in H2. unfold Qminus in H2.
  rewrite <- inject_Z_opp, <- inject_Z_plus, <- inject_Z_mult, <- Zlt_Qlt in H2.
  split; [exact H1|exact H2].
Qed.

(** The quotient of two whole numbers, rounded up. *)
Lemma Qceiling_quotient_Z (t m : Z) :
  0 < m -> Qceiling (inject_Z t / inject_Z m) = (t + m - 1) / m.
Proof.
  intro Hm. destruct (ceiling_quotient_Z t m Hm) as [H1 H2].
  revert H1 H2. generalize (Qceiling (inject_Z t / inject_Z m)). intros c H1 H2.
  apply Z.div_unique with (r := t + m - 1 - c * m); lia.
Qed.

Lemma Qsum_inject_Z (zs : list Z) : (Qsum (map inject_Z zs) == inject_Z (Zsum zs))%Q.
Proof.
  induction zs as [|z zs IH]; [reflexivity|].
  unfold Qsum, Zsum in *. cbn [map fold_right]. rewrite IH, inject_Z_plus. reflexivity.
Qed.

(** What the scan-and-rescale part has done when it is suspended at the
    executor. *)
Lemma rescale_request (E : Manager.Env) (w w' : Manager.World) (o : Manager.ReclusterStart) :
  Manager.rescale E w = (w', Manager.AwaitingRecluster o) ->
  (exists n,
     Js.array_length (Manager.rs_totalShards o) = Js.Normal n
     /\ Manager.heap w' = Manager.heap w ++ [Js.keys n]
     /\ Manager.rs_shardList o = List.length (Manager.heap w))
  /\ Manager.rs_totalClusters o
     = Js.ceil (Js.div (Manager.rs_totalShards o) (Manager.rs_shardsPerClusters o))
  /\ Manager.rs_restart o = Manager.restartOptions (Manager.options (Manager.self w))
  /\ Manager.inflight w' = Manager.inflight w ++ [o]
  /\ Manager.isReClustering (Manager.self w') = true.
Proof.
  unfold Manager.rescale.
  destruct (find _ _) as [rc|]; [|discriminate].
  destruct (negb _); [discriminate|].
  destruct (Js.is_literal _ "auto"); cbn [fst snd].
  - destruct (Manager.fetchRecommendedShards E _) as [k|e]; [|discriminate].
    destruct (Manager.debug _); cbn zeta;
      destruct (Js.array_length _) as [n|e] eqn:Hn; try discriminate;
      simpl; intro H; injection H as <- <-; simpl;
      (split; [exists n; split; [exact Hn|split; reflexivity]|repeat split]).
  - destruct (Manager.debug _); cbn zeta;
      destruct (Js.array_length _) as [n|e] eqn:Hn; try discriminate;
      simpl; intro H; injection H as <- <-; simpl;
      (split; [exists n; split; [exact Hn|split; reflexivity]|repeat split]).
Qed.

(** X13: on the part from line 317, whenever it gets as far as the executor
    the request it hands over is consistent: [shardList] is a new array
    holding 0, 1, ..., totalShards-1, the arrays that existed are untouched,
    for a whole number of shards per cluster [totalClusters] is
    [totalShards / shardsPerClusters] rounded up - enough clusters for all
    shards and none to spare -, the restart options are those of the
    configuration, the call is recorded as in flight and the flag is set. *)
Theorem X13_request_is_consistent (E : Manager.Env) (w w' : Manager.World)
  (o : Manager.ReclusterStart) :
  Manager.rescale E w = (w', Manager.AwaitingRecluster o) ->
  consistent_request w w' o.
Proof.
  unfold consistent_request.
  intro H.
  destruct (rescale_request E w w' o H) as [[n [Hn [Hh Hl]]] [Hc [Hr [Hi Hf]]]].
  split; [|split; [|auto]].
  - exists n. split; [exact Hn|]. split; [exact Hh|]. split.
    + unfold Manager.deref. rewrite Hh, Hl. apply nth_middle.
    + intros l Hlt. unfold Manager.deref. rewrite Hh. apply app_nth1. exact Hlt.
  - intros t s Ht Hs Hpos. rewrite Hc, Ht, Hs. unfold Js.of_Z. cbn [Js.div Js.ceil].
    rewrite (Qeq_bool_inject_Z_pos s Hpos). exists (Qceiling (inject_Z t / inject_Z s)). split; [reflexivity|].
    apply ceiling_quotient_Z. exact Hpos.
Qed.

Lemma X13_witness :
  consistent_request load_3000 (fst (Manager.rescale fetch_8 load_3000)) request_3000.
Proof.
  apply (X13_request_is_consistent fetch_8). reflexivity.
Defined.

(** X19: on the part from line 317 and its continuation, the flag is reset
    only when the call of the executor resolves. Once the part is suspended
    at the executor the flag is set; a rejection of the call ends the cycle
    rejected with the flag still set (the [await] rethrows and line 372 is
    skipped), a resolution resets the flag and the cycle returns. *)
Theorem X19_flag_is_reset_only_on_resolution (E : Manager.Env) (w w' : Manager.World)
  (o : Manager.ReclusterStart) (e : Js.error) (v : Js.value) :
  Manager.rescale E w = (w', Manager.AwaitingRecluster o) ->
  let i := List.length (Manager.inflight w) in
  nth_error (Manager.inflight w') i = Some o
  /\ Manager.isReClustering (Manager.self w') = true
  /\ snd (Manager.resume w' i (Js.Throw e)) = Manager.Rejected e
  /\ Manager.isReClustering (Manager.self (fst (Manager.resume w' i (Js.Throw e)))) = true
  /\ snd (Manager.resume w' i (Js.Normal v)) = Manager.Returned
  /\ Manager.isReClustering (Manager.self (fst (Manager.resume w' i (Js.Normal v)))) = false.
Proof.
  intros H i.
  destruct (rescale_request E w w' o H) as [_ [_ [_ [Hi Hf]]]].
  assert (Hn : nth_error (Manager.inflight w') i = Some o).
  { rewrite Hi. unfold i. rewrite nth_error_app2 by lia.
    rewrite Nat.sub_diag. reflexivity. }
  destruct (resume_resolved_resets_flag w' i v o Hn) as [R1 R2].
  split; [exact Hn|]. split; [exact Hf|]. split.
  - unfold Manager.resume. rewrite Hn. reflexivity.
  - split; [rewrite resume_rejected_keeps_flag; exact Hf|]. split; assumption.
Qed.

Lemma X19_witness :
  let w' := fst (Manager.rescale fetch_8 load_3000) in
  nth_error (Manager.inflight w') O = Some request_3000
  /\ Manager.isReClustering (Manager.self w') = true
  /\ snd (Manager.resume w' O (Js.Throw executor_failure)) = Manager.Rejected executor_failure
  /\ Manager.isReClustering
       (Manager.self (fst (Manager.resume w' O (Js.Throw executor_failure)))) = true
  /\ snd (Manager.resume w' O (Js.Normal Js.VUndefined)) = Manager.Returned
  /\ Manager.isReClustering
       (Manager.self (fst (Manager.resume w' O (Js.Normal Js.VUndefined)))) = false.
Proof.
  exact (X19_flag_is_reset_only_on_resolution fetch_8 load_3000
           (fst (Manager.rescale fetch_8 load_3000)) request_3000
           executor_failure Js.VUndefined eq_refl).
Defined.



(** *** The in-place sort, the table size and the sum *)

Lemma insert_desc_perm (x : Manager.shard_data) (l : list Manager.shard_data) :
  Permutation (x :: l) (Manager.insert_desc x l).
Proof.
  induction l as [|y l IH]; cbn [Manager.insert_desc]; [reflexivity|].
  destruct (Js.gt (Js.sub (Manager.guildCount y) (Manager.guildCount x)) (Js.Fin 0));
    [|reflexivity].
  rewrite perm_swap. apply perm_skip. exact IH.
Qed.

Lemma sort_desc_perm (l : list Manager.shard_data) :
  Permutation l (Manager.sort_desc l).
Proof.
  unfold Manager.sort_desc.
  induction l as [|x l IH]; simpl; [reflexivity|].
  rewrite <- insert_desc_perm. apply perm_skip. exact IH.
Qed.

Lemma same_up_to_order_refl (l : list Manager.AutoResharderSendData) :
  Forall2 same_up_to_order l l.
Proof.
  induction l; constructor; [split; reflexivity|assumption].
Qed.

Lemma update_first_sorted (p : Manager.AutoResharderSendData -> bool)
  (l : list Manager.AutoResharderSendData) :
  Forall2 same_up_to_order l (Manager.update_first p Manager.sort_report l).
Proof.
  induction l as [|x l IH]; simpl; [constructor|].
  destruct (p x).
  - constructor; [|apply same_up_to_order_refl].
    split; [reflexivity|]. simpl.
    rewrite <- sort_desc_perm. apply sort_desc_perm.
  - constructor; [split; reflexivity|exact IH].
Qed.

(** X14: the sort of the debug line works in place on the stored report, but
    the scan-and-rescale part never changes which workers, shards and loads
    the table holds: entry by entry the table keeps its worker id and its
    shards up to their order; with [debug] off the table is not touched. *)
Theorem X14_debug_sort_only_reorders (E : Manager.Env) (w : Manager.World) :
  Forall2 same_up_to_order
    (Manager.clusterDatas (Manager.self w))
    (Manager.clusterDatas (Manager.self (fst (Manager.rescale E w))))
  /\ (Manager.debug (Manager.options (Manager.self w)) = false ->
      Manager.clusterDatas (Manager.self (fst (Manager.rescale E w)))
      = Manager.clusterDatas (Manager.self w)).
Proof.
  unfold Manager.rescale.
  destruct (find _ _) as [rc|];
    [|split; [apply same_up_to_order_refl|reflexivity]].
  destruct (negb _); [split; [apply same_up_to_order_refl|reflexivity]|].
  destruct (Js.is_literal _ "auto"); cbn [fst snd].
  - destruct (Manager.fetchRecommendedShards E _) as [k|e];
      [|split; [apply same_up_to_order_refl|reflexivity]].
    destruct (Manager.debug (Manager.options (Manager.self w))); cbn zeta;
      destruct (Js.array_length _); simpl;
      (split; [first [apply update_first_sorted|apply same_up_to_order_refl]
              |first [discriminate|reflexivity]]).
  - destruct (Manager.debug (Manager.options (Manager.self w))); cbn zeta;
      destruct (Js.array_length _); simpl;
      (split; [first [apply update_first_sorted|apply same_up_to_order_refl]
              |first [discriminate|reflexivity]]).
Qed.

Lemma absorb_ids_In (id : Z) (ms : list Manager.message) :
  forall t,
    In id (ids (fold_left absorb ms t))
    <-> In id (ids t) \/ In id (ids (reports_of ms)).
Proof.
  induction ms as [|m ms IH]; intro t.
  - simpl. tauto.
  - cbn [fold_left]. rewrite IH. unfold absorb, reports_of, ids.
    cbn [flat_map]. rewrite map_app, in_app_iff.
    destruct (carried m) as [d|]; simpl; [|tauto].
    fold (ids (Manager.store_report d t)). rewrite store_report_ids.
    unfold ids.
    destruct (existsb (Z.eqb (Manager.clusterId d)) (map Manager.clusterId t)) eqn:Ex.
    + apply existsb_eqb_In in Ex. split; [tauto|].
      intros [H|[[H|[]]|H]]; try tauto. subst id. tauto.
    + rewrite in_app_iff. simpl. tauto.
Qed.

(** X15: the size of the report table is the number of distinct worker ids
    heard so far: starting from an empty table, after any sequence of events
    the table has as many entries as there are different [clusterId]s among
    the reports that reached a listener. *)
Theorem X15_table_size (E : Manager.Env) (w : Manager.World) (es : list Manager.event) :
  Manager.well_formed w ->
  Manager.clusterDatas (Manager.self w) = [] ->
  List.length (Manager.clusterDatas (Manager.self (Manager.run E w es)))
  = List.length
      (nodup Z.eq_dec
         (ids (reports_of (heard (Manager.clustersListening (Manager.self w)) es)))).
Proof.
  intros Hwf Hempty. rewrite (run_table E es w Hwf), Hempty.
  set (ms := heard _ es).
  rewrite <- (length_map Manager.clusterId). fold (ids (fold_left absorb ms [])).
  apply Permutation_length. apply NoDup_Permutation.
  - apply absorb_NoDup. constructor.
  - apply NoDup_nodup.
  - intro id. rewrite nodup_In, absorb_ids_In. simpl. tauto.
Qed.

Lemma X15_witness :
  List.length (Manager.clusterDatas
                 (Manager.self (Manager.run fetch_8 (boot fleet3 heap3) long_session)))
  = List.length
      (nodup Z.eq_dec
         (ids (reports_of
                 (heard (Manager.clustersListening (Manager.self (boot fleet3 heap3)))
                    long_session)))).
Proof.
  apply (X15_table_size fetch_8 (boot fleet3 heap3) long_session).
  - unfold Manager.well_formed. simpl. lia.
  - reflexivity.
Defined.

Lemma fold_sum_step_any (l : list Manager.shard_data) :
  forall a : Q,
    exists s, fold_left Manager.sum_step l (Js.Fin a) = Js.Fin s
              /\ (s == a + Qsum (map (fun x => load_or_zero (Manager.guildCount x)) l))%Q.
Proof.
  induction l as [|x l IH]; intro a.
  - exists a. split; [reflexivity|]. simpl. ring.
  - cbn [fold_left].
    assert (Hstep : exists a', Manager.sum_step (Js.Fin a) x = Js.Fin a'
                               /\ (a' == load_or_zero (Manager.guildCount x) + a)%Q).
    { unfold Manager.sum_step, Js.or_else, Js.truthy.
      destruct (Manager.guildCount x) as [q|]; simpl;
        destruct (Qeq_bool a 0) eqn:Ea; simpl.
      - exists (q + 0)%Q. split; [reflexivity|].
        apply Qeq_bool_iff in Ea. rewrite Ea. reflexivity.
      - exists (q + a)%Q. split; reflexivity.
      - exists (0 + 0)%Q. split; [reflexivity|].
        apply Qeq_bool_iff in Ea. rewrite Ea. reflexivity.
      - exists (0 + a)%Q. split; reflexivity. }
    destruct Hstep as [a' [-> Ea']].
    destruct (IH a') as [s [Hs Es]].
    exists s. split; [exact Hs|].
    rewrite Es, Ea'. unfold Qsum. cbn [map fold_right]. ring.
Qed.

(** X16: a NaN load counts as zero in the sum of line 338. For loads that
    are NaN or non-negative whole numbers whose sum stays below 2^53 the
    summed load is the sum of the numbers among them, and for a whole positive
    [MinGuildsPerShard] the estimate is that sum divided by it and rounded
    up. *)
Theorem X16_sum_skips_NaN (ds : list Manager.AutoResharderSendData)
  (zs : list (option Z)) (m : Z) :
  let total := Zsum (map counted zs) in
  map Manager.guildCount (flat_map Manager.shardData ds) = map load_value zs ->
  Forall (fun o => 0 <= counted o) zs ->
  total < 2 ^ 53 ->
  0 < m ->
  (exists s, Manager.total_guilds ds = Js.Fin s /\ (s == inject_Z total)%Q)
  /\ Manager.estimated_shards ds (Js.VNumber (Js.of_Z m))
     = Js.of_Z ((total + m - 1) / m).
Proof.
  intros total Hmap _ _ Hm.
  destruct (fold_sum_step_any (flat_map Manager.shardData ds) 0%Q) as [s [Hs Es]].
  rewrite Qplus_0_l in Es.
  assert (Hl : map (fun x => load_or_zero (Manager.guildCount x))
                 (flat_map Manager.shardData ds)
               = map inject_Z (map counted zs)).
  { rewrite <- (map_map Manager.guildCount load_or_zero), Hmap, !map_map.
    apply map_ext. intros [z|]; reflexivity. }
  rewrite Hl, Qsum_inject_Z in Es. fold total in Es.
  split; [exists s; split; assumption|].
  unfold Manager.estimated_shards, Manager.total_guilds.
  rewrite Hs. unfold Js.of_Z. cbn [Js.as_number Js.div Js.ceil].
  rewrite (Qeq_bool_inject_Z_pos m Hm). cbn [Js.ceil].
  rewrite <- Qceiling_quotient_Z by exact Hm.
  do 2 f_equal. apply Qceiling_comp.
  apply Qdiv_comp; [exact Es|reflexivity].
Qed.

Lemma X16_witness :
  (exists s, Manager.total_guilds nan_table = Js.Fin s /\ (s == inject_Z 2120)%Q)
  /\ Manager.estimated_shards nan_table (Js.VNumber (Js.of_Z 1000)) = Js.of_Z 3.
Proof.
  apply (X16_sum_skips_NaN nan_table [Some 2100; None; Some 20] 1000).
  - reflexivity.
  - repeat constructor; discriminate.
  - reflexivity.
  - reflexivity.
Defined.

(** X17: whatever the estimate is - a number, a recommendation fetched from
    outside, or NaN - the new total is above the current one as soon as the
    manager runs at least one shard. *)
Theorem X17_new_total_always_grows (newShardsCount : Js.number) (T : Z) :
  1 <= T ->
  Js.gt (Manager.realShardCount newShardsCount T) (Js.of_Z T) = true.
Proof.
  intro HT. unfold Manager.realShardCount.
  destruct (Js.gt newShardsCount (Js.of_Z T)) eqn:E; [exact E|].
  change (Js.ceil (Js.mul (Js.of_Z T) (Js.Fin 1.2)))
    with (Js.of_Z (Qceiling (inject_Z T * 1.2))).
  rewrite gt_of_Z. apply Z.ltb_lt. apply scaled_total_grows. exact HT.
Qed.

Lemma X17_witness :
  Js.gt (Manager.realShardCount Js.NaN 4) (Js.of_Z 4) = true.
Proof. apply X17_new_total_always_grows. lia. Defined.


(** ** The reporter under overlapping calls *)

(** A [sendData] that nothing interrupts ends as the one-step [sendData]. *)
Lemma sendData_alone (w : Reporter.World) :
  Reporter.turns
    (Reporter.after_turn (Reporter.idle w) [] (Reporter.sendData_begin w Reporter.Nobody))
    [Reporter.Settle O; Reporter.Settle O]
  = {| Reporter.world := fst (Reporter.sendData w);
       Reporter.pending := [];
       Reporter.settled := [Reporter.SendData_settled (snd (Reporter.sendData w)) Reporter.Nobody] |}.
Proof.
  unfold Reporter.sendData_begin, Reporter.sendData.
  destruct (Reporter.validate (Reporter.self w)); [|reflexivity].
  destruct (Reporter.clusterClient (Reporter.self w)) as [cc|] eqn:Hcc; [|reflexivity].
  destruct (Reporter.sendDataFunction (Reporter.options (Reporter.self w))) as [f|];
    [|reflexivity].
  cbn [Reporter.after_turn Reporter.turns fold_left Reporter.turn Reporter.idle
       Reporter.pending Reporter.world Reporter.settled app nth_error
       Reporter.without Reporter.resume_task].
  unfold Reporter.sendData_checked.
  destruct (f cc) as [sd|]; [|reflexivity].
  destruct (Reporter.bad_sendData sd); [reflexivity|].
  destruct (Reporter.debug (Reporter.options (Reporter.self w))); cbn [Reporter.log Reporter.self];
    rewrite Hcc; destruct (Reporter.send cc); reflexivity.
Qed.

(** Likewise for [initialize]. *)
Lemma initialize_alone (w0 w : Reporter.World) (b : bool) :
  let l := Reporter.turns
             (Reporter.after_turn (Reporter.idle w0) [] (Reporter.initialize_begin w b))
             [Reporter.Settle O; Reporter.Settle O; Reporter.Settle O] in
  Reporter.world l = fst (Reporter.initialize w b)
  /\ Reporter.pending l = []
  /\ last (Reporter.settled l) (Reporter.Initialize_settled (Js.Normal false))
     = Reporter.Initialize_settled (snd (Reporter.initialize w b)).
Proof.
  unfold Reporter.initialize_begin, Reporter.initialize.
  set (w1 := match Reporter.interval (Reporter.self w) with
             | Some i => _
             | None => w
             end).
  destruct b; [|repeat split].
  unfold Reporter.sendData_begin, Reporter.sendData.
  destruct (Reporter.validate (Reporter.self w1)); [|repeat split].
  destruct (Reporter.clusterClient (Reporter.self w1)) as [cc|] eqn:Hcc; [|repeat split].
  destruct (Reporter.sendDataFunction (Reporter.options (Reporter.self w1))) as [f|];
    [|repeat split].
  cbn [Reporter.after_turn Reporter.turns fold_left Reporter.turn Reporter.idle
       Reporter.pending Reporter.world Reporter.settled app nth_error
       Reporter.without Reporter.resume_task].
  unfold Reporter.sendData_checked.
  destruct (f cc) as [sd|]; [|repeat split].
  destruct (Reporter.bad_sendData sd); [repeat split|].
  destruct (Reporter.debug (Reporter.options (Reporter.self w1)));
    cbn [Reporter.log Reporter.self];
    rewrite Hcc; destruct (Reporter.send cc) as [send_fn|]; try (repeat split; fail);
    cbn [Reporter.after_turn Reporter.turns fold_left Reporter.turn
         Reporter.pending Reporter.world Reporter.settled app nth_error
         Reporter.without Reporter.resume_task Reporter.sendData_settles];
    destruct (send_fn _); repeat split.
Qed.

Lemma alone_is_step (w : Reporter.World) (c : Reporter.call) :
  Reporter.world (Reporter.alone w c) = Reporter.step w c
  /\ Reporter.pending (Reporter.alone w c) = [].
Proof.
  unfold Reporter.alone.
  change (Reporter.turns (Reporter.idle w)
            [Reporter.Call c; Reporter.Settle O; Reporter.Settle O; Reporter.Settle O])
    with (Reporter.turns
            (Reporter.after_turn (Reporter.idle w) [] (Reporter.call_begin w c))
            [Reporter.Settle O; Reporter.Settle O; Reporter.Settle O]).
  destruct c as [|o b|o b|i]; cbn [Reporter.call_begin Reporter.step].
  - split; reflexivity.
  - unfold Reporter.start.
    destruct (Bool.eqb (Reporter.started (Reporter.self w)) true); [split; reflexivity|].
    destruct (initialize_alone w
                (Reporter.set_self w
                   (Reporter.set_options (Reporter.self w)
                      (Reporter.merge (Reporter.options (Reporter.self w)) o))) b)
      as [H1 [H2 _]].
    split; assumption.
  - unfold Reporter.reStart.
    destruct (initialize_alone w
                (Reporter.set_self (Reporter.clear_and_forget w)
                   (Reporter.set_options (Reporter.self (Reporter.clear_and_forget w))
                      (Reporter.merge
                         (Reporter.options (Reporter.self (Reporter.clear_and_forget w))) o))) b)
      as [H1 [H2 _]].
    split; assumption.
  - unfold Reporter.tick.
    destruct (Reporter.is_armed i (Reporter.timers w)); [|split; reflexivity].
    pose proof (sendData_alone w) as H.
    assert (H3 : forall l : Reporter.Loop,
               Reporter.turns l [Reporter.Settle O; Reporter.Settle O; Reporter.Settle O]
               = Reporter.turn
                   (Reporter.turns l [Reporter.Settle O; Reporter.Settle O])
                   (Reporter.Settle O)) by reflexivity.
    rewrite H3, H. destruct (Reporter.sendData w) as [w' r]. split; reflexivity.
Qed.

(** X21: the two readings of the reporter agree. A call that nothing
    interrupts - the call, then its suspended bodies one after the other -
    leaves the reporter in the state the one-step reading gives, with no body
    left suspended; hence calls made one after the other are a run of
    [Reporter.run]. *)
Theorem X21_calls_one_by_one_are_a_run (w : Reporter.World) (cs : list Reporter.call) :
  (forall c, Reporter.world (Reporter.alone w c) = Reporter.step w c
             /\ Reporter.pending (Reporter.alone w c) = [])
  /\ one_by_one w cs = Reporter.run w cs.
Proof.
  split; [intro c; apply alone_is_step|].
  unfold one_by_one, Reporter.run. revert w.
  induction cs as [|c cs IH]; intro w; [reflexivity|].
  cbn [fold_left]. rewrite (proj1 (alone_is_step w c)). apply IH.
Qed.

Lemma sendData_resolves (w : Reporter.World) (v : Js.value) :
  snd (Reporter.sendData w) = Js.Normal v ->
  exists cc f sd send_fn,
    Reporter.validate (Reporter.self w) = Js.Normal tt
    /\ Reporter.clusterClient (Reporter.self w) = Some cc
    /\ Reporter.sendDataFunction (Reporter.options (Reporter.self w)) = Some f
    /\ f cc = Js.Normal sd
    /\ Reporter.bad_sendData sd = false
    /\ Reporter.send cc = Some send_fn
    /\ send_fn {| Reporter._type := CLIENT_AUTORESHARDER_SENDDATA; Reporter.data := sd |}
       = Js.Normal v.
Proof.
  unfold Reporter.sendData.
  destruct (Reporter.validate (Reporter.self w)) as [[]|]; [|discriminate].
  destruct (Reporter.clusterClient (Reporter.self w)) as [cc|]; [|discriminate].
  destruct (Reporter.sendDataFunction (Reporter.options (Reporter.self w))) as [f|];
    [|discriminate].
  destruct (f cc) as [sd|] eqn:Hf; [|discriminate].
  destruct (Reporter.bad_sendData sd) eqn:Hb; [discriminate|].
  destruct (Reporter.send cc) as [send_fn|] eqn:Hs;
    [|destruct (Reporter.debug _); discriminate].
  intro H. exists cc, f, sd, send_fn. repeat split; assumption.
Qed.

Lemma cancelled_clears (w : Reporter.World) :
  Reporter.armed (Reporter.timers w) = []
  \/ (exists i, Reporter.interval (Reporter.self w) = Some i
                /\ exists p, Reporter.armed (Reporter.timers w) = [(i, p)]) ->
  Reporter.self (cancelled w) = Reporter.self w
  /\ Reporter.armed (Reporter.timers (cancelled w)) = []
  /\ Reporter.next_timer (Reporter.timers (cancelled w))
     = Reporter.next_timer (Reporter.timers w).
Proof.
  intro H. unfold cancelled.
  destruct (Reporter.interval (Reporter.self w)) as [i|] eqn:Hi.
  - cbn [Reporter.self Reporter.timers Reporter.clearInterval Reporter.armed
         Reporter.next_timer].
    destruct H as [H|[j [Hj [p Hp]]]].
    + rewrite H. repeat split.
    + injection Hj as <-. rewrite Hp. cbn. rewrite Nat.eqb_refl. repeat split.
  - destruct H as [H|[j [Hj _]]]; [|discriminate]. rewrite H. repeat split.
Qed.

Lemma owned_after_merge (w : Reporter.World) (o : option Reporter.PartialOptions) :
  timers_owned w ->
  Reporter.armed (Reporter.timers (with_merged w o)) = []
  \/ (exists i, Reporter.interval (Reporter.self (with_merged w o)) = Some i
                /\ exists p, Reporter.armed (Reporter.timers (with_merged w o)) = [(i, p)]).
Proof.
  intros [H|[i [H Hi]]]; [left; exact H|].
  right. exists i. split; [exact Hi|]. eexists. exact H.
Qed.

Lemma start_begins (o : option Reporter.PartialOptions)
  (l : Reporter.Loop) (v : Js.value) :
  Reporter.started (Reporter.self (Reporter.world l)) = false ->
  snd (Reporter.sendData (with_merged (Reporter.world l) o)) = Js.Normal v ->
  exists sd cc send_fn,
    Reporter.turn l (Reporter.Call (Reporter.CallStart o true))
    = {| Reporter.world := cancelled (with_merged (Reporter.world l) o);
         Reporter.pending :=
           Reporter.pending l ++ [Reporter.LoadPending (Js.Normal sd) Reporter.Initialize];
         Reporter.settled := Reporter.settled l ++ [] |}
    /\ Reporter.bad_sendData sd = false
    /\ Reporter.clusterClient (Reporter.self (Reporter.world l)) = Some cc
    /\ Reporter.send cc = Some send_fn
    /\ send_fn {| Reporter._type := CLIENT_AUTORESHARDER_SENDDATA; Reporter.data := sd |}
       = Js.Normal v.
Proof.
  intros Hst Hv.
  destruct (sendData_resolves _ _ Hv) as [cc [f [sd [send_fn [H1 [H2 [H3 [H4 [H5 [H6 H7]]]]]]]]]].
  exists sd, cc, send_fn. split; [|auto].
  unfold Reporter.turn. cbn [Reporter.call_begin]. rewrite Hst. cbn [Bool.eqb].
  unfold Reporter.initialize_begin. fold (with_merged (Reporter.world l) o).
  fold (cancelled (with_merged (Reporter.world l) o)).
  assert (Hs : Reporter.self (cancelled (with_merged (Reporter.world l) o))
               = Reporter.self (with_merged (Reporter.world l) o))
    by (unfold cancelled; destruct (Reporter.interval _); reflexivity).
  unfold Reporter.sendData_begin. rewrite Hs, H1, H2, H3, H4. reflexivity.
Qed.

(** A turn that resumes a [sendData] whose load settled with a well-shaped
    value: the message is handed to [send], fields and timers stay. *)
Lemma turn_load_settles (l : Reporter.Loop) (rest : list Reporter.task)
  (sd : Reporter.send_data) (k : Reporter.waiter) (cc : Reporter.ClusterClient)
  (send_fn : Reporter.sendDataMessage -> Js.completion Js.value) (v : Js.value) :
  Reporter.pending l = Reporter.LoadPending (Js.Normal sd) k :: rest ->
  Reporter.bad_sendData sd = false ->
  Reporter.clusterClient (Reporter.self (Reporter.world l)) = Some cc ->
  Reporter.send cc = Some send_fn ->
  send_fn {| Reporter._type := CLIENT_AUTORESHARDER_SENDDATA; Reporter.data := sd |}
  = Js.Normal v ->
  let l1 := Reporter.turn l (Reporter.Settle O) in
  Reporter.pending l1 = rest ++ [Reporter.SendPending (Js.Normal v) k]
  /\ Reporter.self (Reporter.world l1) = Reporter.self (Reporter.world l)
  /\ Reporter.timers (Reporter.world l1) = Reporter.timers (Reporter.world l).
Proof.
  intros Hp Hb Hcc Hs Hv. unfold Reporter.turn. rewrite Hp.
  cbn [nth_error Reporter.without Reporter.resume_task].
  unfold Reporter.sendData_checked. rewrite Hb.
  destruct (Reporter.debug (Reporter.options (Reporter.self (Reporter.world l))));
    cbn [Reporter.log Reporter.self]; rewrite Hcc, Hs, Hv; repeat split.
Qed.

(** A turn in which the promise of [send] settles for an awaited [sendData]. *)
Lemma turn_send_settles (l : Reporter.Loop) (rest : list Reporter.task)
  (c : Js.completion Js.value) :
  Reporter.pending l = Reporter.SendPending c Reporter.Initialize :: rest ->
  let l1 := Reporter.turn l (Reporter.Settle O) in
  Reporter.pending l1 = rest ++ [Reporter.InitializeWaiting c]
  /\ Reporter.world l1 = Reporter.world l.
Proof.
  intro Hp. unfold Reporter.turn. rewrite Hp. split; reflexivity.
Qed.

(** A turn in which [initialize] goes on after its [await]: line 195 arms a
    new interval, at the period the options hold by then. *)
Lemma turn_initialize_arms (l : Reporter.Loop) (rest : list Reporter.task) (v : Js.value) :
  Reporter.pending l = Reporter.InitializeWaiting (Js.Normal v) :: rest ->
  let l1 := Reporter.turn l (Reporter.Settle O) in
  let T := Reporter.timers (Reporter.world l) in
  Reporter.pending l1 = rest
  /\ Reporter.armed (Reporter.timers (Reporter.world l1))
     = Reporter.armed T
       ++ [(Reporter.next_timer T,
            Reporter.sendDataIntervalMS (Reporter.options (Reporter.self (Reporter.world l))))]
  /\ Reporter.next_timer (Reporter.timers (Reporter.world l1)) = S (Reporter.next_timer T)
  /\ Reporter.interval (Reporter.self (Reporter.world l1)) = Some (Reporter.next_timer T)
  /\ Reporter.options (Reporter.self (Reporter.world l1))
     = Reporter.options (Reporter.self (Reporter.world l))
  /\ Reporter.settled l1
     = Reporter.settled l ++ [Reporter.Initialize_settled (Js.Normal true)].
Proof.
  intro Hp. unfold Reporter.turn. rewrite Hp.
  cbn. rewrite app_nil_r. repeat split.
Qed.

Lemma stop_world (w : Reporter.World) :
  fst (Reporter.stop w) = Reporter.clear_and_forget w.
Proof.
  unfold Reporter.stop. destruct (Bool.eqb _ false); reflexivity.
Qed.

Lemma clear_and_forget_fields (w : Reporter.World) :
  Reporter.clusterClient (Reporter.self (Reporter.clear_and_forget w))
  = Reporter.clusterClient (Reporter.self w)
  /\ Reporter.options (Reporter.self (Reporter.clear_and_forget w))
     = Reporter.options (Reporter.self w)
  /\ Reporter.next_timer (Reporter.timers (Reporter.clear_and_forget w))
     = Reporter.next_timer (Reporter.timers w).
Proof.
  unfold Reporter.clear_and_forget.
  destruct (Reporter.interval (Reporter.self w)); repeat split.
Qed.

Lemma clear_and_forget_nothing_armed (w : Reporter.World) :
  Reporter.armed (Reporter.timers w) = [] ->
  Reporter.armed (Reporter.timers (Reporter.clear_and_forget w)) = [].
Proof.
  intro H. unfold Reporter.clear_and_forget.
  destruct (Reporter.interval (Reporter.self w)); [|exact H].
  cbn. rewrite H. reflexivity.
Qed.

Lemma clear_and_forget_interval (w : Reporter.World) :
  Reporter.interval (Reporter.self (Reporter.clear_and_forget w)) = None.
Proof.
  unfold Reporter.clear_and_forget.
  destruct (Reporter.interval (Reporter.self w)) eqn:H; [reflexivity|exact H].
Qed.

(** X22: [stop()] called while a [start(o, true)] waits for its first send
    does not keep the reporter silent: the start goes on and arms its interval. *)
Theorem X22_stop_during_start_is_undone (w : Reporter.World)
  (o : option Reporter.PartialOptions) (v : Js.value) :
  Reporter.started (Reporter.self w) = false ->
  timers_owned w ->
  snd (Reporter.sendData (with_merged w o)) = Js.Normal v ->
  let stopped :=
    Reporter.turns (Reporter.idle w)
      [Reporter.Call (Reporter.CallStart o true); Reporter.Call Reporter.CallStop] in
  let l := Reporter.turns stopped
             [Reporter.Settle O; Reporter.Settle O; Reporter.Settle O] in
  Reporter.armed (Reporter.timers (Reporter.world stopped)) = []
  /\ Reporter.interval (Reporter.self (Reporter.world stopped)) = None
  /\ Reporter.pending l = []
  /\ Reporter.armed (Reporter.timers (Reporter.world l))
     = [(Reporter.next_timer (Reporter.timers w),
         Reporter.sendDataIntervalMS (Reporter.merge (Reporter.options (Reporter.self w)) o))]
  /\ Reporter.interval (Reporter.self (Reporter.world l))
     = Some (Reporter.next_timer (Reporter.timers w)).
Proof.
  intros Hst Hown Hv.
  destruct (start_begins o (Reporter.idle w) v Hst Hv)
    as [sd [cc [send_fn [H1 [Hb [Hcc [Hs Hsv]]]]]]].
  cbn [Reporter.idle Reporter.world Reporter.pending Reporter.settled app] in H1, Hcc.
  destruct (cancelled_clears (with_merged w o) (owned_after_merge w o Hown))
    as [Hself [Harmed Hnext]].
  cbn [Reporter.turns fold_left]. rewrite H1.
  set (w1 := cancelled (with_merged w o)) in *.
  set (l2 := Reporter.turn _ (Reporter.Call Reporter.CallStop)).
  assert (Hw2 : Reporter.world l2 = Reporter.clear_and_forget w1)
    by (unfold l2; cbn; apply stop_world).
  assert (Hp2 : Reporter.pending l2
                = [Reporter.LoadPending (Js.Normal sd) Reporter.Initialize])
    by reflexivity.
  destruct (clear_and_forget_fields w1) as [Fcc [Fopt Fnext]].
  pose proof (clear_and_forget_nothing_armed w1 Harmed) as Farmed.
  pose proof (clear_and_forget_interval w1) as Fint.
  assert (Hcc2 : Reporter.clusterClient (Reporter.self (Reporter.world l2)) = Some cc).
  { rewrite Hw2, Fcc, Hself. exact Hcc. }
  destruct (turn_load_settles l2 [] sd Reporter.Initialize cc send_fn v Hp2 Hb Hcc2 Hs Hsv)
    as [Hp3 [Hs3 Ht3]].
  set (l3 := Reporter.turn l2 (Reporter.Settle O)) in *.
  destruct (turn_send_settles l3 [] (Js.Normal v) Hp3) as [Hp4 Hw4].
  set (l4 := Reporter.turn l3 (Reporter.Settle O)) in *.
  destruct (turn_initialize_arms l4 [] v Hp4) as [Hp5 [Ha5 [_ [Hi5 _]]]].
  set (l5 := Reporter.turn l4 (Reporter.Settle O)) in *.
  rewrite Hw2. repeat split; try assumption.
  - rewrite Ha5, Hw4, Ht3, Hs3, Hw2, Farmed, Fnext, Fopt, Hnext, Hself. reflexivity.
  - rewrite Hi5, Hw4, Ht3, Hw2, Fnext, Hnext. reflexivity.
Qed.

Lemma X22_witness :
  let stopped :=
    Reporter.turns (Reporter.idle reporter0)
      [Reporter.Call (Reporter.CallStart None true); Reporter.Call Reporter.CallStop] in
  let l := Reporter.turns stopped
             [Reporter.Settle O; Reporter.Settle O; Reporter.Settle O] in
  Reporter.armed (Reporter.timers (Reporter.world stopped)) = []
  /\ Reporter.interval (Reporter.self (Reporter.world stopped)) = None
  /\ Reporter.pending l = []
  /\ Reporter.armed (Reporter.timers (Reporter.world l))
     = [(1%nat, Js.VNumber (Js.Fin 60000))]
  /\ Reporter.interval (Reporter.self (Reporter.world l)) = Some 1%nat.
Proof.
  exact (X22_stop_during_start_is_undone reporter0 None Js.VUndefined eq_refl
           (or_intror (ex_intro _ O (conj eq_refl eq_refl))) eq_refl).
Defined.

Lemma sendData_snd_self (w w' : Reporter.World) :
  Reporter.self w = Reporter.self w' ->
  snd (Reporter.sendData w) = snd (Reporter.sendData w').
Proof.
  intro H. unfold Reporter.sendData. rewrite H.
  destruct (Reporter.validate (Reporter.self w')); [|reflexivity].
  destruct (Reporter.clusterClient (Reporter.self w')) as [cc|]; [|reflexivity].
  destruct (Reporter.sendDataFunction (Reporter.options (Reporter.self w'))) as [f|];
    [|reflexivity].
  destruct (f cc) as [sd|]; [|reflexivity].
  destruct (Reporter.bad_sendData sd); [reflexivity|].
  destruct (Reporter.debug (Reporter.options (Reporter.self w')));
    destruct (Reporter.send cc); reflexivity.
Qed.

(** X23: a second [start] called while the first one waits for its send is
    not held back by the guard of line 150, and each of the two arms an
    interval; the field keeps only the later one. *)
Theorem X23_overlapping_starts_arm_two_intervals (w : Reporter.World)
  (o1 o2 : option Reporter.PartialOptions) (v1 v2 : Js.value) :
  Reporter.started (Reporter.self w) = false ->
  timers_owned w ->
  snd (Reporter.sendData (with_merged w o1)) = Js.Normal v1 ->
  snd (Reporter.sendData (with_merged (with_merged w o1) o2)) = Js.Normal v2 ->
  let l := Reporter.turns (Reporter.idle w)
             [Reporter.Call (Reporter.CallStart o1 true);
              Reporter.Call (Reporter.CallStart o2 true);
              Reporter.Settle O; Reporter.Settle O; Reporter.Settle O;
              Reporter.Settle O; Reporter.Settle O; Reporter.Settle O] in
  let ms := Reporter.sendDataIntervalMS
              (Reporter.merge (Reporter.merge (Reporter.options (Reporter.self w)) o1) o2) in
  let n := Reporter.next_timer (Reporter.timers w) in
  Reporter.pending l = []
  /\ Reporter.armed (Reporter.timers (Reporter.world l)) = [(n, ms); (S n, ms)]
  /\ Reporter.interval (Reporter.self (Reporter.world l)) = Some (S n).
Proof.
  intros Hst Hown Hv1 Hv2.
  destruct (start_begins o1 (Reporter.idle w) v1 Hst Hv1)
    as [sd1 [cc [send1 [H1 [Hb1 [Hcc [Hs1 Hsv1]]]]]]].
  cbn [Reporter.idle Reporter.world Reporter.pending Reporter.settled app] in H1, Hcc.
  destruct (cancelled_clears (with_merged w o1) (owned_after_merge w o1 Hown))
    as [Hself1 [Harmed1 Hnext1]].
  cbn [Reporter.turns fold_left]. rewrite H1.
  set (w1 := cancelled (with_merged w o1)) in *.
  set (l1 := {| Reporter.world := w1;
                Reporter.pending := [Reporter.LoadPending (Js.Normal sd1) Reporter.Initialize];
                Reporter.settled := [] |}).
  assert (Hst1 : Reporter.started (Reporter.self (Reporter.world l1)) = false)
    by (cbn [l1 Reporter.world]; rewrite Hself1; exact Hst).
  assert (Hv2' : snd (Reporter.sendData (with_merged (Reporter.world l1) o2)) = Js.Normal v2).
  { rewrite <- Hv2. apply sendData_snd_self.
    cbn [l1 Reporter.world with_merged Reporter.set_self Reporter.self].
    rewrite Hself1. reflexivity. }
  destruct (start_begins o2 l1 v2 Hst1 Hv2')
    as [sd2 [cc2 [send2 [H2 [Hb2 [Hcc2 [Hs2 Hsv2]]]]]]].
  cbn [l1 Reporter.world Reporter.pending Reporter.settled app] in H2, Hcc2.
  rewrite Hself1 in Hcc2. cbn in Hcc2. rewrite Hcc in Hcc2. injection Hcc2 as <-.
  rewrite H2.
  assert (Hm : Reporter.armed (Reporter.timers (with_merged w1 o2)) = []
               \/ (exists i, Reporter.interval (Reporter.self (with_merged w1 o2)) = Some i
                   /\ exists p, Reporter.armed (Reporter.timers (with_merged w1 o2)) = [(i, p)]))
    by (left; exact Harmed1).
  destruct (cancelled_clears (with_merged w1 o2) Hm) as [Hself2 [Harmed2 Hnext2]].
  set (w2 := cancelled (with_merged w1 o2)) in *.
  set (l2 := {| Reporter.world := w2;
                Reporter.pending := [Reporter.LoadPending (Js.Normal sd1) Reporter.Initialize;
                                     Reporter.LoadPending (Js.Normal sd2) Reporter.Initialize];
                Reporter.settled := [] |}).
  assert (Hopt2 : Reporter.options (Reporter.self w2)
                  = Reporter.merge (Reporter.merge (Reporter.options (Reporter.self w)) o1) o2).
  { rewrite Hself2. cbn. rewrite Hself1. reflexivity. }
  assert (Hc2 : Reporter.clusterClient (Reporter.self (Reporter.world l2)) = Some cc).
  { cbn [l2 Reporter.world]. rewrite Hself2. cbn. rewrite Hself1. exact Hcc. }
  destruct (turn_load_settles l2 _ sd1 Reporter.Initialize cc send1 v1 eq_refl Hb1 Hc2 Hs1 Hsv1)
    as [Hp3 [Hs3 Ht3]].
  set (l3 := Reporter.turn l2 (Reporter.Settle O)) in *. cbn [app] in Hp3.
  assert (Hc3 : Reporter.clusterClient (Reporter.self (Reporter.world l3)) = Some cc)
    by (rewrite Hs3; exact Hc2).
  destruct (turn_load_settles l3 _ sd2 Reporter.Initialize cc send2 v2 Hp3 Hb2 Hc3 Hs2 Hsv2)
    as [Hp4 [Hs4 Ht4]].
  set (l4 := Reporter.turn l3 (Reporter.Settle O)) in *. cbn [app] in Hp4.
  destruct (turn_send_settles l4 _ _ Hp4) as [Hp5 Hw5].
  set (l5 := Reporter.turn l4 (Reporter.Settle O)) in *. cbn [app] in Hp5.
  destruct (turn_send_settles l5 _ _ Hp5) as [Hp6 Hw6].
  set (l6 := Reporter.turn l5 (Reporter.Settle O)) in *. cbn [app] in Hp6.
  destruct (turn_initialize_arms l6 _ v1 Hp6) as [Hp7 [Ha7 [Hn7 [_ [Ho7 _]]]]].
  set (l7 := Reporter.turn l6 (Reporter.Settle O)) in *.
  destruct (turn_initialize_arms l7 _ v2 Hp7) as [Hp8 [Ha8 [_ [Hi8 _]]]].
  set (l8 := Reporter.turn l7 (Reporter.Settle O)) in *.
  assert (Hw6' : Reporter.timers (Reporter.world l6) = Reporter.timers w2)
    by (rewrite Hw6, Hw5, Ht4, Ht3; reflexivity).
  assert (Hs6' : Reporter.self (Reporter.world l6) = Reporter.self w2)
    by (rewrite Hw6, Hw5, Hs4, Hs3; reflexivity).
  repeat split.
  - exact Hp8.
  - rewrite Ha8, Ha7, Hn7, Ho7, Hw6', Hs6', Harmed2, Hnext2, Hopt2.
    cbn [with_merged Reporter.set_self Reporter.timers]. rewrite Hnext1. reflexivity.
  - rewrite Hi8, Hn7, Hw6', Hnext2.
    cbn [with_merged Reporter.set_self Reporter.timers]. rewrite Hnext1. reflexivity.
Qed.

Lemma X23_witness :
  let l := Reporter.turns (Reporter.idle reporter0)
             [Reporter.Call (Reporter.CallStart None true);
              Reporter.Call (Reporter.CallStart None true);
              Reporter.Settle O; Reporter.Settle O; Reporter.Settle O;
              Reporter.Settle O; Reporter.Settle O; Reporter.Settle O] in
  Reporter.pending l = []
  /\ Reporter.armed (Reporter.timers (Reporter.world l))
     = [(1%nat, Js.VNumber (Js.Fin 60000)); (2%nat, Js.VNumber (Js.Fin 60000))]
  /\ Reporter.interval (Reporter.self (Reporter.world l)) = Some 2%nat.
Proof.
  exact (X23_overlapping_starts_arm_two_intervals reporter0 None None
           Js.VUndefined Js.VUndefined eq_refl
           (or_intror (ex_intro _ O (conj eq_refl eq_refl))) eq_refl eq_refl).
Defined.
